(** * CloudBench ([bench.py]): orchestration and result extraction

    A shallow embedding of [bench.py] and the properties of its
    specification.  The script is Python 2 code (it divides two [int]s with
    [/] and applies [str] patterns to the output of [subprocess]), so the
    primitives below follow CPython 2.7: [str] is a byte string, [int / int]
    is floor division, and [dict] is the open-addressing hash table of
    [dictobject.c]. *)

From Stdlib Require Import ZArith List String Ascii Bool Lia DecimalString Permutation.
Import ListNotations.
Open Scope string_scope.
Open Scope Z_scope.

(** ** Python 2 string primitives *)

Module Py.

(** [str.isspace] / [\s] : space, \t, \n, \v, \f, \r. *)
Definition isspace (a : ascii) : bool :=
  let n := nat_of_ascii a in
  ((9 <=? n)%nat && (n <=? 13)%nat) || (n =? 32)%nat.

(** [\d] on a byte string: 0-9. *)
Definition isdigit (a : ascii) : bool :=
  let n := nat_of_ascii a in (48 <=? n)%nat && (n <=? 57)%nat.

Definition newline : ascii := ascii_of_nat 10.
Definition nl : string := String newline "".

Definition is_empty (s : string) : bool :=
  match s with EmptyString => true | String _ _ => false end.

Fixpoint lstrip (s : string) : string :=
  match s with
  | String a s' => if isspace a then lstrip s' else s
  | EmptyString => EmptyString
  end.

Fixpoint rstrip (s : string) : string :=
  match s with
  | EmptyString => EmptyString
  | String a s' =>
      let r := rstrip s' in
      if is_empty r && isspace a then EmptyString else String a r
  end.

(** [s.strip()] *)
Definition strip (s : string) : string := rstrip (lstrip s).

(** [s.split()] : the maximal runs of non-whitespace characters. *)
Fixpoint split_from (s cur : string) : list string :=
  match s with
  | EmptyString => if is_empty cur then [] else [cur]
  | String a s' =>
      if isspace a
      then (if is_empty cur then split_from s' "" else cur :: split_from s' "")
      else split_from s' (cur ++ String a "")
  end.

Definition split (s : string) : list string := split_from s "".

(** [re.split('\s+', s)] : the pieces between maximal whitespace runs,
    empty pieces at the two ends included. *)
Fixpoint re_split_from (s cur : string) (insep : bool) : list string :=
  match s with
  | EmptyString => [cur]
  | String a s' =>
      if isspace a
      then (if insep then re_split_from s' cur true
            else cur :: re_split_from s' "" true)
      else re_split_from s' (cur ++ String a "") false
  end.

Definition re_split_ws (s : string) : list string := re_split_from s "" false.

(** [int(s)] for a [str]: surrounding whitespace is skipped, then an optional
    sign and one or more decimal digits; anything else is a [ValueError]
    ([None]).  The value is unbounded ([int] promotes to [long]). *)
Fixpoint digits_val (s : string) (acc : Z) : option Z :=
  match s with
  | EmptyString => Some acc
  | String a s' =>
      if isdigit a
      then digits_val s' (10 * acc + (Z.of_nat (nat_of_ascii a) - 48))
      else None
  end.

Definition unsigned_val (s : string) : option Z :=
  if is_empty s then None else digits_val s 0.

Definition int (s : string) : option Z :=
  match strip s with
  | String "-" t => option_map Z.opp (unsigned_val t)
  | String "+" t => unsigned_val t
  | t => unsigned_val t
  end.

(** [str(n)], that is ['%s' % n], for an integer. *)
Definition str_of_Z (z : Z) : string := NilZero.string_of_int (Z.to_int z).

(** The value bound to [args.iobench_short_size]: argparse declares the
    option with [action='store_true', default=512], so the attribute is the
    [int] 512 or the [bool] [True]. *)
Inductive num : Type :=
| PInt (z : Z)
| PBool (b : bool).

(** [bool] is a subclass of [int]: its numeric value. *)
Definition num_val (n : num) : Z :=
  match n with
  | PInt z => z
  | PBool true => 1
  | PBool false => 0
  end.

(** ['%s' % n] *)
Definition num_str (n : num) : string :=
  match n with
  | PInt z => str_of_Z z
  | PBool true => "True"
  | PBool false => "False"
  end.

(** [n * k]: always an [int]. *)
Definition num_mul (n : num) (k : Z) : Z := num_val n * k.

(** [xs[i]] on a list: [None] stands for [IndexError]. *)
Definition index {A} (xs : list A) (i : nat) : option A := nth_error xs i.

End Py.

(** ** Regular expressions of the test registry

    The three patterns of the registry use literal characters, the classes
    [\s], [\d] and [.], greedy [+] on a class, and one capture group.
    [search] is [re.search]: leftmost start, backtracking with greedy
    priority; the result is [groups()[0]] of the match. *)

Module Re.

Inductive cclass : Type :=
| Lit (a : ascii)
| Digit
| Space
| Dot.

Inductive tok : Type :=
| One (c : cclass)
| Plus (c : cclass)
| GOpen
| GClose.

Definition regex := list tok.

Definition cmatch (c : cclass) (a : ascii) : bool :=
  match c with
  | Lit b => Ascii.eqb a b
  | Digit => Py.isdigit a
  | Space => Py.isspace a
  | Dot => negb (Ascii.eqb a Py.newline)
  end.

(** State of the capture group while matching. *)
Inductive cap : Type :=
| NotYet
| Opened (acc : string)
| Closed (g : string).

Definition push (c : cap) (a : ascii) : cap :=
  match c with
  | Opened acc => Opened (acc ++ String a "")
  | _ => c
  end.

Definition close (c : cap) : cap :=
  match c with
  | Opened acc => Closed acc
  | _ => c
  end.

Definition group0 (c : cap) : string :=
  match c with
  | Closed g => g
  | Opened acc => acc
  | NotYet => ""
  end.

Fixpoint match_here (r : regex) (s : string) (c : cap) {struct r} : option string :=
  match r with
  | [] => Some (group0 c)
  | One cl :: r' =>
      match s with
      | String a s' => if cmatch cl a then match_here r' s' (push c a) else None
      | EmptyString => None
      end
  | Plus cl :: r' =>
      (fix many (s : string) (c : cap) {struct s} : option string :=
         match s with
         | EmptyString => None
         | String a s' =>
             if cmatch cl a
             then let c' := push c a in
                  match many s' c' with
                  | Some g => Some g
                  | None => match_here r' s' c'
                  end
             else None
         end) s c
  | GOpen :: r' => match_here r' s (Opened "")
  | GClose :: r' => match_here r' s (close c)
  end.

Fixpoint search (r : regex) (s : string) : option string :=
  match match_here r s NotYet with
  | Some g => Some g
  | None =>
      match s with
      | EmptyString => None
      | String _ s' => search r s'
      end
  end.

Fixpoint lit (s : string) : regex :=
  match s with
  | EmptyString => []
  | String a s' => One (Lit a) :: lit s'
  end.

End Re.


(** ** The [dict] of CPython 2.7

    [results = {}] is a plain Python 2 [dict]: an open-addressing hash table
    ([Objects/dictobject.c]) whose iteration order is the order of its slots.
    The program never deletes a key, so no slot is ever a dummy and
    [ma_fill = ma_used]. *)

Module PyDict.

(** C [long] / [size_t] of a [bits]-bit build. *)
Definition to_long (bits : Z) (x : Z) : Z :=
  (x + 2 ^ (bits - 1)) mod 2 ^ bits - 2 ^ (bits - 1).

Definition to_size_t (bits : Z) (x : Z) : Z := x mod 2 ^ bits.

Definition ord (a : ascii) : Z := Z.of_nat (nat_of_ascii a).

(** [string_hash] of [Objects/stringobject.c], hash randomization off (the
    default of Python 2.7). *)
Fixpoint hash_loop (bits : Z) (s : string) (x : Z) : Z :=
  match s with
  | EmptyString => x
  | String a s' => hash_loop bits s' (Z.lxor (to_long bits (1000003 * x)) (ord a))
  end.

Definition string_hash (bits : Z) (s : string) : Z :=
  match s with
  | EmptyString => 0
  | String a _ =>
      let x := hash_loop bits s (Z.shiftl (ord a) 7) in
      let x := Z.lxor x (Z.of_nat (String.length s)) in
      if x =? -1 then -2 else x
  end.

Section Table.

Variable bits : Z.
Variable V : Type.

Inductive entry : Type :=
| Unused
| Active (me_hash : Z) (me_key : string) (me_value : V).

Record dict : Type := mkdict {
  ma_used : Z;
  ma_mask : Z;
  ma_table : list entry
}.

Definition PyDict_MINSIZE : Z := 8.
Definition PERTURB_SHIFT : Z := 5.

(** [PyDict_New] *)
Definition empty : dict :=
  mkdict 0 (PyDict_MINSIZE - 1) (repeat Unused (Z.to_nat PyDict_MINSIZE)).

Definition slot (tbl : list entry) (i : Z) : entry := nth (Z.to_nat i) tbl Unused.

Fixpoint set_slot (tbl : list entry) (i : nat) (e : entry) : list entry :=
  match tbl, i with
  | [], _ => []
  | _ :: t, O => e :: t
  | x :: t, S i' => x :: set_slot t i' e
  end.

Definition same_key (e : entry) (hash : Z) (key : string) : bool :=
  match e with
  | Unused => false
  | Active h k _ => (h =? hash) && String.eqb k key
  end.

(** The collision loop of [lookdict_string]:
    [for (perturb = hash; ; perturb >>= PERTURB_SHIFT) { i = (i << 2) + i + perturb + 1; ... }].
    It ends at the first slot that is unused or holds the key; [fuel] bounds
    the number of probes. *)
Fixpoint probe (fuel : nat) (tbl : list entry) (mask hash : Z) (key : string)
    (i perturb : Z) : option Z :=
  match fuel with
  | O => None
  | S fuel' =>
      let i' := to_size_t bits (Z.shiftl i 2 + i + perturb + 1) in
      let j := Z.land i' mask in
      match slot tbl j with
      | Unused => Some j
      | e => if same_key e hash key then Some j
             else probe fuel' tbl mask hash key i' (Z.shiftr perturb PERTURB_SHIFT)
      end
  end.

Definition probes (tbl : list entry) : nat := (List.length tbl + 64)%nat.

Definition lookdict (d : dict) (key : string) (hash : Z) : option Z :=
  let i := Z.land (to_size_t bits hash) (ma_mask d) in
  match slot (ma_table d) i with
  | Unused => Some i
  | e => if same_key e hash key then Some i
         else probe (probes (ma_table d)) (ma_table d) (ma_mask d) hash key i (to_size_t bits hash)
  end.

(** [insertdict]: the value of an existing key is replaced in its slot; a new
    key takes the slot the lookup ended at. *)
Definition insertdict (d : dict) (key : string) (hash : Z) (value : V) : dict :=
  match lookdict d key hash with
  | None => d
  | Some j =>
      match slot (ma_table d) j with
      | Active h k _ =>
          mkdict (ma_used d) (ma_mask d) (set_slot (ma_table d) (Z.to_nat j) (Active h k value))
      | Unused =>
          mkdict (ma_used d + 1) (ma_mask d) (set_slot (ma_table d) (Z.to_nat j) (Active hash key value))
      end
  end.

(** [for (newsize = PyDict_MINSIZE; newsize <= minused && newsize > 0; newsize <<= 1);] *)
Fixpoint grow (fuel : nat) (newsize minused : Z) : Z :=
  match fuel with
  | O => newsize
  | S fuel' => if newsize <=? minused then grow fuel' (Z.shiftl newsize 1) minused else newsize
  end.

(** [dictresize]: a fresh table, the active entries re-inserted in slot
    order ([insertdict_clean] probes like [lookdict_string]). *)
Definition dictresize (d : dict) (minused : Z) : dict :=
  let newsize := grow (Z.to_nat bits) PyDict_MINSIZE minused in
  let fresh := mkdict 0 (newsize - 1) (repeat Unused (Z.to_nat newsize)) in
  fold_left (fun acc e =>
               match e with
               | Unused => acc
               | Active h k v => insertdict acc k h v
               end) (ma_table d) fresh.

(** [PyDict_SetItem], that is [d[key] = value]. *)
Definition setitem (d : dict) (key : string) (value : V) : dict :=
  let d' := insertdict d key (string_hash bits key) value in
  if (ma_used d <? ma_used d') && ((ma_mask d' + 1) * 2 <=? ma_used d' * 3)
  then dictresize d' ((if 50000 <? ma_used d' then 2 else 4) * ma_used d')
  else d'.

(** The display [{key: value}]. *)
Definition singleton (key : string) (value : V) : dict := setitem empty key value.

(** [a.update(b)] for a dict [b] ([dict_merge] with [override = 1]). *)
Definition update (a b : dict) : dict :=
  if ma_used b =? 0 then a
  else
    let a1 := if (ma_mask a + 1) * 2 <=? (ma_used a + ma_used b) * 3
              then dictresize a ((ma_used a + ma_used b) * 2)
              else a in
    fold_left (fun acc e =>
                 match e with
                 | Unused => acc
                 | Active h k v => insertdict acc k h v
                 end) (ma_table b) a1.

(** [d.keys()] : the keys in slot order. *)
Definition keys (d : dict) : list string :=
  flat_map (fun e => match e with Unused => [] | Active _ k _ => [k] end) (ma_table d).

(** Two entries that differ at most in their value. *)
Definition similar (e e' : entry) : Prop :=
  match e, e' with
  | Unused, Unused => True
  | Active h k _, Active h' k' _ => h = h' /\ k = k'
  | _, _ => False
  end.

(** [d[key]]; [None] stands for [KeyError]. *)
Definition getitem (d : dict) (key : string) : option V :=
  match lookdict d key (string_hash bits key) with
  | Some j => match slot (ma_table d) j with
              | Active _ _ v => Some v
              | Unused => None
              end
  | None => None
  end.

End Table.

Arguments Unused {V}.
Arguments Active {V}.
Arguments empty {V}.
Arguments keys {V}.
Arguments ma_table {V}.
Arguments ma_used {V}.
Arguments ma_mask {V}.

End PyDict.

(** ** The shell command lines

    Every [subprocess] call passes one command line to [/bin/sh].  A command
    line is kept in the shape the script gives it: an optional [cd DIR &&]
    prefix, one program with its arguments, and the [grep] / [awk] stages it
    is piped through.  The program is answered by the host; the filter stages
    are the standard utilities and are computed here. *)

Module Sh.

Inductive filter : Type :=
| Grep (pat : string)        (* grep PAT *)
| GrepV (pat : string)       (* grep -v PAT *)
| AwkPrint2.                 (* awk '{print $2}' *)

Record cmdline : Type := mkcmd {
  cd : option string;
  prog : string;
  filters : list filter
}.

(** A command line without directory change or pipe. *)
Definition plain (line : string) : cmdline := mkcmd None line [].

Definition render_filter (f : filter) : string :=
  match f with
  | Grep p => "grep " ++ p
  | GrepV p => "grep -v " ++ p
  | AwkPrint2 => "awk '{print $2}'"
  end.

(** The text handed to the shell. *)
Definition render (c : cmdline) : string :=
  (match cd c with Some d => "cd " ++ d ++ " && " | None => "" end)
  ++ prog c
  ++ fold_right (fun f acc => " | " ++ render_filter f ++ acc) "" (filters c).

(** The lines of a text; a final line needs no terminator. *)
Fixpoint lines_from (s cur : string) : list string :=
  match s with
  | EmptyString => if Py.is_empty cur then [] else [cur]
  | String a s' =>
      if Ascii.eqb a Py.newline then cur :: lines_from s' ""
      else lines_from s' (cur ++ String a "")
  end.

Definition lines (s : string) : list string := lines_from s "".

Definition unlines (ls : list string) : string :=
  fold_right (fun l acc => l ++ Py.nl ++ acc) "" ls.

(** [contains pat s]: [pat] occurs in [s]. *)
Fixpoint contains (pat s : string) : bool :=
  String.prefix pat s ||
  match s with
  | EmptyString => false
  | String _ s' => contains pat s'
  end.

Definition isblank (a : ascii) : bool :=
  let n := nat_of_ascii a in (n =? 32)%nat || (n =? 9)%nat.

Fixpoint fields_from (s cur : string) : list string :=
  match s with
  | EmptyString => if Py.is_empty cur then [] else [cur]
  | String a s' =>
      if isblank a
      then (if Py.is_empty cur then fields_from s' "" else cur :: fields_from s' "")
      else fields_from s' (cur ++ String a "")
  end.

(** [$2] of a record. *)
Definition field2 (l : string) : string := nth 1 (fields_from l "") "".

(** A pattern that starts with a dash is read by [grep] as an option: usage
    error, status 2.  The patterns of the script are otherwise free of
    regular-expression operators, so matching is substring search. *)
Definition is_option (pat : string) : bool := String.prefix "-" pat.

(** Exit status and output of one filter stage on the input [inp]. *)
Definition run_filter (f : filter) (inp : string) : Z * string :=
  match f with
  | Grep p =>
      if is_option p then (2, "")
      else let sel := List.filter (contains p) (lines inp) in
           ((match sel with [] => 1 | _ :: _ => 0 end), unlines sel)
  | GrepV p =>
      if is_option p then (2, "")
      else let sel := List.filter (fun l => negb (contains p l)) (lines inp) in
           ((match sel with [] => 1 | _ :: _ => 0 end), unlines sel)
  | AwkPrint2 => (0, unlines (map field2 (lines inp)))
  end.

(** The pipeline after the program: its status is the status of the last
    stage (the shell has no [pipefail]). *)
Definition run_filters (fs : list filter) (st : Z * string) : Z * string :=
  fold_left (fun acc f => run_filter f (snd acc)) fs st.

End Sh.

(** ** The benchmark script *)

Module Bench.

Definition dq : string := String (ascii_of_nat 34) "".

(** *** Constants and the test registry *)

Definition PACKAGES_REQUIRED : list string :=
  ["php5-cli"; "php5-gd"; "php5-json"; "sqlite3"; "iozone3"; "fio"; "wget"; "ioping"].

(** [re.compile('\s+Average: (\d+)\.\d+ Seconds')] *)
Definition re_average : Re.regex :=
  ([Re.Plus Re.Space] ++ Re.lit "Average: "
   ++ [Re.GOpen; Re.Plus Re.Digit; Re.GClose; Re.One (Re.Lit "."); Re.Plus Re.Digit]
   ++ Re.lit " Seconds")%list.

(** [re.compile('write.+iops=(\d+).+')] and [re.compile('read.+iops=(\d+).+')] *)
Definition re_iops (rw : string) : Re.regex :=
  (Re.lit rw ++ [Re.Plus Re.Dot] ++ Re.lit "iops="
   ++ [Re.GOpen; Re.Plus Re.Digit; Re.GClose; Re.Plus Re.Dot])%list.

(** (name, test, regexp) *)
Definition REQUIRED_PHORONIX_TESTS : list (string * string * Re.regex) :=
  [("Multicore Kernel Compile (seconds)", "pts/build-linux-kernel", re_average)].

(** (test_name, fio_hdr, fio_rw, fio_blocksize, fio_ioengine, regexp); the
    ioengine is a name or [False]. *)
Record fio_test : Type := mkfio {
  test_name : string;
  fio_hdr : string;
  fio_rw : string;
  fio_blocksize : string;
  fio_ioengine : option string;
  regexp : Re.regex
}.

Definition REQUIRED_FIO_TESTS : list fio_test :=
  [mkfio "FIO random writes using 4k blocks" "random-write" "randwrite" "4k" (Some "sync") (re_iops "write");
   mkfio "FIO random reads using 4k blocks" "random-read" "randread" "4k" None (re_iops "read")].

Definition PHORONIX_URL : string :=
  "http://phoronix-test-suite.com/releases/repo/pts.debian/files/phoronix-test-suite_5.2.1_all.deb".
Definition PHORONIX_MD5 : string := "8d0c9ffca7a809934419a3e3ed6e304e".
Definition PHORONIX_TMP : string := "/tmp/phoronix.deb".
Definition PATH_APTGET : string := "/usr/bin/apt-get".
Definition PATH_DPKG : string := "/usr/bin/dpkg".
Definition PATH_WGET : string := "/usr/bin/wget".
Definition PATH_SUDO : string := "/usr/bin/sudo".
Definition PATH_PHORONIX : string := "/usr/bin/phoronix-test-suite".
Definition IOBENCH_PATH : string := "/tmp".
Definition PATH_RESULT_CSV : string := "/tmp/cloudbench.csv".

Definition user_config_xml : string :=
  String.concat Py.nl
    ["<?xml version=" ++ dq ++ "1.0" ++ dq ++ "?>";
     "            <!--Phoronix Test Suite v3.8.0 (Bygland)-->";
     "            <?xml-stylesheet type=" ++ dq ++ "text/xsl" ++ dq ++ " href=" ++ dq ++ "xsl/pts-user-config-viewer.xsl" ++ dq ++ "?>";
     "            <PhoronixTestSuite>";
     "              <Options>";
     "                <OpenBenchmarking>";
     "                  <AnonymousUsageReporting>FALSE</AnonymousUsageReporting>";
     "                  <AnonymousSoftwareReporting>FALSE</AnonymousSoftwareReporting>";
     "                  <AnonymousHardwareReporting>FALSE</AnonymousHardwareReporting>";
     "                  <IndexCacheTTL>3</IndexCacheTTL>";
     "                  <AlwaysUploadSystemLogs>FALSE</AlwaysUploadSystemLogs>";
     "                </OpenBenchmarking>";
     "                <General>";
     "                  <DefaultBrowser></DefaultBrowser>";
     "                  <UsePhodeviCache>TRUE</UsePhodeviCache>";
     "                  <DefaultDisplayMode>DEFAULT</DefaultDisplayMode>";
     "                </General>";
     "                <Modules>";
     "                  <LoadModules>toggle_screensaver, update_checker, graphics_event_checker</LoadModules>";
     "                </Modules>";
     "                <Installation>";
     "                  <RemoveDownloadFiles>FALSE</RemoveDownloadFiles>";
     "                  <SearchMediaForCache>TRUE</SearchMediaForCache>";
     "                  <SymLinkFilesFromCache>FALSE</SymLinkFilesFromCache>";
     "                  <PromptForDownloadMirror>FALSE</PromptForDownloadMirror>";
     "                  <EnvironmentDirectory>~/.phoronix-test-suite/installed-tests/</EnvironmentDirectory>";
     "                  <CacheDirectory>~/.phoronix-test-suite/download-cache/</CacheDirectory>";
     "                </Installation>";
     "                <Testing>";
     "                  <SaveSystemLogs>TRUE</SaveSystemLogs>";
     "                  <SaveInstallationLogs>FALSE</SaveInstallationLogs>";
     "                  <SaveTestLogs>FALSE</SaveTestLogs>";
     "                  <RemoveTestInstallOnCompletion></RemoveTestInstallOnCompletion>";
     "                  <ResultsDirectory>~/.phoronix-test-suite/test-results/</ResultsDirectory>";
     "                  <AlwaysUploadResultsToOpenBenchmarking>FALSE</AlwaysUploadResultsToOpenBenchmarking>";
     "                </Testing>";
     "                <TestResultValidation>";
     "                  <DynamicRunCount>TRUE</DynamicRunCount>";
     "                  <LimitDynamicToTestLength>20</LimitDynamicToTestLength>";
     "                  <StandardDeviationThreshold>3.50</StandardDeviationThreshold>";
     "                  <ExportResultsTo></ExportResultsTo>";
     "                </TestResultValidation>";
     "                <BatchMode>";
     "                  <SaveResults>TRUE</SaveResults>";
     "                  <OpenBrowser>FALSE</OpenBrowser>";
     "                  <UploadResults>FALSE</UploadResults>";
     "                  <PromptForTestIdentifier>FALSE</PromptForTestIdentifier>";
     "                  <PromptForTestDescription>FALSE</PromptForTestDescription>";
     "                  <PromptSaveName>FALSE</PromptSaveName>";
     "                  <RunAllTestCombinations>TRUE</RunAllTestCombinations>";
     "                  <Configured>TRUE</Configured>";
     "                </BatchMode>";
     "                <Networking>";
     "                  <NoNetworkCommunication>FALSE</NoNetworkCommunication>";
     "                  <Timeout>20</Timeout>";
     "                  <ProxyAddress></ProxyAddress>";
     "                  <ProxyPort></ProxyPort>";
     "                </Networking>";
     "              </Options>";
     "            </PhoronixTestSuite>";
     "        "].

(** *** Values, exceptions and the observable trace *)

(** The inner display [{'name': ..., 'result': ...}]. *)
Record TestResult : Type := mkresult {
  name : string;
  result : string
}.

(** Dictionaries of a 64-bit build. *)
Definition bits : Z := 64.
Definition dict : Type := PyDict.dict TestResult.
Definition dict_update : dict -> dict -> dict := PyDict.update bits TestResult.
Definition dict_single : string -> TestResult -> dict := PyDict.singleton bits TestResult.
Definition dict_get : dict -> string -> option TestResult := PyDict.getitem bits TestResult.

(** [CloudBenchException] derives from [BaseException], as does
    [KeyboardInterrupt]; the others derive from [Exception]. *)
Inductive exn : Type :=
| CloudBenchException
| KeyboardInterrupt
| CalledProcessError (returncode : Z) (cmd : string)
| ValueError (literal : string)
| IndexError
| IOError (path : string)
| NameError (variable : string)
| KeyError (key : string).

Definition is_Exception (e : exn) : bool :=
  match e with
  | CloudBenchException | KeyboardInterrupt => false
  | _ => true
  end.

(** What becomes of a command line: the shell exits with a status, having
    printed [stdout], or the user interrupts the run while it is running
    ([KeyboardInterrupt]). *)
Inductive outcome : Type :=
| Exited (status : Z) (stdout : string)
| Interrupted.

Inductive level : Type := DEBUG | INFO | ERROR.

(** An argument of a log record: a text, [results], or an exception. *)
Inductive logarg : Type :=
| AStr (s : string)
| ADict (d : dict)
| AExn (e : exn).

(** The three dictionaries the script updates. *)
Inductive target : Type :=
| in_run_tests          (* [results] of [run_tests] *)
| in_phoronix           (* [phoronix_results] of [_run_tests_phoronix] *)
| in_iobench.           (* [results] of [__run_iobench_test] *)

Inductive Event : Type :=
| Invoked (cmd : string) (o : outcome)                   (* a subprocess call *)
| Logged (lvl : level) (fmt : string) (args : list logarg) (* LOG.debug / info / exception *)
| Opened (path : string)                                 (* open(path, 'w'): created or truncated *)
| Wrote (path chunk : string)                            (* f.write(chunk) *)
| Updated (d : target) (arg : dict).                     (* d.update(arg) *)

Definition trace : Type := list Event.

(** The host: what it answers may depend on everything done so far. *)
Record Host : Type := mkhost {
  exec : trace -> string -> outcome;           (* a program or builtin run by the shell *)
  read_file : trace -> string -> option string; (* open(path).read(); [None] is IOError *)
  can_write : trace -> string -> bool;          (* open(path, 'w') succeeds *)
  gethostname : trace -> string;                (* socket.gethostname() *)
  home : string;                                (* expanduser("~") *)
  md5_hexdigest : string -> string              (* hashlib.md5(data).hexdigest() *)
}.

(** *** The monad of the script: a trace, and a value or a raised exception *)

Definition M (A : Type) : Type := trace -> (exn + A) * trace.

Definition ret {A} (a : A) : M A := fun t => (inr a, t).

Definition bind {A B} (m : M A) (k : A -> M B) : M B :=
  fun t => match m t with
           | (inr a, t') => k a t'
           | (inl e, t') => (inl e, t')
           end.

Definition raise {A} (e : exn) : M A := fun t => (inl e, t).

Definition emit (e : Event) : M unit := fun t => (inr tt, (t ++ [e])%list).

Definition lift {A} (o : option A) (e : exn) : M A :=
  match o with
  | Some a => ret a
  | None => raise e
  end.

Declare Scope py_scope.
Delimit Scope py_scope with py.
Notation "x <- m ;; k" := (bind m (fun x => k))
  (at level 61, m at next level, right associativity) : py_scope.
Notation "m ;; k" := (bind m (fun _ => k))
  (at level 61, right associativity) : py_scope.
Open Scope py_scope.

Definition LOG_debug (fmt : string) (args : list logarg) : M unit := emit (Logged DEBUG fmt args).
Definition LOG_info (fmt : string) (args : list logarg) : M unit := emit (Logged INFO fmt args).
Definition LOG_exception (fmt : string) (args : list logarg) : M unit := emit (Logged ERROR fmt args).

(** [d.update(arg)]: the updated dictionary, the update being recorded. *)
Definition update (tg : target) (d arg : dict) : M dict :=
  emit (Updated tg arg) ;; ret (dict_update d arg).

(** [int(s)] *)
Definition py_int (s : string) : M Z := lift (Py.int s) (ValueError s).

(** [xs[i]] *)
Definition py_index (xs : list string) (i : nat) : M string := lift (Py.index xs i) IndexError.

Section Script.

Variable H : Host.

(** What [/bin/sh -c] reports for a command line after the trace [t]. *)
Definition sh (t : trace) (c : Sh.cmdline) : outcome :=
  let pipeline :=
    match exec H t (Sh.prog c) with
    | Interrupted => Interrupted
    | Exited status out =>
        let r := Sh.run_filters (Sh.filters c) (status, out) in
        Exited (fst r) (snd r)
    end in
  match Sh.cd c with
  | None => pipeline
  | Some d =>
      match exec H t ("cd " ++ d) with
      | Interrupted => Interrupted
      | Exited status _ => if status =? 0 then pipeline else Exited status ""
      end
  end.

(** [subprocess.check_output(cmd, shell=True)] *)
Definition check_output (c : Sh.cmdline) : M string :=
  fun t =>
    let o := sh t c in
    let t' := (t ++ [Invoked (Sh.render c) o])%list in
    match o with
    | Interrupted => (inl KeyboardInterrupt, t')
    | Exited status out =>
        if status =? 0 then (inr out, t')
        else (inl (CalledProcessError status (Sh.render c)), t')
    end.

(** [subprocess.check_call(cmd, shell=True)] *)
Definition check_call (c : Sh.cmdline) : M unit :=
  _ <- check_output c ;; ret tt.

(** [open(path, 'w')] *)
Definition open_w (path : string) : M unit :=
  fun t => if can_write H t path then (inr tt, (t ++ [Opened path])%list)
           else (inl (IOError path), t).

(** [f.write(chunk)] on the file opened at [path] *)
Definition f_write (path chunk : string) : M unit := emit (Wrote path chunk).

(** [open(path).read()] *)
Definition slurp (path : string) : M string :=
  fun t => match read_file H t path with
           | Some s => (inr s, t)
           | None => (inl (IOError path), t)
           end.

(** [for x in xs: results = body(results, x)] *)
Fixpoint for_each {A S} (xs : list A) (body : S -> A -> M S) (s : S) : M S :=
  match xs with
  | [] => ret s
  | x :: xs' => s' <- body s x ;; for_each xs' body s'
  end.

(** *** [parse_args]: the attributes of the parsed command line *)

Record Args : Type := mkargs {
  debug : bool;
  deps : bool;
  iobench_type : string;
  iobench_short_size : Py.num
}.

(** *** [install_deps] *)

Definition install_deps (args : Args) : M unit :=
  for_each PACKAGES_REQUIRED
    (fun _ pkg =>
       LOG_info "Installing package %s" [AStr pkg] ;;
       let cmd := Sh.plain (PATH_SUDO ++ " " ++ PATH_APTGET ++ " install -y " ++ pkg) in
       LOG_debug "CMD: %s" [AStr (Sh.render cmd)] ;;
       check_call cmd) tt ;;
  LOG_info "Fetching and installing phoronix test suite" [] ;;
  let cmd := Sh.plain (PATH_WGET ++ " " ++ PHORONIX_URL ++ " -O " ++ PHORONIX_TMP) in
  LOG_debug "CMD: %s" [AStr (Sh.render cmd)] ;;
  check_call cmd ;;
  data <- slurp PHORONIX_TMP ;;
  let download_md5 := md5_hexdigest H data in
  (if String.eqb download_md5 PHORONIX_MD5 then ret tt
   else LOG_exception "Remote phoronix debian package md5 mismatch (%s != %s)"
          [AStr download_md5; AStr PHORONIX_MD5]) ;;
  let cmd := Sh.plain (PATH_SUDO ++ " " ++ PATH_DPKG ++ " -i " ++ PHORONIX_TMP) in
  LOG_debug "CMD: %s" [AStr (Sh.render cmd)] ;;
  check_call cmd ;;
  let cmd := Sh.plain ("echo -e 'y" ++ Py.nl ++ "y" ++ Py.nl ++ "y" ++ Py.nl ++ "y" ++ Py.nl
                       ++ "y" ++ Py.nl ++ "y" ++ Py.nl ++ "y" ++ Py.nl ++ "y" ++ Py.nl
                       ++ "' | " ++ PATH_PHORONIX ++ " batch-setup") in
  LOG_debug "CMD: %s" [AStr (Sh.render cmd)] ;;
  check_call cmd.

(** *** [__get_hostname] *)

Definition __get_hostname : M string := fun t => (inr (gethostname H t), t).

(** *** [__get_io_test_size] *)

Definition mem_query : Sh.cmdline := Sh.mkcmd None "free -m" [Sh.Grep "Mem:"; Sh.AwkPrint2].

Definition __get_io_test_size (args : Args) : M (Py.num * Z) :=
  let cmd := mem_query in
  LOG_debug "CMD: %s" [AStr (Sh.render cmd)] ;;
  out <- check_output cmd ;;
  ram <- py_int (Py.strip out) ;;
  if String.eqb (iobench_type args) "short" then
    let size_m := iobench_short_size args in
    let size_k := Py.num_mul size_m 1024 in
    ret (size_m, size_k)
  else if String.eqb (iobench_type args) "long" then
    let size_m := ram * 2 in
    let size_k := size_m * 1024 in
    ret (Py.PInt size_m, size_k)
  else
    LOG_exception "Invalid iobench type %s specified, valid values are short or long"
      [AStr (iobench_type args)] ;;
    raise CloudBenchException.

(** *** [__run_phoronix_test] *)

Definition __run_phoronix_test (name test : string) (regexp : Re.regex) : M dict :=
  LOG_info "Installing phoronix test %s" [AStr name] ;;
  let cmd := Sh.plain ("phoronix-test-suite install " ++ test) in
  LOG_debug "CMD: %s" [AStr (Sh.render cmd)] ;;
  check_call cmd ;;
  LOG_info "Running phoronix test %s" [AStr name] ;;
  let cmd := Sh.plain (PATH_PHORONIX ++ " batch-run " ++ test) in
  LOG_debug "CMD: %s" [AStr (Sh.render cmd)] ;;
  output <- check_output cmd ;;
  match Re.search regexp output with
  | None =>
      LOG_exception "The phoronix test %s produced unknown output: %s" [AStr test; AStr output] ;;
      raise CloudBenchException
  | Some g => ret (dict_single test (mkresult name g))
  end.

(** *** [__run_iobench_test] *)

Definition iozone_cmd (size_m : Py.num) (size_k : Z) : Sh.cmdline :=
  Sh.mkcmd (Some IOBENCH_PATH)
    ("iozone -I -A -g " ++ Py.num_str size_m ++ "m -n " ++ Py.num_str size_m ++ "m -r 16")
    [Sh.Grep (Py.str_of_Z size_k); Sh.GrepV "maximum"; Sh.GrepV "minimum"].

(** ["Write %s MB/s Read %s MB/s" % (int(cols[2])/1024, int(cols[4])/1024)];
    [/] on two [int]s is floor division. *)
Definition iozone_result (cols : list string) : M string :=
  c2 <- py_index cols 2 ;;
  w <- py_int c2 ;;
  c4 <- py_index cols 4 ;;
  r <- py_int c4 ;;
  ret ("Write " ++ Py.str_of_Z (w / 1024) ++ " MB/s Read " ++ Py.str_of_Z (r / 1024) ++ " MB/s").

(** The iozone block: the updated [results]. *)
Definition run_iozone (size_m : Py.num) (size_k : Z) (results : dict) : M dict :=
  LOG_info "Running 16k record size IOZone Direct I/O bandwidth test" [] ;;
  let cmd := iozone_cmd size_m size_k in
  LOG_debug "CMD: %s" [AStr (Sh.render cmd)] ;;
  output <- check_output cmd ;;
  let cols := Py.re_split_ws (Py.strip output) in
  value <- iozone_result cols ;;
  results <- update in_iobench results
               (dict_single "iozone" (mkresult "IOZone I/O Throughput Test" value)) ;;
  line <- iozone_result cols ;;
  LOG_info line [] ;;
  ret results.

Definition fio_job (size_m : Py.num) (t : fio_test) : list string :=
  ["; " ++ test_name t ++ " " ++ Py.num_str size_m ++ "mb of data" ++ Py.nl;
   "[" ++ fio_hdr t ++ "]" ++ Py.nl;
   "direct=1" ++ Py.nl;
   "buffered=0" ++ Py.nl;
   "rw=" ++ fio_rw t ++ Py.nl;
   "size=" ++ Py.num_str size_m ++ "m" ++ Py.nl;
   "blocksize=" ++ fio_blocksize t ++ Py.nl;
   "directory=" ++ IOBENCH_PATH ++ Py.nl]
  ++ match fio_ioengine t with
     | Some e => ["ioengine=" ++ e ++ Py.nl]
     | None => []
     end.

(** The local name [result]: unbound until the fio loop assigns it the value
    of [re.search], which is [None] or a match object (kept as its
    [groups()[0]]). *)
Inductive binding : Type :=
| Unbound
| Bound (m : option string).

(** The variables the fio loop assigns: [results] and [result]. *)
Definition fio_vars : Type := dict * binding.

(** One iteration of the fio loop. *)
Definition run_fio (size_m : Py.num) (vars : fio_vars) (t : fio_test) : M fio_vars :=
  let fio_test_file := "/tmp" ++ "/" ++ (fio_hdr t ++ ".fio") in
  let fio_test_out := "/tmp" ++ "/" ++ (fio_hdr t ++ ".output") in
  open_w fio_test_file ;;
  for_each (fio_job size_m t) (fun _ chunk => f_write fio_test_file chunk) tt ;;
  LOG_info "Running test %s" [AStr (test_name t)] ;;
  let cmd := Sh.plain ("fio --output=" ++ fio_test_out ++ " " ++ fio_test_file) in
  LOG_debug "CMD: %s" [AStr (Sh.render cmd)] ;;
  check_call cmd ;;
  output <- slurp fio_test_out ;;
  match Re.search (regexp t) output with
  | None =>
      LOG_exception "The fio test %s produced unknown output: %s" [AStr (test_name t); AStr output] ;;
      raise CloudBenchException
  | Some g =>
      results <- update in_iobench (fst vars)
                   (dict_single (fio_hdr t) (mkresult (test_name t) (g ++ " IOPS"))) ;;
      LOG_info "Test results for %s: %s IOPS" [AStr (test_name t); AStr g] ;;
      ret (results, Bound (Some g))
  end.

(** The ioping block.  Its guard [if not result:] reads the variable left by
    the fio loop: a match object is true, [None] is false, an unbound name is
    a [NameError]. *)
Definition run_ioping (vars : fio_vars) : M dict :=
  LOG_info "Running IOPing write latency tests" [] ;;
  let cmd := Sh.plain ("ioping -B -D -c 3 " ++ IOBENCH_PATH) in
  output <- check_output cmd ;;
  let ping_results := Py.split output in
  match snd vars with
  | Unbound => raise (NameError "result")
  | Bound None =>
      LOG_exception "The ioping test produced unknown output: %s" [AStr output] ;;
      raise CloudBenchException
  | Bound (Some _) =>
      latency <- py_index ping_results 5 ;;
      LOG_info "IOPing write latency %susec" [AStr latency] ;;
      latency <- py_index ping_results 5 ;;
      update in_iobench (fst vars)
        (dict_single "ioping" (mkresult "IOPing Write Latency Test" (latency ++ "usec")))
  end.

Definition __run_iobench_test (size_m : Py.num) (size_k : Z) : M dict :=
  let results := PyDict.empty in
  results <- run_iozone size_m size_k results ;;
  vars <- for_each REQUIRED_FIO_TESTS (run_fio size_m) (results, Unbound) ;;
  run_ioping vars.

(** *** [_run_tests_phoronix] and [_run_tests_iobench] *)

Definition _run_tests_phoronix (args : Args) : M dict :=
  let phoronix_results := PyDict.empty in
  let path := home H ++ "/.phoronix-test-suite/user-config.xml" in
  open_w path ;;
  f_write path user_config_xml ;;
  for_each REQUIRED_PHORONIX_TESTS
    (fun phoronix_results '(name, test, regexp) =>
       r <- __run_phoronix_test name test regexp ;;
       update in_phoronix phoronix_results r)
    phoronix_results.

Definition _run_tests_iobench (args : Args) : M dict :=
  sizes <- __get_io_test_size args ;;
  let '(size_m, size_k) := sizes in
  results <- __run_iobench_test size_m size_k ;;
  ret results.

(** *** [run_tests], [run] and the [__main__] block *)

Definition csv_header : string := "hostname,test_name,test_description,test_result" ++ Py.nl.

Definition csv_row (hostname k : string) (r : TestResult) : string :=
  hostname ++ "," ++ k ++ "," ++ name r ++ "," ++ result r ++ Py.nl.

(** The [with open(PATH_RESULT_CSV, 'w') as f:] block of [run_tests]. *)
Definition write_report (results : dict) : M unit :=
  open_w PATH_RESULT_CSV ;;
  hostname <- __get_hostname ;;
  f_write PATH_RESULT_CSV csv_header ;;
  for_each (PyDict.keys results)
    (fun _ k =>
       v <- lift (dict_get results k) (KeyError k) ;;
       f_write PATH_RESULT_CSV (csv_row hostname k v)) tt.

(** The body of [run_tests] up to the report: [results] filled by the two
    families, compute first. *)
Definition collect_results (args : Args) : M dict :=
  let results := PyDict.empty in
  LOG_info "Beginning CloudBench tests" [] ;;
  r <- _run_tests_phoronix args ;;
  results <- update in_run_tests results r ;;
  r <- _run_tests_iobench args ;;
  results <- update in_run_tests results r ;;
  LOG_info "All CloudBench tests completed" [] ;;
  LOG_debug "Test Result Dump: %r" [ADict results] ;;
  ret results.

Definition run_tests (args : Args) : M unit :=
  results <- collect_results args ;;
  write_report results.

Definition run (args : Args) : M unit :=
  (if deps args
   then LOG_info "Installing Dependencies" [] ;; install_deps args
   else ret tt) ;;
  run_tests args.

(** The [try] block of [__main__], from the parsed arguments on: the exit
    status of the process and the final trace.  [sys.exit(0)] raises
    [SystemExit], which none of the handlers catches. *)
Definition main (args : Args) (t : trace) : Z * trace :=
  match run args t with
  | (inr _, t') => (0, t')
  | (inl err, t') =>
      if is_Exception err
      then (1, (t' ++ [Logged ERROR "%s" [AExn err]])%list)
      else match err with
           | CloudBenchException => (1, t')
           | KeyboardInterrupt => (1, t')
           | _ => (1, t')   (* uncaught: traceback, status 1 *)
           end
  end.

End Script.

End Bench.

(** ** Sample hosts *)

Module Demo.

Import Bench.

(** Output of [free -m] on a host with 2048 MB. *)
Definition free_out : string :=
  "             total       used       free     shared    buffers     cached" ++ Py.nl ++
  "Mem:          2048       1000       1048          0        100        500" ++ Py.nl ++
  "-/+ buffers/cache:        400       1648" ++ Py.nl ++
  "Swap:            0          0          0" ++ Py.nl.

(** The three rows of an iozone block for a 524288 KB file. *)
Definition row_min : string := "          524288      16   90112   95000   180224  minimum".
Definition row_avg : string := "          524288      16  102400  110000   205823".
Definition row_max : string := "          524288      16  120000  130000   230000  maximum".

Definition iozone_out : string :=
  "        Command line used: iozone -I -A -g 512m -n 512m -r 16" ++ Py.nl ++
  "              KB  reclen   write rewrite    read" ++ Py.nl ++
  Sh.unlines [row_min; row_avg; row_max].

Definition phoronix_out : string :=
  "Linux Kernel Compile:" ++ Py.nl ++ "    Average: 123.45 Seconds" ++ Py.nl.

Definition fio_write_out : string :=
  "  write: io=524288KB, bw=1234KB/s, iops=308, runt=1000msec" ++ Py.nl.
Definition fio_read_out : string :=
  "  read : io=524288KB, bw=4321KB/s, iops=1080, runt=1000msec" ++ Py.nl.

(** [ioping -B]: requests, time, rate, speed, then min / avg / max / mdev. *)
Definition ioping_out : string := "3 1234 2431 9959139 399 411 429 13" ++ Py.nl.

Definition batch_run : string := "/usr/bin/phoronix-test-suite batch-run pts/build-linux-kernel".
Definition ioping_line : string := "ioping -B -D -c 3 /tmp".

(** A host on which every tool succeeds, except for the answers in [over]. *)
Definition answers (over : string -> option outcome) (t : trace) (c : string) : outcome :=
  match over c with
  | Some o => o
  | None =>
      if String.eqb c "free -m" then Exited 0 free_out
      else if String.eqb c "iozone -I -A -g 512m -n 512m -r 16" then Exited 0 iozone_out
      else if String.eqb c batch_run then Exited 0 phoronix_out
      else if String.eqb c ioping_line then Exited 0 ioping_out
      else Exited 0 ""
  end.

Definition files (t : trace) (p : string) : option string :=
  if String.eqb p "/tmp/random-write.output" then Some fio_write_out
  else if String.eqb p "/tmp/random-read.output" then Some fio_read_out
  else None.

Definition host_with (over : string -> option outcome) : Host :=
  mkhost (answers over) files (fun _ _ => true) (fun _ => "node1") "/root" (fun _ => "").

(** Every tool succeeds. *)
Definition healthy : Host := host_with (fun _ => None).

(** [free] is missing: the shell reports status 127 and no output for it. *)
Definition no_free : Host :=
  host_with (fun c => if String.eqb c "free -m" then Some (Exited 127 "") else None).

(** The compute benchmark exits with status 1. *)
Definition failing_compute : Host :=
  host_with (fun c => if String.eqb c batch_run then Some (Exited 1 "") else None).

(** [ioping] prints nothing. *)
Definition silent_ioping : Host :=
  host_with (fun c => if String.eqb c ioping_line then Some (Exited 0 "") else None).

(** [ioping] prints a line for the reader, not the statistics of [-B]. *)
Definition garbled_ioping : Host :=
  host_with (fun c => if String.eqb c ioping_line
                      then Some (Exited 0 "4 KiB from /tmp (ext4 /dev/sda1): request=1 time=205 us")
                      else None).

Definition short_args : Args := mkargs false false "short" (Py.PInt 512).
Definition long_args : Args := mkargs false false "long" (Py.PInt 512).
Definition medium_args : Args := mkargs false false "medium" (Py.PInt 512).

End Demo.

(** ** Observations on runs *)

Module Obs.

Import Bench.

Definition err_of {A} (r : exn + A) : option exn :=
  match r with
  | inl e => Some e
  | inr _ => None
  end.

(** [sat m Q]: every run of [m] extends the trace by events [evs] that,
    with the exception raised (if any), satisfy [Q]. *)
Definition sat {A} (m : M A) (Q : option exn -> list Event -> Prop) : Prop :=
  forall t, exists evs, snd (m t) = (t ++ evs)%list /\ Q (err_of (fst (m t))) evs.

(** [post m R]: a value returned by [m] satisfies [R]. *)
Definition post {A} (m : M A) (R : A -> Prop) : Prop :=
  forall t a t', m t = (inr a, t') -> R a.

(** [starts m t pre]: run after [t], [m] begins with the events [pre]. *)
Definition starts {A} (m : M A) (t : trace) (pre : list Event) : Prop :=
  exists rest, snd (m t) = (t ++ pre ++ rest)%list.

(** [grows k]: whatever it is given, [k] only adds events to the trace. *)
Definition grows {A B} (k : A -> M B) : Prop :=
  forall a t, exists evs, snd (k a t) = (t ++ evs)%list.

(** An invariant of every single event. *)
Definition each (ok : Event -> Prop) : option exn -> list Event -> Prop :=
  fun _ evs => Forall ok evs.

(** An invariant that survives sequencing. *)
Definition sequential (Q : option exn -> list Event -> Prop) : Prop :=
  forall evs1 r evs2, Q None evs1 -> Q r evs2 -> Q r (evs1 ++ evs2)%list.

(** No command line of [evs] exited with a status other than 0. *)
Definition clean (evs : list Event) : Prop :=
  forall c status out, In (Invoked c (Exited status out)) evs -> status = 0.

(** Either no command line failed, or the failing one is the last event and
    its [CalledProcessError] is the exception raised. *)
Definition fail_fast (r : option exn) (evs : list Event) : Prop :=
  clean evs \/
  exists pre c status out,
    evs = (pre ++ [Invoked c (Exited status out)])%list /\ clean pre /\
    status <> 0 /\ r = Some (CalledProcessError status c).

(** The command lines of the compute family, from the registry. *)
Definition compute_cmds : list string :=
  flat_map (fun '(_, test, _) =>
              ["phoronix-test-suite install " ++ test; PATH_PHORONIX ++ " batch-run " ++ test])
           REQUIRED_PHORONIX_TESTS.

Definition is_compute_cmd (c : string) : bool := existsb (String.eqb c) compute_cmds.

(** The command lines of the I/O family: the memory query, iozone, fio and
    ioping. *)
Definition is_io_cmd (c : string) : bool :=
  String.eqb c (Sh.render mem_query)
  || String.prefix ("cd " ++ IOBENCH_PATH ++ " && iozone ") c
  || String.prefix "fio " c
  || String.prefix "ioping " c.

(** An event that does not touch the report file. *)
Definition off_report (e : Event) : Prop :=
  match e with
  | Opened p | Wrote p _ => p <> PATH_RESULT_CSV
  | _ => True
  end.

(** Nothing of the report file is touched in [evs]. *)
Definition no_report (evs : list Event) : Prop := Forall off_report evs.

(** An event of the compute family: no command line but its own. *)
Definition compute_event (e : Event) : Prop :=
  match e with
  | Invoked c _ => is_compute_cmd c = true
  | _ => True
  end.

(** An event of the I/O family. *)
Definition io_event (e : Event) : Prop :=
  match e with
  | Invoked c _ => is_io_cmd c = true
  | _ => True
  end.

(** The identifiers in the order in which the tests recorded their results. *)
Definition execution_order (evs : list Event) : list string :=
  flat_map (fun e => match e with
                     | Updated in_phoronix d | Updated in_iobench d => PyDict.keys d
                     | _ => []
                     end) evs.

(** The second field of a comma-separated row. *)
Fixpoint csv_fields (s cur : string) : list string :=
  match s with
  | EmptyString => [cur]
  | String a s' =>
      if Ascii.eqb a "," then cur :: csv_fields s' ""
      else csv_fields s' (cur ++ String a "")
  end.

(** The identifiers of the report rows, in file order (the header apart). *)
Definition report_order (evs : list Event) : list string :=
  flat_map (fun e => match e with
                     | Wrote p chunk =>
                         if String.eqb p PATH_RESULT_CSV && negb (String.eqb chunk csv_header)
                         then [nth 1 (csv_fields chunk "") ""]
                         else []
                     | _ => []
                     end) evs.

(** The events of the report: the file opened, the header, one row per key
    of [results] in [keys] order. *)
Definition report_events (hostname : string) (rows : list (string * TestResult)) : list Event :=
  Opened PATH_RESULT_CSV :: Wrote PATH_RESULT_CSV csv_header
  :: map (fun kv => Wrote PATH_RESULT_CSV (csv_row hostname (fst kv) (snd kv))) rows.

(** The update [d.update({k: v})] does not make the table of [d] grow. *)
Definition no_growth (d : dict) : Prop :=
  (PyDict.ma_used d + 1) * 3 < (PyDict.ma_mask d + 1) * 2.

(** What [run_tests] still does once the compute family has returned [r]. *)
Definition after_compute (H : Host) (args : Args) (r : dict) : M unit :=
  bind (results <- update in_run_tests PyDict.empty r ;;
        r <- _run_tests_iobench H args ;;
        results <- update in_run_tests results r ;;
        LOG_info "All CloudBench tests completed" [] ;;
        LOG_debug "Test Result Dump: %r" [ADict results] ;;
        ret results)
       (write_report H).

(** What the compute family returns, its test having produced [r0]. *)
Definition compute_dict (r0 : TestResult) : dict :=
  dict_update PyDict.empty (dict_single "pts/build-linux-kernel" r0).

(** What the I/O family returns: iozone, the two fio tests, ioping. *)
Definition io_dict (r1 r2 r3 r4 : TestResult) : dict :=
  dict_update
    (dict_update
       (dict_update
          (dict_update PyDict.empty (dict_single "iozone" r1))
          (dict_single "random-write" r2))
       (dict_single "random-read" r3))
    (dict_single "ioping" r4).

(** [results] of [run_tests] after both families. *)
Definition all_results (r0 r1 r2 r3 r4 : TestResult) : dict :=
  dict_update (dict_update PyDict.empty (compute_dict r0)) (io_dict r1 r2 r3 r4).

(** The identifiers in the order in which the registry has the tests run. *)
Definition planned_order : list string :=
  (map (fun '(_, test, _) => test) REQUIRED_PHORONIX_TESTS
   ++ ["iozone"] ++ map fio_hdr REQUIRED_FIO_TESTS ++ ["ioping"])%list.

(** The identifiers in the order of their slots in [results]. *)
Definition slot_order : list string :=
  ["iozone"; "random-read"; "ioping"; "pts/build-linux-kernel"; "random-write"].

(** The rows of the report for the results of the five tests. *)
Definition report_rows (r0 r1 r2 r3 r4 : TestResult) : list (string * TestResult) :=
  [("iozone", r1); ("random-read", r3); ("ioping", r4);
   ("pts/build-linux-kernel", r0); ("random-write", r2)].

(** The record the ioping block would log for an output it cannot read. *)
Definition ioping_complaint (e : Event) : Prop :=
  exists args, e = Logged ERROR "The ioping test produced unknown output: %s" args.

(** A text without line terminator: one line. *)
Fixpoint one_line (s : string) : bool :=
  match s with
  | EmptyString => true
  | String a s' => negb (Ascii.eqb a Py.newline) && one_line s'
  end.

(** What the three [grep] stages of the iozone command line let through. *)
Definition kept (size_k : Z) (l : string) : bool :=
  Sh.contains (Py.str_of_Z size_k) l
  && negb (Sh.contains "maximum" l)
  && negb (Sh.contains "minimum" l).

End Obs.

(** ** Further observations on runs *)

Module More.

Import Bench Obs.

(** *** Captured values *)

Fixpoint all_digits (s : string) : bool :=
  match s with
  | EmptyString => true
  | String a s' => Py.isdigit a && all_digits s'
  end.

(** A non-empty run of the digits 0-9. *)
Definition number (s : string) : Prop := s <> "" /\ all_digits s = true.

(** A token outside the capture group's parentheses. *)
Definition plain_tok (t : Re.tok) : bool :=
  match t with
  | Re.One _ | Re.Plus _ => true
  | Re.GOpen | Re.GClose => false
  end.

(** *** Interrupts and error records *)

(** No command line of [evs] was interrupted. *)
Definition uninterrupted (evs : list Event) : Prop :=
  forall c, ~ In (Invoked c Interrupted) evs.

(** Either no command line was interrupted, or the interrupted one is the
    last event and [KeyboardInterrupt] is the exception raised. *)
Definition interrupt_last (r : option exn) (evs : list Event) : Prop :=
  uninterrupted evs \/
  exists pre c,
    evs = (pre ++ [Invoked c Interrupted])%list /\ uninterrupted pre /\
    r = Some KeyboardInterrupt.

(** The last event is a record of [LOG.exception]. *)
Definition ends_with_error (evs : list Event) : Prop :=
  exists pre fmt args, evs = (pre ++ [Logged ERROR fmt args])%list.

(** [CloudBenchException] is raised only just after such a record. *)
Definition reported (r : option exn) (evs : list Event) : Prop :=
  r = Some CloudBenchException -> ends_with_error evs.

(** Every command line of [evs] exited with status 0. *)
Definition all_succeeded (evs : list Event) : Prop :=
  forall c o, In (Invoked c o) evs -> exists out, o = Exited 0 out.

(** The exceptions a run can end with: every one of [exn] but [NameError]
    and [KeyError]. *)
Definition possible (r : option exn) : Prop :=
  match r with
  | Some (NameError _) | Some (KeyError _) => False
  | _ => True
  end.

Definition raises_possible : option exn -> list Event -> Prop := fun r _ => possible r.

(** *** The plan of a run *)

(** The command lines of [install_deps], in the order of the code. *)
Definition install_cmds : list string :=
  (map (fun pkg => (PATH_SUDO ++ " " ++ PATH_APTGET ++ " install -y " ++ pkg)%string)
     PACKAGES_REQUIRED
   ++ [(PATH_WGET ++ " " ++ PHORONIX_URL ++ " -O " ++ PHORONIX_TMP)%string;
       (PATH_SUDO ++ " " ++ PATH_DPKG ++ " -i " ++ PHORONIX_TMP)%string;
       ("echo -e 'y" ++ Py.nl ++ "y" ++ Py.nl ++ "y" ++ Py.nl ++ "y" ++ Py.nl
         ++ "y" ++ Py.nl ++ "y" ++ Py.nl ++ "y" ++ Py.nl ++ "y" ++ Py.nl
         ++ "' | " ++ PATH_PHORONIX ++ " batch-setup")%string])%list.

(** The command lines of a run in the order of the code, each given by the
    text it begins with (the sizes follow in the iozone command line). *)
Definition plan_steps : list string :=
  (install_cmds
   ++ compute_cmds
   ++ [Sh.render mem_query; ("cd " ++ IOBENCH_PATH ++ " && iozone ")%string]
   ++ map (fun t => ("fio --output=/tmp/" ++ fio_hdr t ++ ".output ")%string) REQUIRED_FIO_TESTS
   ++ ["ioping "%string])%list.

Fixpoint position_from (n : nat) (steps : list string) (c : string) : nat :=
  match steps with
  | [] => O
  | p :: steps' => if String.prefix p c then n else position_from (S n) steps' c
  end.

(** The place of a command line in the plan, from 1; 0 when it has none. *)
Definition position (c : string) : nat := position_from 1 plan_steps c.

(** The command lines of [evs] have places above [lo], strictly increasing,
    up to [hi]. *)
Fixpoint ascending (lo : nat) (evs : list Event) (hi : nat) : Prop :=
  match evs with
  | [] => (lo <= hi)%nat
  | Invoked c _ :: rest => (lo < position c)%nat /\ ascending (position c) rest hi
  | _ :: rest => ascending lo rest hi
  end.

(** The command lines of [evs] have the places [lo + 1], ..., [hi], in this
    order. *)
Fixpoint consecutive (lo : nat) (evs : list Event) (hi : nat) : Prop :=
  match evs with
  | [] => lo = hi
  | Invoked c _ :: rest => position c = S lo /\ consecutive (S lo) rest hi
  | _ :: rest => consecutive lo rest hi
  end.

(** A run that returns has gone from place [lo] to place [hi] of the plan;
    one that raises has stopped on the way. *)
Definition in_plan_order (lo hi : nat) : option exn -> list Event -> Prop :=
  fun r evs =>
    match r with
    | None => consecutive lo evs hi
    | Some _ => exists hi', consecutive lo evs hi'
    end.

(** The places of the command lines of [evs]. *)
Definition places (evs : list Event) : list nat :=
  flat_map (fun e => match e with Invoked c _ => [position c] | _ => [] end) evs.

(** An event that is no command line. *)
Definition silent (e : Event) : Prop :=
  match e with
  | Invoked _ _ => False
  | _ => True
  end.

(** An event of a run without [--deps]: no command line but those of the tests. *)
Definition test_event (e : Event) : Prop :=
  match e with
  | Invoked c _ => is_compute_cmd c || is_io_cmd c = true
  | _ => True
  end.

(** *** [install_deps] in two parts *)

(** The record [install_deps] logs for a download that is not the expected one. *)
Definition md5_mismatch (e : Event) : Prop :=
  exists args, e = Logged ERROR "Remote phoronix debian package md5 mismatch (%s != %s)" args.

Definition dpkg_cmd : string := PATH_SUDO ++ " " ++ PATH_DPKG ++ " -i " ++ PHORONIX_TMP.

(** [install_deps] up to the download read back. *)
Definition fetch (H : Host) : M string :=
  for_each PACKAGES_REQUIRED
    (fun _ pkg =>
       LOG_info "Installing package %s" [AStr pkg] ;;
       let cmd := Sh.plain (PATH_SUDO ++ " " ++ PATH_APTGET ++ " install -y " ++ pkg) in
       LOG_debug "CMD: %s" [AStr (Sh.render cmd)] ;;
       check_call H cmd) tt ;;
  LOG_info "Fetching and installing phoronix test suite" [] ;;
  let cmd := Sh.plain (PATH_WGET ++ " " ++ PHORONIX_URL ++ " -O " ++ PHORONIX_TMP) in
  LOG_debug "CMD: %s" [AStr (Sh.render cmd)] ;;
  check_call H cmd ;;
  slurp H PHORONIX_TMP.

(** What [install_deps] does once the package is installed. *)
Definition setup_phoronix (H : Host) : M unit :=
  let cmd := Sh.plain ("echo -e 'y" ++ Py.nl ++ "y" ++ Py.nl ++ "y" ++ Py.nl ++ "y" ++ Py.nl
                       ++ "y" ++ Py.nl ++ "y" ++ Py.nl ++ "y" ++ Py.nl ++ "y" ++ Py.nl
                       ++ "' | " ++ PATH_PHORONIX ++ " batch-setup") in
  LOG_debug "CMD: %s" [AStr (Sh.render cmd)] ;;
  check_call H cmd.

(** *** The I/O tests and their sizes *)

(** [os.path.join('/tmp', '%s.fio' % fio_hdr)] and its [.output] twin. *)
Definition fio_file (t : fio_test) (ext : string) : string :=
  "/tmp" ++ "/" ++ (fio_hdr t ++ ext).

(** The command lines of [__run_iobench_test] for the sizes it is given. *)
Definition io_test_cmds (size_m : Py.num) (size_k : Z) : list string :=
  (Sh.render (iozone_cmd size_m size_k)
   :: map (fun t => ("fio --output=" ++ fio_file t ".output" ++ " " ++ fio_file t ".fio")%string)
        REQUIRED_FIO_TESTS
   ++ [("ioping -B -D -c 3 " ++ IOBENCH_PATH)%string])%list.

(** An event of the I/O tests run for [size_m] and [size_k]: a command line
    of theirs, or a line of a job file written for [size_m]. *)
Definition sized (size_m : Py.num) (size_k : Z) (e : Event) : Prop :=
  match e with
  | Invoked c _ => In c (io_test_cmds size_m size_k)
  | Wrote p chunk =>
      exists t, In t REQUIRED_FIO_TESTS /\ p = fio_file t ".fio" /\ In chunk (fio_job size_m t)
  | _ => True
  end.

(** *** The results and the files *)


(** The files a run creates or writes. *)
Definition files_written (H : Host) : list string :=
  (home H ++ "/.phoronix-test-suite/user-config.xml")%string
  :: (map (fun t => fio_file t ".fio") REQUIRED_FIO_TESTS ++ [PATH_RESULT_CSV])%list.

Definition known_file (H : Host) (e : Event) : Prop :=
  match e with
  | Opened p | Wrote p _ => In p (files_written H)
  | _ => True
  end.

(** *** Log records and command lines *)

Definition ioping_cmd : string := "ioping -B -D -c 3 " ++ IOBENCH_PATH.

(** The log record that comes just before a command line: [CMD: <line>] of
    [LOG.debug], but for ioping, whose command line is not logged. *)
Definition herald (c : string) : Event :=
  if String.eqb c ioping_cmd
  then Logged INFO "Running IOPing write latency tests" []
  else Logged DEBUG "CMD: %s" [AStr c].

(** Every command line of [evs] comes just after its herald; [prev] is the
    event before [evs]. *)
Fixpoint heralded_after (prev : option Event) (evs : list Event) : Prop :=
  match evs with
  | [] => True
  | e :: rest =>
      match e with
      | Invoked c _ => prev = Some (herald c)
      | _ => True
      end /\ heralded_after (Some e) rest
  end.

Definition heralded : option exn -> list Event -> Prop :=
  fun _ evs => heralded_after None evs.

End More.

(** * Properties *)

Import Bench Obs.
Open Scope list_scope.

(** ** The monad *)

Lemma bind_case {A B} (m : M A) (k : A -> M B) t :
  bind m k t = match m t with
               | (inr a, t') => k a t'
               | (inl e, t') => (inl e, t')
               end.
Proof. reflexivity. Qed.

Lemma bind_inv {A B} (m : M A) (k : A -> M B) t b t' :
  bind m k t = (inr b, t') -> exists a t1, m t = (inr a, t1) /\ k a t1 = (inr b, t').
Proof.
  unfold bind; destruct (m t) as [[e|a] t1]; intros E; [discriminate|].
  exists a, t1; split; [reflexivity|exact E].
Qed.

(** ** [__get_io_test_size] *)

(** The function, run: the query is logged and invoked, its output is
    stripped and parsed, and only then is the mode looked at. *)
Lemma get_io_test_size_run H args t :
  let t1 := (t ++ [Logged DEBUG "CMD: %s" [AStr (Sh.render mem_query)]])%list in
  let o := sh H t1 mem_query in
  let t2 := (t1 ++ [Invoked (Sh.render mem_query) o])%list in
  __get_io_test_size H args t =
  match o with
  | Interrupted => (inl KeyboardInterrupt, t2)
  | Exited status out =>
      if status =? 0 then
        match Py.int (Py.strip out) with
        | None => (inl (ValueError (Py.strip out)), t2)
        | Some ram =>
            if String.eqb (iobench_type args) "short"
            then (inr (iobench_short_size args, Py.num_val (iobench_short_size args) * 1024), t2)
            else if String.eqb (iobench_type args) "long"
            then (inr (Py.PInt (ram * 2), ram * 2 * 1024), t2)
            else (inl CloudBenchException,
                  (t2 ++ [Logged ERROR "Invalid iobench type %s specified, valid values are short or long"
                            [AStr (iobench_type args)]])%list)
        end
      else (inl (CalledProcessError status (Sh.render mem_query)), t2)
  end.
Proof.
  intros t1 o t2. unfold __get_io_test_size, bind, LOG_debug, emit, check_output.
  fold t1. fold o. fold t2.
  destruct o as [status out|]; [|reflexivity].
  destruct (status =? 0); [|reflexivity].
  unfold py_int, lift. destruct (Py.int (Py.strip out)) as [ram|]; [|reflexivity].
  unfold ret, raise, LOG_exception, emit, Py.num_mul.
  destruct (String.eqb (iobench_type args) "short"); [reflexivity|].
  destruct (String.eqb (iobench_type args) "long"); reflexivity.
Qed.

(** C1. With the memory query answering [ram] megabytes, mode [short] gives
    [sizeMegabytes = shortSizeMB] and mode [long] gives
    [sizeMegabytes = 2 * ram]; in both, [sizeKilobytes = sizeMegabytes * 1024];
    (short, 512) gives (512, 524288) and (long, 2048) gives
    (4096, 4194304); the value depends on nothing but the mode, the short
    size and the memory (any other host and trace with the same memory give
    the same value). *)
Theorem derive_size_short_long H args t out ram :
  sh H (t ++ [Logged DEBUG "CMD: %s" [AStr (Sh.render mem_query)]]) mem_query = Exited 0 out ->
  Py.int (Py.strip out) = Some ram ->
  (iobench_type args = "short" ->
     fst (__get_io_test_size H args t)
     = inr (iobench_short_size args, Py.num_val (iobench_short_size args) * 1024)) /\
  (iobench_type args = "long" ->
     fst (__get_io_test_size H args t) = inr (Py.PInt (2 * ram), (2 * ram) * 1024)) /\
  (forall size_m size_k,
     fst (__get_io_test_size H args t) = inr (size_m, size_k) ->
     size_k = Py.num_val size_m * 1024) /\
  (iobench_type args = "short" -> iobench_short_size args = Py.PInt 512 ->
     fst (__get_io_test_size H args t) = inr (Py.PInt 512, 524288)) /\
  (iobench_type args = "long" -> ram = 2048 ->
     fst (__get_io_test_size H args t) = inr (Py.PInt 4096, 4194304)) /\
  (forall H' t' out',
     sh H' (t' ++ [Logged DEBUG "CMD: %s" [AStr (Sh.render mem_query)]]) mem_query = Exited 0 out' ->
     Py.int (Py.strip out') = Some ram ->
     fst (__get_io_test_size H' args t') = fst (__get_io_test_size H args t)).
Proof.
  intros Hsh Hint.
  pose proof (get_io_test_size_run H args t) as E. cbv zeta in E.
  rewrite Hsh, Hint in E. cbn [Z.eqb] in E.
  repeat split.
  - intros Hm. rewrite E, Hm. reflexivity.
  - intros Hm. rewrite E, Hm. cbn [String.eqb Ascii.eqb Bool.eqb fst].
    rewrite (Z.mul_comm ram 2). reflexivity.
  - intros size_m size_k. rewrite E.
    destruct (String.eqb (iobench_type args) "short").
    + cbn [fst]. intros [= <- <-]. reflexivity.
    + destruct (String.eqb (iobench_type args) "long"); cbn [fst].
      * intros [= <- <-]. reflexivity.
      * discriminate.
  - intros Hm Hs. rewrite E, Hm, Hs. reflexivity.
  - intros Hm ->. rewrite E, Hm. reflexivity.
  - intros H' t' out' Hsh' Hint'.
    pose proof (get_io_test_size_run H' args t') as E'. cbv zeta in E'.
    rewrite Hsh', Hint' in E'. cbn [Z.eqb] in E'. rewrite E, E'.
    destruct (String.eqb (iobench_type args) "short"); [reflexivity|].
    destruct (String.eqb (iobench_type args) "long"); reflexivity.
Qed.

Lemma derive_size_short_long_witness :
  fst (__get_io_test_size Demo.healthy Demo.short_args []) = inr (Py.PInt 512, 524288) /\
  fst (__get_io_test_size Demo.healthy Demo.long_args []) = inr (Py.PInt 4096, 4194304).
Proof.
  split.
  - apply (derive_size_short_long Demo.healthy Demo.short_args [] ("2048" ++ Py.nl)%string 2048);
      reflexivity.
  - apply (derive_size_short_long Demo.healthy Demo.long_args [] ("2048" ++ Py.nl)%string 2048);
      reflexivity.
Defined.

(** C9. On every call the memory query is logged and invoked first, whatever
    the mode; when its output is not a decimal integer the call raises
    [ValueError], in mode [short] as in any other. *)
Theorem memory_query_before_mode H args t :
  let t1 := t ++ [Logged DEBUG "CMD: %s" [AStr (Sh.render mem_query)]] in
  (exists rest,
     snd (__get_io_test_size H args t)
     = t1 ++ Invoked (Sh.render mem_query) (sh H t1 mem_query) :: rest) /\
  (forall out,
     sh H t1 mem_query = Exited 0 out ->
     Py.int (Py.strip out) = None ->
     __get_io_test_size H args t
     = (inl (ValueError (Py.strip out)), t1 ++ [Invoked (Sh.render mem_query) (Exited 0 out)])).
Proof.
  intros t1. pose proof (get_io_test_size_run H args t) as E. cbv zeta in E. fold t1 in E.
  split.
  - rewrite E. destruct (sh H t1 mem_query) as [status out|].
    + destruct (status =? 0).
      * destruct (Py.int (Py.strip out)).
        -- destruct (String.eqb (iobench_type args) "short"); [exists []; reflexivity|].
           destruct (String.eqb (iobench_type args) "long"); [exists []; reflexivity|].
           eexists. cbn [snd]. rewrite <- app_assoc. reflexivity.
        -- exists []; reflexivity.
      * exists []; reflexivity.
    + exists []; reflexivity.
  - intros out Hsh Hint. rewrite E, Hsh, Hint. reflexivity.
Qed.

Lemma memory_query_before_mode_witness :
  iobench_type Demo.short_args = "short" /\
  fst (__get_io_test_size Demo.no_free Demo.short_args []) = inl (ValueError "").
Proof.
  split; [reflexivity|].
  rewrite (proj2 (memory_query_before_mode Demo.no_free Demo.short_args []) ""%string);
    reflexivity.
Defined.

(** C5, as the script has it.  For a mode other than [short] and [long], once
    the memory query has run and its output has parsed as an integer, the
    call raises [CloudBenchException]; what it has done by then is the query
    and two log records, nothing else. *)
Theorem invalid_mode_after_query H args t out ram :
  sh H (t ++ [Logged DEBUG "CMD: %s" [AStr (Sh.render mem_query)]]) mem_query = Exited 0 out ->
  Py.int (Py.strip out) = Some ram ->
  iobench_type args <> "short"%string ->
  iobench_type args <> "long"%string ->
  __get_io_test_size H args t
  = (inl CloudBenchException,
     t ++ [Logged DEBUG "CMD: %s" [AStr (Sh.render mem_query)];
           Invoked (Sh.render mem_query) (Exited 0 out);
           Logged ERROR "Invalid iobench type %s specified, valid values are short or long"
             [AStr (iobench_type args)]]).
Proof.
  intros Hsh Hint Hs Hl.
  pose proof (get_io_test_size_run H args t) as E. cbv zeta in E.
  rewrite Hsh, Hint in E. cbn [Z.eqb] in E. rewrite E.
  apply String.eqb_neq in Hs, Hl. rewrite Hs, Hl.
  rewrite <- !app_assoc. reflexivity.
Qed.

Lemma invalid_mode_after_query_witness :
  fst (__get_io_test_size Demo.healthy Demo.medium_args []) = inl CloudBenchException.
Proof.
  rewrite (invalid_mode_after_query Demo.healthy Demo.medium_args [] ("2048" ++ Py.nl)%string 2048);
    [reflexivity | reflexivity | reflexivity | discriminate | discriminate].
Defined.

(** C5 as stated fails: with mode [medium] on a host whose memory query
    prints nothing, the call raises [ValueError], not the configuration
    error, and it has run the query. *)
Lemma invalid_mode_counterexample :
  iobench_type Demo.medium_args <> "short"%string /\
  iobench_type Demo.medium_args <> "long"%string /\
  __get_io_test_size Demo.no_free Demo.medium_args []
  = (inl (ValueError ""),
     [Logged DEBUG "CMD: %s" [AStr "free -m | grep Mem: | awk '{print $2}'"];
      Invoked "free -m | grep Mem: | awk '{print $2}'" (Exited 0 "")]) /\
  ~ (__get_io_test_size Demo.no_free Demo.medium_args [] = (inl CloudBenchException, [])).
Proof.
  split; [discriminate|]. split; [discriminate|]. split; [reflexivity|].
  intros E. vm_compute in E. discriminate E.
Qed.

(** ** The iozone block *)

Lemma getitem_single_iozone (v : TestResult) :
  dict_get (dict_update PyDict.empty (dict_single "iozone" v)) "iozone" = Some v.
Proof. vm_compute. reflexivity. Qed.

Lemma iozone_result_run cols c3 c5 w r t :
  nth_error cols 2 = Some c3 -> nth_error cols 4 = Some c5 ->
  Py.int c3 = Some w -> Py.int c5 = Some r ->
  iozone_result cols t
  = (inr ("Write " ++ Py.str_of_Z (w / 1024) ++ " MB/s Read "
          ++ Py.str_of_Z (r / 1024) ++ " MB/s")%string, t).
Proof.
  intros E2 E4 Ew Er.
  unfold iozone_result, bind, py_index, py_int, lift, Py.index.
  rewrite E2. unfold ret at 1. rewrite Ew. unfold ret at 1.
  rewrite E4. unfold ret at 1. rewrite Er. reflexivity.
Qed.

(** The iozone block, run on an output whose third and fifth columns are
    integers. *)
Lemma run_iozone_ok H size_m size_k results t output c3 c5 w r :
  let cmd := iozone_cmd size_m size_k in
  let t1 := t ++ [Logged INFO "Running 16k record size IOZone Direct I/O bandwidth test" [];
                  Logged DEBUG "CMD: %s" [AStr (Sh.render cmd)]] in
  let value := ("Write " ++ Py.str_of_Z (w / 1024) ++ " MB/s Read "
                ++ Py.str_of_Z (r / 1024) ++ " MB/s")%string in
  let entry := dict_single "iozone" (mkresult "IOZone I/O Throughput Test" value) in
  sh H t1 cmd = Exited 0 output ->
  nth_error (Py.re_split_ws (Py.strip output)) 2 = Some c3 ->
  nth_error (Py.re_split_ws (Py.strip output)) 4 = Some c5 ->
  Py.int c3 = Some w -> Py.int c5 = Some r ->
  run_iozone H size_m size_k results t
  = (inr (dict_update results entry),
     t1 ++ [Invoked (Sh.render cmd) (Exited 0 output); Updated in_iobench entry;
            Logged INFO value []]).
Proof.
  intros cmd t1 value entry Hsh E2 E4 Ew Er.
  unfold run_iozone, bind, LOG_info, LOG_debug, emit, check_output.
  fold cmd. rewrite <- !app_assoc. cbn [app]. fold t1.
  rewrite Hsh. cbn [Z.eqb].
  rewrite (iozone_result_run _ c3 c5 w r _ E2 E4 Ew Er). fold value.
  unfold update, bind, emit, ret. fold entry.
  rewrite (iozone_result_run _ c3 c5 w r _ E2 E4 Ew Er). fold value.
  unfold t1. rewrite <- !app_assoc. reflexivity.
Qed.

(** C10. When the third and fifth columns of the filtered iozone output are
    the integers [w] and [r], the recorded result is
    ["Write <w/1024> MB/s Read <r/1024> MB/s"]: each figure is the quotient
    rounded down to a whole number, which for a throughput (never negative)
    is the truncated quotient. *)
Theorem iozone_value_rounded_down H size_m size_k t output c3 c5 w r :
  sh H (t ++ [Logged INFO "Running 16k record size IOZone Direct I/O bandwidth test" [];
              Logged DEBUG "CMD: %s" [AStr (Sh.render (iozone_cmd size_m size_k))]])
       (iozone_cmd size_m size_k) = Exited 0 output ->
  nth_error (Py.re_split_ws (Py.strip output)) 2 = Some c3 ->
  nth_error (Py.re_split_ws (Py.strip output)) 4 = Some c5 ->
  Py.int c3 = Some w -> Py.int c5 = Some r ->
  exists d t',
    run_iozone H size_m size_k PyDict.empty t = (inr d, t') /\
    dict_get d "iozone"
    = Some (mkresult "IOZone I/O Throughput Test"
              ("Write " ++ Py.str_of_Z (w / 1024) ++ " MB/s Read "
               ++ Py.str_of_Z (r / 1024) ++ " MB/s")%string) /\
    1024 * (w / 1024) <= w < 1024 * (w / 1024) + 1024 /\
    1024 * (r / 1024) <= r < 1024 * (r / 1024) + 1024 /\
    (0 <= w -> w / 1024 = Z.quot w 1024) /\
    (0 <= r -> r / 1024 = Z.quot r 1024).
Proof.
  intros Hsh E2 E4 Ew Er.
  eexists _, _. split; [exact (run_iozone_ok H size_m size_k _ t output c3 c5 w r Hsh E2 E4 Ew Er)|].
  split; [apply getitem_single_iozone|].
  pose proof (Z.mul_div_le w 1024 ltac:(lia)).
  pose proof (Z.mul_succ_div_gt w 1024 ltac:(lia)).
  pose proof (Z.mul_div_le r 1024 ltac:(lia)).
  pose proof (Z.mul_succ_div_gt r 1024 ltac:(lia)).
  repeat split; try lia.
  - intros Hw. symmetry. apply Z.quot_div_nonneg; lia.
  - intros Hr. symmetry. apply Z.quot_div_nonneg; lia.
Qed.

Lemma iozone_value_rounded_down_witness :
  exists d t',
    run_iozone Demo.healthy (Py.PInt 512) 524288 PyDict.empty [] = (inr d, t') /\
    dict_get d "iozone"
    = Some (mkresult "IOZone I/O Throughput Test" "Write 100 MB/s Read 200 MB/s").
Proof.
  destruct (iozone_value_rounded_down Demo.healthy (Py.PInt 512) 524288 []
              (Demo.row_avg ++ Py.nl)%string "102400"%string "205823"%string 102400 205823)
    as (d & t' & E & G & _); try reflexivity.
  exists d, t'. split; [exact E|exact G].
Defined.

(** ** Strings and lines *)

Lemma sapp_nil_r (s : string) : (s ++ "")%string = s.
Proof. induction s as [|a s IH]; cbn; [reflexivity|now rewrite IH]. Qed.

Lemma sapp_assoc (a b c : string) : ((a ++ b) ++ c)%string = (a ++ (b ++ c))%string.
Proof. induction a as [|x a IH]; cbn; [reflexivity|now rewrite IH]. Qed.

Lemma length_sapp (a b : string) :
  String.length (a ++ b) = (String.length a + String.length b)%nat.
Proof. induction a as [|x a IH]; cbn; [reflexivity|now rewrite IH]. Qed.

Lemma one_line_snoc cur a :
  one_line cur = true -> Ascii.eqb a Py.newline = false ->
  one_line (cur ++ String a "") = true.
Proof.
  induction cur as [|x cur IH]; cbn [one_line String.append]; intros Hc Ha.
  - now rewrite Ha.
  - apply andb_true_iff in Hc as [Hx Hc]. rewrite Hx. cbn [andb]. now apply IH.
Qed.

Lemma lines_from_one_line s : forall cur,
  one_line cur = true -> Forall (fun l => one_line l = true) (Sh.lines_from s cur).
Proof.
  induction s as [|a s IH]; intros cur Hc; cbn [Sh.lines_from].
  - destruct (Py.is_empty cur); [constructor|repeat constructor; exact Hc].
  - destruct (Ascii.eqb a Py.newline) eqn:Ea.
    + constructor; [exact Hc|]. now apply IH.
    + apply IH. now apply one_line_snoc.
Qed.

Lemma lines_one_line s : Forall (fun l => one_line l = true) (Sh.lines s).
Proof. apply lines_from_one_line. reflexivity. Qed.

Lemma lines_from_line l : forall cur rest,
  one_line l = true ->
  Sh.lines_from (l ++ String Py.newline rest) cur = (cur ++ l)%string :: Sh.lines_from rest "".
Proof.
  induction l as [|a l IH]; intros cur rest Hl.
  - cbn [String.append Sh.lines_from]. now rewrite Ascii.eqb_refl, sapp_nil_r.
  - cbn [one_line] in Hl. apply andb_true_iff in Hl as [Ha Hl]. apply negb_true_iff in Ha.
    cbn [String.append Sh.lines_from]. rewrite Ha. rewrite (IH _ _ Hl).
    rewrite sapp_assoc. reflexivity.
Qed.

Lemma unlines_cons l ls :
  Sh.unlines (l :: ls) = (l ++ String Py.newline (Sh.unlines ls))%string.
Proof. reflexivity. Qed.

Lemma lines_unlines ls :
  Forall (fun l => one_line l = true) ls -> Sh.lines (Sh.unlines ls) = ls.
Proof.
  induction 1 as [|l ls Hl _ IH]; [reflexivity|].
  rewrite unlines_cons. unfold Sh.lines in *.
  rewrite (lines_from_line l "" _ Hl). cbn [String.append]. now rewrite IH.
Qed.

Lemma Forall_filter {A} (P : A -> Prop) f (l : list A) :
  Forall P l -> Forall P (filter f l).
Proof.
  induction 1 as [|x l Hx _ IH]; cbn; [constructor|].
  destruct (f x); [constructor; assumption|assumption].
Qed.

Lemma run_grep p ls :
  Sh.is_option p = false ->
  Forall (fun l => one_line l = true) ls ->
  Sh.run_filter (Sh.Grep p) (Sh.unlines ls)
  = ((match filter (Sh.contains p) ls with [] => 1 | _ :: _ => 0 end),
     Sh.unlines (filter (Sh.contains p) ls)).
Proof.
  intros Hopt Hls. unfold Sh.run_filter. rewrite Hopt, (lines_unlines ls Hls). reflexivity.
Qed.

Lemma run_grep_v p ls :
  Sh.is_option p = false ->
  Forall (fun l => one_line l = true) ls ->
  Sh.run_filter (Sh.GrepV p) (Sh.unlines ls)
  = ((match filter (fun l => negb (Sh.contains p l)) ls with [] => 1 | _ :: _ => 0 end),
     Sh.unlines (filter (fun l => negb (Sh.contains p l)) ls)).
Proof.
  intros Hopt Hls. unfold Sh.run_filter. rewrite Hopt, (lines_unlines ls Hls). reflexivity.
Qed.

(** The three [grep] stages on a text given by its lines. *)
Lemma grep_stages size_k status ls :
  Sh.is_option (Py.str_of_Z size_k) = false ->
  Forall (fun l => one_line l = true) ls ->
  let sel := filter (kept size_k) ls in
  Sh.run_filters [Sh.Grep (Py.str_of_Z size_k); Sh.GrepV "maximum"; Sh.GrepV "minimum"]
    (status, Sh.unlines ls)
  = ((match sel with [] => 1 | _ :: _ => 0 end), Sh.unlines sel).
Proof.
  intros Hopt Hls sel. unfold Sh.run_filters. cbn [fold_left snd].
  rewrite (run_grep _ ls Hopt Hls). cbn [snd].
  rewrite run_grep_v; [|reflexivity|apply Forall_filter; exact Hls]. cbn [snd].
  rewrite run_grep_v; [|reflexivity|do 2 apply Forall_filter; exact Hls].
  replace (filter (fun l => negb (Sh.contains "minimum" l))
             (filter (fun l => negb (Sh.contains "maximum" l))
                (filter (Sh.contains (Py.str_of_Z size_k)) ls))) with sel; [reflexivity|].
  unfold sel, kept. clear. induction ls as [|l ls IH]; [reflexivity|].
  cbn [filter]. destruct (Sh.contains (Py.str_of_Z size_k) l); cbn [andb filter]; [|exact IH].
  destruct (Sh.contains "maximum" l); cbn [negb andb filter]; [exact IH|].
  destruct (Sh.contains "minimum" l); cbn [negb andb filter]; [exact IH|].
  now rewrite IH.
Qed.

Lemma filter_none {A} f (l : list A) :
  Forall (fun x => f x = false) l -> filter f l = [].
Proof. induction 1 as [|x l Hx _ IH]; cbn; [reflexivity|now rewrite Hx]. Qed.

Lemma lstrip_line s :
  Py.lstrip (s ++ Py.nl) = (Py.lstrip s ++ Py.nl)%string
  \/ (Py.lstrip s = ""%string /\ Py.lstrip (s ++ Py.nl) = ""%string).
Proof.
  induction s as [|a s IH]; cbn.
  - right. split; reflexivity.
  - destruct (Py.isspace a); [exact IH|left; reflexivity].
Qed.

Lemma rstrip_line s : Py.rstrip (s ++ Py.nl) = Py.rstrip s.
Proof.
  induction s as [|a s IH]; [reflexivity|].
  cbn [String.append Py.rstrip]. now rewrite IH.
Qed.

Lemma strip_line s : Py.strip (s ++ Py.nl) = Py.strip s.
Proof.
  unfold Py.strip. destruct (lstrip_line s) as [E|[E1 E2]].
  - rewrite E. apply rstrip_line.
  - now rewrite E1, E2.
Qed.

(** ** The iozone command line *)

Lemma grep_v_lines p inp l :
  Sh.is_option p = false ->
  In l (Sh.lines (snd (Sh.run_filter (Sh.GrepV p) inp))) ->
  Sh.contains p l = false /\ In l (Sh.lines inp).
Proof.
  intros Hopt. unfold Sh.run_filter. rewrite Hopt. cbn [snd].
  rewrite lines_unlines by (apply Forall_filter, lines_one_line).
  intros Hin. apply filter_In in Hin as [Hin Hp].
  split; [now apply negb_true_iff|exact Hin].
Qed.

Lemma grep_stages_lines size_k st l :
  In l (Sh.lines (snd (Sh.run_filters
                         [Sh.Grep (Py.str_of_Z size_k); Sh.GrepV "maximum"; Sh.GrepV "minimum"] st))) ->
  Sh.contains "maximum" l = false /\ Sh.contains "minimum" l = false.
Proof.
  change (Sh.run_filters [Sh.Grep (Py.str_of_Z size_k); Sh.GrepV "maximum"; Sh.GrepV "minimum"] st)
    with (Sh.run_filter (Sh.GrepV "minimum")
            (snd (Sh.run_filter (Sh.GrepV "maximum")
                    (snd (Sh.run_filter (Sh.Grep (Py.str_of_Z size_k)) (snd st)))))).
  intros Hin.
  apply grep_v_lines in Hin as [Hmin Hin]; [|reflexivity].
  apply grep_v_lines in Hin as [Hmax _]; [|reflexivity].
  split; assumption.
Qed.

(** Whatever iozone prints, no line of the captured output contains
    [maximum] or [minimum]. *)
Lemma iozone_output_excludes_extremes H t size_m size_k status out l :
  sh H t (iozone_cmd size_m size_k) = Exited status out ->
  In l (Sh.lines out) ->
  Sh.contains "maximum" l = false /\ Sh.contains "minimum" l = false.
Proof.
  unfold sh, iozone_cmd. cbn [Sh.cd Sh.prog Sh.filters].
  set (p := exec H t _). set (q := exec H t _).
  set (fs := [Sh.Grep (Py.str_of_Z size_k); Sh.GrepV "maximum"; Sh.GrepV "minimum"]).
  assert (Hpipe : match q with
                  | Exited status0 out0 =>
                      Exited (fst (Sh.run_filters fs (status0, out0)))
                             (snd (Sh.run_filters fs (status0, out0)))
                  | Interrupted => Interrupted
                  end = Exited status out ->
                  In l (Sh.lines out) ->
                  Sh.contains "maximum" l = false /\ Sh.contains "minimum" l = false).
  { destruct q as [s0 o0|]; [|discriminate].
    intros E Hin. apply (grep_stages_lines size_k (s0, o0)).
    assert (Eo : out = snd (Sh.run_filters fs (s0, o0))) by congruence.
    rewrite Eo in Hin. exact Hin. }
  destruct p as [s1 o1|]; [|discriminate].
  destruct (s1 =? 0); [exact Hpipe|].
  intros [= _ <-]. intros [].
Qed.

(** C3. No line of the captured iozone output contains [maximum] or
    [minimum]; and when exactly one line [avg] of what iozone prints passes
    the three [grep] stages (it names the file size and has neither word,
    while every other line has one of the words or is not about that size),
    wherever it stands among the others and whatever status iozone itself
    exits with, the captured output is that line and the recorded result is
    made of its third and fifth columns. *)
Theorem iozone_average_row_selected H size_m size_k t status ignored pre avg post c3 c5 w r :
  let cmd := iozone_cmd size_m size_k in
  let t1 := t ++ [Logged INFO "Running 16k record size IOZone Direct I/O bandwidth test" [];
                  Logged DEBUG "CMD: %s" [AStr (Sh.render cmd)]] in
  exec H t1 ("cd " ++ IOBENCH_PATH)%string = Exited 0 ignored ->
  exec H t1 (Sh.prog cmd) = Exited status (Sh.unlines (pre ++ avg :: post)) ->
  Sh.is_option (Py.str_of_Z size_k) = false ->
  Forall (fun l => one_line l = true) (pre ++ avg :: post) ->
  Forall (fun l => kept size_k l = false) (pre ++ post) ->
  Sh.contains (Py.str_of_Z size_k) avg = true ->
  Sh.contains "maximum" avg = false ->
  Sh.contains "minimum" avg = false ->
  nth_error (Py.re_split_ws (Py.strip avg)) 2 = Some c3 ->
  nth_error (Py.re_split_ws (Py.strip avg)) 4 = Some c5 ->
  Py.int c3 = Some w -> Py.int c5 = Some r ->
  (forall l, In l (Sh.lines (avg ++ Py.nl)) ->
     Sh.contains "maximum" l = false /\ Sh.contains "minimum" l = false) /\
  sh H t1 cmd = Exited 0 (avg ++ Py.nl)%string /\
  exists d t',
    run_iozone H size_m size_k PyDict.empty t = (inr d, t') /\
    dict_get d "iozone"
    = Some (mkresult "IOZone I/O Throughput Test"
              ("Write " ++ Py.str_of_Z (w / 1024) ++ " MB/s Read "
               ++ Py.str_of_Z (r / 1024) ++ " MB/s")%string).
Proof.
  intros cmd t1 Hcd Hrun Hopt Hlines Hothers Hsize Hmax Hmin E2 E4 Ew Er.
  assert (Hsh : sh H t1 cmd = Exited 0 (avg ++ Py.nl)%string).
  { unfold cmd in Hrun |- *. cbn [iozone_cmd Sh.prog] in Hrun.
    unfold sh. cbn [iozone_cmd Sh.cd Sh.prog Sh.filters]. rewrite Hcd. cbn [Z.eqb].
    rewrite Hrun.
    rewrite (grep_stages size_k status _ Hopt Hlines). cbv zeta.
    apply Forall_app in Hothers as [Hpre Hpost].
    assert (Hk : kept size_k avg = true) by (unfold kept; now rewrite Hsize, Hmax, Hmin).
    rewrite filter_app. cbn [filter].
    rewrite (filter_none _ pre Hpre), (filter_none _ post Hpost), Hk.
    cbn [app fst snd]. rewrite unlines_cons. unfold Py.nl. reflexivity. }
  split; [|split; [exact Hsh|]].
  - intros l Hin. exact (iozone_output_excludes_extremes H t1 size_m size_k 0 _ l Hsh Hin).
  - rewrite <- strip_line in E2, E4.
    eexists _, _.
    split; [exact (run_iozone_ok H size_m size_k _ t _ c3 c5 w r Hsh E2 E4 Ew Er)|].
    apply getitem_single_iozone.
Qed.

(** The block of the sample host: the wanted row between the two others,
    and the same rows in another order. *)
Lemma iozone_average_row_selected_witness :
  (exists d t',
     run_iozone Demo.healthy (Py.PInt 512) 524288 PyDict.empty [] = (inr d, t') /\
     dict_get d "iozone"
     = Some (mkresult "IOZone I/O Throughput Test" "Write 100 MB/s Read 200 MB/s")) /\
  (exists d t',
     run_iozone
       (Demo.host_with (fun c =>
          if String.eqb c "iozone -I -A -g 512m -n 512m -r 16"
          then Some (Exited 0 (Sh.unlines [Demo.row_avg; Demo.row_max; Demo.row_min]))
          else None))
       (Py.PInt 512) 524288 PyDict.empty [] = (inr d, t') /\
     dict_get d "iozone"
     = Some (mkresult "IOZone I/O Throughput Test" "Write 100 MB/s Read 200 MB/s")).
Proof.
  split.
  - destruct (iozone_average_row_selected Demo.healthy (Py.PInt 512) 524288 [] 0 ""%string
                ["        Command line used: iozone -I -A -g 512m -n 512m -r 16"%string;
                 "              KB  reclen   write rewrite    read"%string; Demo.row_min]
                Demo.row_avg [Demo.row_max] "102400"%string "205823"%string 102400 205823)
      as (_ & _ & d & t' & E & G); try reflexivity.
    + repeat constructor.
    + repeat constructor.
    + exists d, t'. split; [exact E|exact G].
  - destruct (iozone_average_row_selected
                (Demo.host_with (fun c =>
                   if String.eqb c "iozone -I -A -g 512m -n 512m -r 16"
                   then Some (Exited 0 (Sh.unlines [Demo.row_avg; Demo.row_max; Demo.row_min]))
                   else None))
                (Py.PInt 512) 524288 [] 0 ""%string
                [] Demo.row_avg [Demo.row_max; Demo.row_min]
                "102400"%string "205823"%string 102400 205823)
      as (_ & _ & d & t' & E & G); try reflexivity.
    + repeat constructor.
    + repeat constructor.
    + exists d, t'. split; [exact E|exact G].
Defined.

(** ** Invariants of runs *)

Section Rules.

Variable H : Host.
Variable Q : option exn -> list Event -> Prop.

Lemma sat_ret {A} (a : A) : Q None [] -> sat (ret a) Q.
Proof. intros HQ t. exists []. now rewrite app_nil_r. Qed.

Lemma sat_raise {A} e : Q (Some e) [] -> sat (@raise A e) Q.
Proof. intros HQ t. exists []. now rewrite app_nil_r. Qed.

Lemma sat_emit ev : Q None [ev] -> sat (emit ev) Q.
Proof. intros HQ t. exists [ev]. now split. Qed.

Lemma sat_lift {A} (o : option A) e : Q None [] -> Q (Some e) [] -> sat (lift o e) Q.
Proof. intros H1 H2. destruct o; [now apply sat_ret|now apply sat_raise]. Qed.

Lemma sat_bind {A B} (m : M A) (k : A -> M B) :
  sequential Q -> sat m Q -> (forall a, sat (k a) Q) -> sat (bind m k) Q.
Proof.
  intros Hseq Hm Hk t. unfold bind.
  destruct (Hm t) as (evs1 & E1 & Q1).
  destruct (m t) as [[e|a] t1]; cbn [fst snd err_of] in *.
  - exists evs1. now split.
  - destruct (Hk a t1) as (evs2 & E2 & Q2).
    exists (evs1 ++ evs2). subst t1. split.
    + rewrite E2. symmetry. apply app_assoc.
    + now apply Hseq.
Qed.

Lemma sat_check_output c :
  Q (Some KeyboardInterrupt) [Invoked (Sh.render c) Interrupted] ->
  (forall out, Q None [Invoked (Sh.render c) (Exited 0 out)]) ->
  (forall status out, status <> 0 ->
     Q (Some (CalledProcessError status (Sh.render c))) [Invoked (Sh.render c) (Exited status out)]) ->
  sat (check_output H c) Q.
Proof.
  intros Hint Hok Hfail t. unfold check_output.
  destruct (sh H t c) as [status out|].
  - destruct (Z.eqb_spec status 0) as [->|Hne]; eexists; (split; [reflexivity|]); cbn [fst err_of].
    + apply Hok.
    + now apply Hfail.
  - eexists; (split; [reflexivity|]). exact Hint.
Qed.

Lemma sat_check_call c :
  Q (Some KeyboardInterrupt) [Invoked (Sh.render c) Interrupted] ->
  (forall out, Q None [Invoked (Sh.render c) (Exited 0 out)]) ->
  (forall status out, status <> 0 ->
     Q (Some (CalledProcessError status (Sh.render c))) [Invoked (Sh.render c) (Exited status out)]) ->
  sat (check_call H c) Q.
Proof.
  intros Hint Hok Hfail t. unfold check_call, bind, check_output, ret.
  destruct (sh H t c) as [status out|].
  - destruct (Z.eqb_spec status 0) as [->|Hne]; eexists; (split; [reflexivity|]); cbn [fst err_of].
    + apply Hok.
    + now apply Hfail.
  - eexists; (split; [reflexivity|]). exact Hint.
Qed.

Lemma sat_open_w path :
  Q None [Opened path] -> Q (Some (IOError path)) [] -> sat (open_w H path) Q.
Proof.
  intros Hok Hfail t. unfold open_w. destruct (can_write H t path).
  - exists [Opened path]. now split.
  - exists []. now rewrite app_nil_r.
Qed.

Lemma sat_slurp path :
  Q None [] -> Q (Some (IOError path)) [] -> sat (slurp H path) Q.
Proof.
  intros Hok Hfail t. unfold slurp. destruct (read_file H t path).
  - exists []. now rewrite app_nil_r.
  - exists []. now rewrite app_nil_r.
Qed.

Lemma sat_hostname : Q None [] -> sat (__get_hostname H) Q.
Proof. intros HQ t. exists []. now rewrite app_nil_r. Qed.

Lemma sat_for_each {A S} (xs : list A) (body : S -> A -> M S) :
  sequential Q -> Q None [] ->
  (forall s x, In x xs -> sat (body s x) Q) ->
  forall s, sat (for_each xs body s) Q.
Proof.
  intros Hseq Hnil. induction xs as [|x xs IH]; intros Hbody s; cbn [for_each].
  - now apply sat_ret.
  - apply sat_bind; [exact Hseq|apply Hbody; now left|].
    intros s'. apply IH. intros s0 x0 Hin. apply Hbody. now right.
Qed.

End Rules.

(** Walking through a program: one rule per construct, the side conditions
    left to [tac]. *)
Ltac pick_registry :=
  try match goal with
      | Hin : In _ REQUIRED_PHORONIX_TESTS |- _ =>
          unfold REQUIRED_PHORONIX_TESTS in Hin; cbn [In] in Hin; destruct Hin as [<-|[]]
      | Hin : In _ REQUIRED_FIO_TESTS |- _ =>
          unfold REQUIRED_FIO_TESTS in Hin; cbn [In] in Hin; destruct Hin as [<-|[<-|[]]]
      end.

Ltac sat_walk tac :=
  repeat
    (cbv beta iota zeta;
     lazymatch goal with
     | |- sat (bind _ _) _ => apply sat_bind; [tac | | intros ?]
     | |- sat (ret _) _ => apply sat_ret; tac
     | |- sat (raise _) _ => apply sat_raise; tac
     | |- sat (emit _) _ => apply sat_emit; tac
     | |- sat (LOG_info _ _) _ => apply sat_emit; tac
     | |- sat (LOG_debug _ _) _ => apply sat_emit; tac
     | |- sat (LOG_exception _ _) _ => apply sat_emit; tac
     | |- sat (f_write _ _) _ => apply sat_emit; tac
     | |- sat (update _ _ _) _ => unfold update
     | |- sat (py_int _) _ => apply sat_lift; tac
     | |- sat (py_index _ _) _ => apply sat_lift; tac
     | |- sat (lift _ _) _ => apply sat_lift; tac
     | |- sat (check_output _ _) _ => apply sat_check_output; tac
     | |- sat (check_call _ _) _ => apply sat_check_call; tac
     | |- sat (open_w _ _) _ => apply sat_open_w; tac
     | |- sat (slurp _ _) _ => apply sat_slurp; tac
     | |- sat (__get_hostname _) _ => apply sat_hostname; tac
     | |- sat (for_each _ _ _) _ =>
         apply sat_for_each; [tac | tac | intros ? ? ?; pick_registry]
     | |- sat (if ?b then _ else _) _ => destruct b
     | |- sat (match ?x with _ => _ end) _ => destruct x
     | |- sat (let (_, _) := ?x in _) _ => destruct x
     end).

(** *** Failing command lines *)

Lemma clean_nil : clean [].
Proof. intros c status out []. Qed.

Lemma clean_app evs1 evs2 : clean evs1 -> clean evs2 -> clean (evs1 ++ evs2).
Proof.
  intros H1 H2 c status out Hin. apply in_app_or in Hin as [Hin|Hin]; eauto.
Qed.

Lemma clean_one ev :
  (forall c status out, ev = Invoked c (Exited status out) -> status = 0) -> clean [ev].
Proof. intros Hev c status out [E|[]]. eauto. Qed.

Lemma fail_fast_sequential : sequential fail_fast.
Proof.
  intros evs1 r evs2 [H1|(? & ? & ? & ? & _ & _ & _ & [=])] [H2|(pre & c & status & out & E & Hpre & Hne & Hr)].
  - left. now apply clean_app.
  - right. exists (evs1 ++ pre), c, status, out. subst evs2.
    rewrite app_assoc. repeat split; auto. now apply clean_app.
Qed.

Lemma fail_fast_clean r evs : clean evs -> fail_fast r evs.
Proof. now left. Qed.

Lemma fail_fast_failure c status out :
  status <> 0 ->
  fail_fast (Some (CalledProcessError status c)) [Invoked c (Exited status out)].
Proof.
  intros Hne. right. exists [], c, status, out. repeat split; auto using clean_nil.
Qed.

Ltac ff_side :=
  first
    [ exact fail_fast_sequential
    | intros; apply fail_fast_failure; assumption
    | intros; apply fail_fast_clean;
      first [ exact clean_nil
            | apply clean_one; intros ? ? ? [=]; subst; reflexivity
            | apply clean_one; intros ? ? ? [=] ] ].

Ltac unfold_script :=
  unfold run, install_deps, run_tests, collect_results, write_report, _run_tests_phoronix, _run_tests_iobench,
    __run_iobench_test, run_iozone, iozone_result, run_fio, run_ioping,
    __run_phoronix_test, __get_io_test_size.


Lemma split_unique {A} (x x' : A) : forall pre pre' post post',
  pre ++ x :: post = pre' ++ x' :: post' ->
  ~ In x pre' -> ~ In x post' ->
  pre = pre' /\ x = x' /\ post = post'.
Proof.
  induction pre as [|y pre IH]; intros [|y' pre'] post post' E Hpre Hpost; cbn in E.
  - injection E as -> ->. auto.
  - injection E as -> _. exfalso. apply Hpre. now left.
  - injection E as -> <-. exfalso. apply Hpost. apply in_or_app. right. now left.
  - injection E as -> E. destruct (IH pre' post post' E) as (-> & -> & ->); auto.
    intros Hin. apply Hpre. now right.
Qed.

(** In a fail-fast run, a command line that exits with a status other than
    0 is the last event, and its error is the one raised. *)
Lemma fail_fast_last r evs pre c status out post :
  fail_fast r evs ->
  evs = pre ++ Invoked c (Exited status out) :: post ->
  status <> 0 ->
  post = [] /\ r = Some (CalledProcessError status c).
Proof.
  intros [Hclean|(pre' & c' & status' & out' & E' & Hpre' & Hne' & Hr)] E Hne.
  - exfalso. apply Hne. apply (Hclean c status out). subst evs.
    apply in_or_app. right. now left.
  - rewrite E in E'. apply split_unique in E' as (_ & [= -> -> ->] & E3).
    + now subst.
    + intros Hin. apply Hne. exact (Hpre' _ _ _ Hin).
    + intros [].
Qed.



(** *** The two families *)

Lemma each_sequential ok : sequential (each ok).
Proof. intros evs1 r evs2 H1 H2. apply Forall_app. now split. Qed.

Ltac each_side :=
  first
    [ apply each_sequential
    | intros; unfold each; repeat (apply Forall_cons || apply Forall_nil);
      first [exact I | reflexivity] ].

Lemma compute_family_events H args : sat (_run_tests_phoronix H args) (each compute_event).
Proof. unfold_script. sat_walk each_side. Qed.

Lemma io_family_events H args r : sat (after_compute H args r) (each io_event).
Proof. unfold after_compute. unfold_script. sat_walk each_side. Qed.

Lemma run_tests_fail_fast H args : sat (run_tests H args) fail_fast.
Proof. unfold_script. sat_walk ff_side. Qed.

Lemma run_tests_split H args t :
  run_tests H args t
  = bind (_run_tests_phoronix H args) (after_compute H args)
         (t ++ [Logged INFO "Beginning CloudBench tests" []]).
Proof.
  unfold run_tests, collect_results, after_compute, bind, LOG_info, emit.
  destruct (_run_tests_phoronix H args _) as [[e|d] t1]; [reflexivity|].
  destruct (update in_run_tests PyDict.empty d t1) as [[e|d1] t2]; [reflexivity|].
  destruct (_run_tests_iobench H args t2) as [[e|d2] t3]; [reflexivity|].
  destruct (update in_run_tests d1 d2 t3) as [[e|d3] t4]; reflexivity.
Qed.

Lemma compute_not_io c : is_compute_cmd c = true -> is_io_cmd c = false.
Proof.
  unfold is_compute_cmd. cbn [compute_cmds REQUIRED_PHORONIX_TESTS flat_map app existsb].
  rewrite !orb_true_iff. intros [E|[E|[=]]]; apply String.eqb_eq in E; subst c; reflexivity.
Qed.

Lemma sat_grows {A B} (k : A -> M B) Q : (forall a, sat (k a) Q) -> grows k.
Proof. intros Hk a t. destruct (Hk a t) as (evs & E & _). now exists evs. Qed.

Lemma starts_bind {A B} (m : M A) (k : A -> M B) t pre :
  starts m t pre -> grows k -> starts (bind m k) t pre.
Proof.
  intros [rest E] Hk. unfold starts. rewrite bind_case.
  destruct (m t) as [[e|a] t1]; cbn [snd] in *.
  - now exists rest.
  - destruct (Hk a t1) as (evs & E'). exists (rest ++ evs).
    rewrite E', E, <- !app_assoc. reflexivity.
Qed.

(** The I/O family begins with the memory query. *)
Lemma io_family_starts H args t :
  let t1 := t ++ [Logged DEBUG "CMD: %s" [AStr (Sh.render mem_query)]] in
  starts (_run_tests_iobench H args) t
    [Logged DEBUG "CMD: %s" [AStr (Sh.render mem_query)];
     Invoked (Sh.render mem_query) (sh H t1 mem_query)].
Proof.
  intros t1. unfold _run_tests_iobench. apply starts_bind.
  - unfold starts. rewrite get_io_test_size_run. fold t1.
    destruct (sh H t1 mem_query) as [status out|]; [|exists []; unfold t1; cbn [snd];
      rewrite <- !app_assoc; reflexivity].
    destruct (status =? 0); [|exists []; unfold t1; cbn [snd]; rewrite <- !app_assoc; reflexivity].
    destruct (Py.int (Py.strip out)); [|exists []; unfold t1; cbn [snd];
      rewrite <- !app_assoc; reflexivity].
    destruct (String.eqb (iobench_type args) "short");
      [exists []; unfold t1; cbn [snd]; rewrite <- !app_assoc; reflexivity|].
    destruct (String.eqb (iobench_type args) "long");
      [exists []; unfold t1; cbn [snd]; rewrite <- !app_assoc; reflexivity|].
    eexists. unfold t1. cbn [snd]. rewrite <- !app_assoc. reflexivity.
  - apply sat_grows with (Q := each (fun _ => True)). intros [size_m size_k].
    unfold_script. sat_walk each_side.
Qed.

(** Once the compute family has returned, the next command line is the
    memory query of the I/O family. *)
Lemma after_compute_starts H args d t :
  let t1 := t ++ [Updated in_run_tests d;
                  Logged DEBUG "CMD: %s" [AStr (Sh.render mem_query)]] in
  starts (after_compute H args d) t
    [Updated in_run_tests d;
     Logged DEBUG "CMD: %s" [AStr (Sh.render mem_query)];
     Invoked (Sh.render mem_query) (sh H t1 mem_query)].
Proof.
  intros t1. unfold after_compute. apply starts_bind.
  - unfold update at 1.
    assert (Hshape : forall (k : dict -> M dict) t0 pre,
               starts (k (dict_update PyDict.empty d)) (t0 ++ [Updated in_run_tests d]) pre ->
               starts (bind (bind (emit (Updated in_run_tests d))
                                  (fun _ => ret (dict_update PyDict.empty d))) k)
                      t0 (Updated in_run_tests d :: pre)).
    { intros k t0 pre [rest E]. exists rest. rewrite !bind_case. unfold emit, ret.
      rewrite E, <- app_assoc. reflexivity. }
    apply Hshape. apply starts_bind.
    + pose proof (io_family_starts H args (t ++ [Updated in_run_tests d])) as S.
      cbv zeta in S. rewrite <- app_assoc in S. exact S.
    + apply sat_grows with (Q := each (fun _ => True)). intros r.
      unfold_script. sat_walk each_side.
  - apply sat_grows with (Q := each (fun _ => True)). intros results.
    unfold_script. sat_walk each_side.
Qed.

(** C7. The events of [run_tests] split in two: first those of the compute
    family, whose command lines are all the compute family's, then the
    rest, whose command lines are all the I/O family's (no command line
    belongs to both).  When the compute family returns, the next command
    line is the memory query of the I/O family.  When the compute family
    raises, [run_tests] raises the same exception with nothing after it, so
    no I/O test is attempted;
    when the I/O family raises, [run_tests] raises the same exception; and
    after a command line that exits with a status other than 0 nothing more
    is done, so nothing is tried again. *)
Theorem compute_family_then_io_family H args t :
  let t0 := t ++ [Logged INFO "Beginning CloudBench tests" []] in
  (exists evs1 evs2,
     snd (run_tests H args t) = t0 ++ evs1 ++ evs2 /\
     snd (_run_tests_phoronix H args t0) = t0 ++ evs1 /\
     Forall compute_event evs1 /\ Forall io_event evs2 /\
     (forall e, fst (_run_tests_phoronix H args t0) = inl e ->
        evs2 = [] /\ fst (run_tests H args t) = inl e)) /\
  (forall c, is_compute_cmd c = true -> is_io_cmd c = false) /\
  (forall d t1,
     _run_tests_phoronix H args t0 = (inr d, t1) ->
     exists o rest,
       snd (run_tests H args t)
       = t1 ++ Updated in_run_tests d
            :: Logged DEBUG "CMD: %s" [AStr (Sh.render mem_query)]
            :: Invoked (Sh.render mem_query) o :: rest) /\
  (forall d t1 e t2,
     _run_tests_phoronix H args t0 = (inr d, t1) ->
     _run_tests_iobench H args (t1 ++ [Updated in_run_tests d]) = (inl e, t2) ->
     run_tests H args t = (inl e, t2)) /\
  (forall pre c status out post,
     snd (run_tests H args t) = t ++ pre ++ Invoked c (Exited status out) :: post ->
     status <> 0 -> post = []).
Proof.
  intros t0. split; [|split; [|split; [|split]]].
  - destruct (compute_family_events H args t0) as (evs1 & E1 & Q1).
    rewrite run_tests_split. fold t0. unfold bind.
    destruct (_run_tests_phoronix H args t0) as [[e|d] t1]; cbn [fst snd] in *.
    + exists evs1, []. rewrite app_nil_r.
      split; [exact E1|]. split; [exact E1|]. split; [exact Q1|]. split; [constructor|].
      intros e' [= <-]. split; reflexivity.
    + destruct (io_family_events H args d t1) as (evs2 & E2 & Q2).
      exists evs1, evs2. rewrite E2, E1, app_assoc.
      split; [reflexivity|]. split; [reflexivity|]. split; [exact Q1|]. split; [exact Q2|].
      discriminate.
  - apply compute_not_io.
  - intros d t1 E1. rewrite run_tests_split. fold t0. rewrite bind_case, E1.
    destruct (after_compute_starts H args d t1) as (rest & E).
    eexists _, rest. exact E.
  - intros d t1 e t2 E1 E2. rewrite run_tests_split. fold t0.
    unfold bind at 1. rewrite E1.
    unfold after_compute, update, bind, emit, ret. rewrite E2. reflexivity.
  - intros pre c status out post E Hne.
    destruct (run_tests_fail_fast H args t) as (evs & Et & FF).
    rewrite Et in E. apply app_inv_head in E.
    exact (proj1 (fail_fast_last _ _ _ _ _ _ _ FF E Hne)).
Qed.

Lemma compute_family_then_io_family_witness :
  (exists e, fst (run_tests Demo.failing_compute Demo.short_args []) = inl e) /\
  Forall compute_event (snd (run_tests Demo.failing_compute Demo.short_args [])).
Proof.
  destruct (compute_family_then_io_family Demo.failing_compute Demo.short_args [])
    as ((evs1 & evs2 & E & E1 & Q1 & _ & Hfail) & _).
  destruct (Hfail (CalledProcessError 1 Demo.batch_run) eq_refl) as [-> Hrun].
  split.
  - eexists. exact Hrun.
  - rewrite E, app_nil_r. apply Forall_app. split; [repeat constructor|exact Q1].
Defined.

(** ** The hash table *)

(** The string hash on values known from CPython 2.7, 64- and 32-bit. *)
Example string_hash_known :
  PyDict.string_hash 64 "a" = 12416037344 /\
  PyDict.string_hash 64 "abc" = 1453079729188098211 /\
  PyDict.string_hash 32 "a" = -468864544 /\
  PyDict.string_hash 32 "abc" = -1600925533 /\
  PyDict.string_hash 64 "" = 0.
Proof. repeat split; vm_compute; reflexivity. Qed.

(** The first slot of each identifier in a table of 8: all different, so no
    insertion of the run ever meets a collision; and the same on a 32-bit
    build. *)
Example identifier_slots :
  map (fun k => Z.land (PyDict.string_hash 64 k) 7) planned_order = [5; 0; 7; 1; 2] /\
  map (fun k => Z.land (PyDict.string_hash 32 k) 7) planned_order = [5; 0; 7; 1; 2].
Proof. split; vm_compute; reflexivity. Qed.

(** *** Overwriting a key *)

Section Overwrite.

Variable bits : Z.
Variable V : Type.

#[local] Abbreviation entry := (PyDict.entry V).
#[local] Abbreviation slot := (PyDict.slot V).
#[local] Abbreviation set_slot := (PyDict.set_slot V).
#[local] Abbreviation same_key := (PyDict.same_key V).
#[local] Abbreviation similar := (PyDict.similar V).

Lemma similar_refl e : similar e e.
Proof. destruct e; cbn; auto. Qed.

Lemma nth_set_slot (tbl : list entry) : forall n m e,
  nth m (set_slot tbl n e) PyDict.Unused
  = if (m =? n)%nat && (n <? List.length tbl)%nat then e else nth m tbl PyDict.Unused.
Proof.
  induction tbl as [|x tbl IH]; intros n m e.
  - cbn. rewrite andb_false_r. reflexivity.
  - destruct n as [|n], m as [|m]; cbn [PyDict.set_slot nth]; try reflexivity.
    rewrite IH. reflexivity.
Qed.

Lemma similar_set_slot (tbl : list entry) j h k v0 v i :
  slot tbl j = PyDict.Active h k v0 ->
  similar (slot tbl i) (slot (set_slot tbl (Z.to_nat j) (PyDict.Active h k v)) i).
Proof.
  unfold PyDict.slot. intros Hj. rewrite nth_set_slot.
  destruct ((Z.to_nat i =? Z.to_nat j)%nat && (Z.to_nat j <? List.length tbl)%nat) eqn:E.
  - apply andb_true_iff in E as [E _]. apply Nat.eqb_eq in E. rewrite E, Hj. cbn. auto.
  - apply similar_refl.
Qed.

Lemma probe_similar (tbl tbl' : list entry) mask hash key :
  (forall i, similar (slot tbl i) (slot tbl' i)) ->
  forall fuel i perturb,
    PyDict.probe bits V fuel tbl' mask hash key i perturb
    = PyDict.probe bits V fuel tbl mask hash key i perturb.
Proof.
  intros Hsim. induction fuel as [|fuel IH]; intros i perturb; [reflexivity|].
  cbn [PyDict.probe].
  set (j := Z.land _ mask). specialize (Hsim j).
  destruct (slot tbl j) as [|h k v], (slot tbl' j) as [|h' k' v']; cbn in Hsim;
    try contradiction; [reflexivity|].
  destruct Hsim as [<- <-]. cbn [PyDict.same_key]. rewrite IH. reflexivity.
Qed.

Lemma length_set_slot (tbl : list entry) : forall n e,
  List.length (set_slot tbl n e) = List.length tbl.
Proof.
  induction tbl as [|x tbl IH]; intros [|n] e; cbn; auto.
Qed.

Lemma lookdict_similar (d : PyDict.dict V) tbl' key hash :
  (forall i, similar (slot (PyDict.ma_table d) i) (slot tbl' i)) ->
  List.length tbl' = List.length (PyDict.ma_table d) ->
  PyDict.lookdict bits V (PyDict.mkdict V (PyDict.ma_used d) (PyDict.ma_mask d) tbl') key hash
  = PyDict.lookdict bits V d key hash.
Proof.
  intros Hsim Hlen. unfold PyDict.lookdict. cbn [PyDict.ma_mask PyDict.ma_table].
  set (i := Z.land _ _). pose proof (Hsim i) as Hi.
  destruct (slot (PyDict.ma_table d) i) as [|h k v], (slot tbl' i) as [|h' k' v']; cbn in Hi;
    try contradiction; [reflexivity|].
  destruct Hi as [<- <-]. cbn [PyDict.same_key].
  unfold PyDict.probes. rewrite Hlen, (probe_similar _ _ _ _ _ Hsim). reflexivity.
Qed.

(** Where a lookup ends: at an unused slot or at the key. *)
Lemma probe_found (tbl : list entry) mask hash key : forall fuel i perturb j,
  PyDict.probe bits V fuel tbl mask hash key i perturb = Some j ->
  slot tbl j = PyDict.Unused \/ same_key (slot tbl j) hash key = true.
Proof.
  induction fuel as [|fuel IH]; intros i perturb j; [discriminate|].
  cbn [PyDict.probe]. set (j' := Z.land _ mask).
  destruct (slot tbl j') as [|h k v] eqn:E.
  - intros [= <-]. now left.
  - destruct (same_key (PyDict.Active h k v) hash key) eqn:Ek.
    + intros [= <-]. right. now rewrite E.
    + apply IH.
Qed.

Lemma lookdict_found (d : PyDict.dict V) key hash j :
  PyDict.lookdict bits V d key hash = Some j ->
  slot (PyDict.ma_table d) j = PyDict.Unused
  \/ same_key (slot (PyDict.ma_table d) j) hash key = true.
Proof.
  unfold PyDict.lookdict. set (i := Z.land _ _).
  destruct (slot (PyDict.ma_table d) i) as [|h k v] eqn:E.
  - intros [= <-]. now left.
  - destruct (same_key (PyDict.Active h k v) hash key) eqn:Ek.
    + intros [= <-]. right. now rewrite E.
    + apply probe_found.
Qed.

Lemma keys_set_slot (tbl : list entry) : forall n h k v0 v,
  nth n tbl PyDict.Unused = PyDict.Active h k v0 ->
  PyDict.keys (PyDict.mkdict V 0 0 (set_slot tbl n (PyDict.Active h k v)))
  = PyDict.keys (PyDict.mkdict V 0 0 tbl).
Proof.
  unfold PyDict.keys. cbn [PyDict.ma_table].
  induction tbl as [|x tbl IH]; intros [|n] h k v0 v E; cbn in E |- *; try discriminate.
  - subst x. reflexivity.
  - f_equal. eapply IH. exact E.
Qed.

Lemma land7_bound x : 0 <= Z.land x 7 < 8.
Proof.
  change 7 with (Z.ones 3). rewrite Z.land_ones by lia.
  apply Z.mod_pos_bound. reflexivity.
Qed.

(** The display [{k: v}]: one active entry in a table of 8. *)
Lemma singleton_table k v :
  let h := PyDict.string_hash bits k in
  let n := Z.to_nat (Z.land (PyDict.to_size_t bits h) 7) in
  PyDict.singleton bits V k v
  = PyDict.mkdict V 1 7 (set_slot (repeat PyDict.Unused 8) n (PyDict.Active h k v)).
Proof.
  intros h n. unfold PyDict.singleton, PyDict.setitem, PyDict.insertdict, PyDict.lookdict.
  fold h. unfold PyDict.empty, PyDict.PyDict_MINSIZE.
  cbn [PyDict.ma_mask PyDict.ma_table PyDict.ma_used].
  change (8 - 1) with 7. change (Z.to_nat 8) with 8%nat. unfold PyDict.slot.
  rewrite !nth_repeat. fold n. reflexivity.
Qed.

(** Merging [{k: v}] into a dictionary comes down to one [insertdict]. *)
Lemma update_singleton (d : PyDict.dict V) k v :
  (PyDict.ma_used d + 1) * 3 < (PyDict.ma_mask d + 1) * 2 ->
  PyDict.update bits V d (PyDict.singleton bits V k v)
  = PyDict.insertdict bits V d k (PyDict.string_hash bits k) v.
Proof.
  intros Hsmall. rewrite singleton_table. cbv zeta.
  unfold PyDict.update. cbn [PyDict.ma_used PyDict.ma_table].
  change (1 =? 0) with false. cbv iota.
  replace ((PyDict.ma_mask d + 1) * 2 <=? (PyDict.ma_used d + 1) * 3) with false
    by (symmetry; apply Z.leb_gt; exact Hsmall).
  pose proof (land7_bound (PyDict.to_size_t bits (PyDict.string_hash bits k))) as Hb.
  set (j := Z.land _ 7) in *.
  assert (Hn : (Z.to_nat j < 8)%nat) by lia.
  destruct (Z.to_nat j) as [|[|[|[|[|[|[|[|n]]]]]]]]; try reflexivity. lia.
Qed.

(** Overwriting in place: the key keeps its slot, the other entries are
    untouched. *)
Lemma overwrite_in_place (d : PyDict.dict V) k v0 v :
  PyDict.getitem bits V d k = Some v0 ->
  (PyDict.ma_used d + 1) * 3 < (PyDict.ma_mask d + 1) * 2 ->
  let d' := PyDict.update bits V d (PyDict.singleton bits V k v) in
  PyDict.keys d' = PyDict.keys d /\
  PyDict.getitem bits V d' k = Some v /\
  (forall k', k' <> k -> PyDict.getitem bits V d' k' = PyDict.getitem bits V d k').
Proof.
  intros Hget Hsmall d'. unfold d'. rewrite (update_singleton d k v Hsmall).
  unfold PyDict.getitem in Hget.
  set (h := PyDict.string_hash bits k) in *.
  destruct (PyDict.lookdict bits V d k h) as [j|] eqn:Hlook; [|discriminate].
  destruct (slot (PyDict.ma_table d) j) as [|h' k0 v1] eqn:Hslot; [discriminate|].
  injection Hget as ->.
  destruct (lookdict_found d k h j Hlook) as [Hu|Hk]; [congruence|].
  rewrite Hslot in Hk. cbn in Hk. apply andb_true_iff in Hk as [Hh Hk].
  apply Z.eqb_eq in Hh. apply String.eqb_eq in Hk. subst h' k0.
  unfold PyDict.insertdict. rewrite Hlook, Hslot.
  set (tbl' := set_slot (PyDict.ma_table d) (Z.to_nat j) (PyDict.Active h k v)).
  assert (Hsim : forall i, similar (slot (PyDict.ma_table d) i) (slot tbl' i))
    by (intros i; eapply similar_set_slot; exact Hslot).
  assert (Hlen : List.length tbl' = List.length (PyDict.ma_table d))
    by apply length_set_slot.
  assert (Hin : (Z.to_nat j <? List.length (PyDict.ma_table d))%nat = true).
  { apply Nat.ltb_lt. destruct (Nat.lt_ge_cases (Z.to_nat j) (List.length (PyDict.ma_table d)))
      as [Hlt|Hge]; [exact Hlt|].
    unfold PyDict.slot in Hslot. rewrite nth_overflow in Hslot by exact Hge. discriminate. }
  split; [|split].
  - unfold PyDict.keys. cbn [PyDict.ma_table].
    exact (keys_set_slot (PyDict.ma_table d) (Z.to_nat j) h k v0 v Hslot).
  - unfold PyDict.getitem. fold h. rewrite (lookdict_similar d tbl' k h Hsim Hlen), Hlook.
    cbn [PyDict.ma_table]. unfold tbl', PyDict.slot. rewrite nth_set_slot, Nat.eqb_refl, Hin.
    reflexivity.
  - intros k' Hneq. unfold PyDict.getitem.
    rewrite (lookdict_similar d tbl' k' _ Hsim Hlen).
    destruct (PyDict.lookdict bits V d k' (PyDict.string_hash bits k')) as [j'|] eqn:Hlook';
      [|reflexivity].
    cbn [PyDict.ma_table]. unfold tbl', PyDict.slot. rewrite nth_set_slot, Hin, andb_true_r.
    destruct (Nat.eqb_spec (Z.to_nat j') (Z.to_nat j)) as [Ej|Ej]; [|reflexivity].
    exfalso. destruct (lookdict_found d k' _ j' Hlook') as [Hu|Hk'].
    + unfold PyDict.slot in Hu, Hslot. rewrite Ej, Hslot in Hu. discriminate.
    + unfold PyDict.slot in Hk', Hslot. rewrite Ej, Hslot in Hk'. cbn in Hk'.
      apply andb_true_iff in Hk' as [_ Hk']. apply String.eqb_eq in Hk'. congruence.
Qed.

End Overwrite.

(** ** The values the families return *)

Lemma post_ret {A} (a : A) (R : A -> Prop) : R a -> post (ret a) R.
Proof. intros HR t a' t' [= <- _]. exact HR. Qed.

Lemma post_raise {A} e (R : A -> Prop) : post (raise e) R.
Proof. intros t a t' [=]. Qed.

Lemma post_bind {A B} (m : M A) (k : A -> M B) (R1 : A -> Prop) (R : B -> Prop) :
  post m R1 -> (forall a, R1 a -> post (k a) R) -> post (bind m k) R.
Proof.
  intros Hm Hk t b t' E. apply bind_inv in E as (a & t1 & E1 & E2).
  exact (Hk a (Hm _ _ _ E1) _ _ _ E2).
Qed.

Lemma post_bind_any {A B} (m : M A) (k : A -> M B) (R : B -> Prop) :
  (forall a, post (k a) R) -> post (bind m k) R.
Proof.
  intros Hk. apply post_bind with (R1 := fun _ => True); [intros t a t' _; exact I|auto].
Qed.

Lemma update_post tg d arg : post (update tg d arg) (fun d' => d' = dict_update d arg).
Proof. unfold update. apply post_bind_any; intros ?. now apply post_ret. Qed.

Lemma phoronix_test_post H name test re :
  post (__run_phoronix_test H name test re)
       (fun d => exists g, d = dict_single test (mkresult name g)).
Proof.
  unfold __run_phoronix_test. do 6 (apply post_bind_any; intros ?).
  destruct (Re.search re _) as [g|].
  - apply post_ret. now exists g.
  - apply post_bind_any; intros ?. apply post_raise.
Qed.

Lemma compute_family_post H args :
  post (_run_tests_phoronix H args) (fun d => exists r0, d = compute_dict r0).
Proof.
  unfold _run_tests_phoronix. do 2 (apply post_bind_any; intros ?).
  cbn [for_each REQUIRED_PHORONIX_TESTS].
  eapply post_bind; [|intros d' Hd'; apply post_ret; exact Hd'].
  eapply post_bind; [apply phoronix_test_post|].
  intros d (g & ->). intros t d' t' E. apply update_post in E. subst d'.
  eexists. reflexivity.
Qed.

Lemma run_iozone_post H size_m size_k results :
  post (run_iozone H size_m size_k results)
       (fun d => exists r1, d = dict_update results (dict_single "iozone" r1)).
Proof.
  unfold run_iozone. do 4 (apply post_bind_any; intros ?).
  eapply post_bind; [apply update_post|]. intros d ->.
  do 2 (apply post_bind_any; intros ?). apply post_ret. eexists. reflexivity.
Qed.

Lemma run_fio_post H size_m vars t :
  post (run_fio H size_m vars t)
       (fun v => exists r g,
          v = (dict_update (fst vars) (dict_single (fio_hdr t) r), Bound (Some g))).
Proof.
  unfold run_fio. do 6 (apply post_bind_any; intros ?).
  destruct (Re.search _ _) as [g|].
  - eapply post_bind; [apply update_post|]. intros d ->.
    apply post_bind_any; intros ?. apply post_ret. eexists _, g. reflexivity.
  - apply post_bind_any; intros ?. apply post_raise.
Qed.

Lemma run_ioping_post H vars :
  post (run_ioping H vars)
       (fun d => exists r4, d = dict_update (fst vars) (dict_single "ioping" r4)).
Proof.
  unfold run_ioping. do 2 (apply post_bind_any; intros ?).
  destruct (snd vars) as [|[g|]].
  - apply post_raise.
  - do 3 (apply post_bind_any; intros ?).
    intros t d t' E. apply update_post in E. subst d. eexists. reflexivity.
  - apply post_bind_any; intros ?. apply post_raise.
Qed.

Lemma io_test_post H size_m size_k :
  post (__run_iobench_test H size_m size_k)
       (fun d => exists r1 r2 r3 r4, d = io_dict r1 r2 r3 r4).
Proof.
  unfold __run_iobench_test.
  eapply post_bind; [apply run_iozone_post|]. intros d1 (r1 & ->).
  cbn [for_each REQUIRED_FIO_TESTS].
  eapply post_bind with
    (R1 := fun v => exists r2 r3 g,
             v = (dict_update
                    (dict_update (dict_update PyDict.empty (dict_single "iozone" r1))
                       (dict_single "random-write" r2))
                    (dict_single "random-read" r3), Bound (Some g))).
  - eapply post_bind; [apply run_fio_post|]. intros v1 (r2 & g2 & ->).
    eapply post_bind; [apply run_fio_post|]. intros v2 (r3 & g3 & ->).
    apply post_ret. exists r2, r3, g3. reflexivity.
  - intros v (r2 & r3 & g & ->).
    intros t d t' E. destruct (run_ioping_post H _ _ _ _ E) as (r4 & ->).
    exists r1, r2, r3, r4. reflexivity.
Qed.

Lemma io_family_post H args :
  post (_run_tests_iobench H args) (fun d => exists r1 r2 r3 r4, d = io_dict r1 r2 r3 r4).
Proof.
  unfold _run_tests_iobench. apply post_bind_any. intros [size_m size_k].
  eapply post_bind; [apply io_test_post|]. intros d Hd. apply post_ret. exact Hd.
Qed.

Lemma collect_results_post H args :
  post (collect_results H args)
       (fun d => exists r0 r1 r2 r3 r4, d = all_results r0 r1 r2 r3 r4).
Proof.
  unfold collect_results. apply post_bind_any; intros ?.
  eapply post_bind; [apply compute_family_post|]. intros d0 (r0 & ->).
  eapply post_bind; [apply update_post|]. intros ? ->.
  eapply post_bind; [apply io_family_post|]. intros d1 (r1 & r2 & r3 & r4 & ->).
  eapply post_bind; [apply update_post|]. intros ? ->.
  do 2 (apply post_bind_any; intros ?). apply post_ret.
  exists r0, r1, r2, r3, r4. reflexivity.
Qed.

(** The slots of [results]: the same for all values, and the same on a
    32-bit build, where the hashes differ but not their three low bits. *)
Lemma slot_order_32_bits (r0 r1 r2 r3 r4 : TestResult) :
  let update := PyDict.update 32 TestResult in
  let single := PyDict.singleton 32 TestResult in
  PyDict.keys
    (update (update PyDict.empty (update PyDict.empty (single "pts/build-linux-kernel" r0)))
       (update (update (update (update PyDict.empty (single "iozone" r1))
                          (single "random-write" r2))
                  (single "random-read" r3))
          (single "ioping" r4)))
  = slot_order.
Proof. vm_compute. reflexivity. Qed.

(** The slots of [results]: the same for all values. *)
Lemma all_results_keys r0 r1 r2 r3 r4 :
  PyDict.keys (all_results r0 r1 r2 r3 r4) = slot_order.
Proof. vm_compute. reflexivity. Qed.

Lemma all_results_items r0 r1 r2 r3 r4 k v :
  In (k, v) (report_rows r0 r1 r2 r3 r4) ->
  dict_get (all_results r0 r1 r2 r3 r4) k = Some v.
Proof.
  intros Hin. cbn [In report_rows] in Hin.
  repeat (destruct Hin as [[= <- <-]|Hin]; [vm_compute; reflexivity|]).
  destruct Hin.
Qed.

(** ** The report *)

Lemma home_path_not_report h :
  (h ++ "/.phoronix-test-suite/user-config.xml")%string <> PATH_RESULT_CSV.
Proof.
  intros E. apply (f_equal String.length) in E. rewrite length_sapp in E.
  cbn in E. lia.
Qed.

Ltac report_side :=
  first
    [ apply each_sequential
    | intros; unfold each; repeat (apply Forall_cons || apply Forall_nil);
      first [exact I | apply home_path_not_report | now cbv] ].


Lemma collect_off_report H args : sat (collect_results H args) (each off_report).
Proof. unfold_script. sat_walk report_side. Qed.

Lemma report_loop (results : dict) hostname rows :
  (forall k v, In (k, v) rows -> dict_get results k = Some v) ->
  forall t,
    for_each (map fst rows)
      (fun _ k => bind (lift (dict_get results k) (KeyError k))
                    (fun v => f_write PATH_RESULT_CSV (csv_row hostname k v))) tt t
    = (inr tt, t ++ map (fun kv => Wrote PATH_RESULT_CSV (csv_row hostname (fst kv) (snd kv))) rows).
Proof.
  induction rows as [|[k v] rows IH]; intros Hget t.
  - cbn. now rewrite app_nil_r.
  - cbn [map fst snd for_each]. unfold bind at 1 2.
    rewrite (Hget k v) by now left. cbn [lift ret f_write emit].
    rewrite IH by (intros k' v' Hin; apply Hget; now right).
    rewrite <- app_assoc. reflexivity.
Qed.

(** The report block, run on a dictionary whose items are [rows]. *)
Lemma write_report_run H (results : dict) rows t :
  PyDict.keys results = map fst rows ->
  (forall k v, In (k, v) rows -> dict_get results k = Some v) ->
  write_report H results t
  = if can_write H t PATH_RESULT_CSV
    then (inr tt, t ++ report_events (gethostname H (t ++ [Opened PATH_RESULT_CSV])) rows)
    else (inl (IOError PATH_RESULT_CSV), t).
Proof.
  intros Hkeys Hget. unfold write_report, bind at 1, open_w.
  destruct (can_write H t PATH_RESULT_CSV); [|reflexivity].
  unfold bind at 1, __get_hostname. unfold bind at 1, f_write at 1, emit.
  rewrite Hkeys, (report_loop results _ rows Hget).
  unfold report_events. rewrite <- !app_assoc. reflexivity.
Qed.

(** How [run_tests] ends: with an exception and the report untouched, or
    with the report written in full, its rows in slot order. *)
Lemma run_tests_outcome H args t :
  exists evs,
    snd (run_tests H args t) = t ++ evs /\
    match fst (run_tests H args t) with
    | inl _ => no_report evs
    | inr _ =>
        exists pre hostname r0 r1 r2 r3 r4,
          evs = pre ++ report_events hostname (report_rows r0 r1 r2 r3 r4) /\ no_report pre
    end.
Proof.
  destruct (collect_off_report H args t) as (evs & E & Q). unfold each in Q.
  pose proof (collect_results_post H args t) as P.
  unfold run_tests. rewrite bind_case.
  destruct (collect_results H args t) as [[e|results] t1]; cbn [fst snd] in *.
  - exists evs. split; assumption.
  - destruct (P results t1 eq_refl) as (r0 & r1 & r2 & r3 & r4 & ->).
    rewrite (write_report_run H _ (report_rows r0 r1 r2 r3 r4) t1
               (all_results_keys r0 r1 r2 r3 r4) (all_results_items r0 r1 r2 r3 r4)).
    destruct (can_write H t1 PATH_RESULT_CSV); cbn [fst snd].
    + eexists. split; [rewrite E, <- app_assoc; reflexivity|].
      eexists evs, _, r0, r1, r2, r3, r4. split; [reflexivity|exact Q].
    + exists evs. split; assumption.
Qed.




(** ** The order of the result set *)

(** C4 as stated fails: on the sample host the five tests record their
    results in the order pts/build-linux-kernel, iozone, random-write,
    random-read, ioping, and the rows of the report come out as iozone,
    random-read, ioping, pts/build-linux-kernel, random-write. *)
Lemma report_order_counterexample :
  fst (run_tests Demo.healthy Demo.short_args []) = inr tt /\
  execution_order (snd (run_tests Demo.healthy Demo.short_args []))
  = ["pts/build-linux-kernel"; "iozone"; "random-write"; "random-read"; "ioping"]%string /\
  report_order (snd (run_tests Demo.healthy Demo.short_args []))
  = ["iozone"; "random-read"; "ioping"; "pts/build-linux-kernel"; "random-write"]%string /\
  report_order (snd (run_tests Demo.healthy Demo.short_args []))
  <> execution_order (snd (run_tests Demo.healthy Demo.short_args [])).
Proof.
  split; [vm_compute; reflexivity|]. split; [vm_compute; reflexivity|].
  split; [vm_compute; reflexivity|]. vm_compute. discriminate.
Qed.

(** C4, as the script has it.  [results] is a hash table: whenever
    [run_tests] returns, the rows of the report are those of the five tests
    in the order of their slots (iozone, random-read, ioping,
    pts/build-linux-kernel, random-write), a permutation of the order of
    execution and different from it; and writing an identifier that is
    already in a dictionary, the table not growing, replaces its value (last
    write wins), leaves the order of the keys as it was and touches no other
    entry. *)
Theorem report_rows_in_slot_order :
  (forall H args t t',
     run_tests H args t = (inr tt, t') ->
     exists pre hostname r0 r1 r2 r3 r4,
       t' = t ++ pre ++ report_events hostname (report_rows r0 r1 r2 r3 r4) /\
       no_report pre /\
       map fst (report_rows r0 r1 r2 r3 r4) = PyDict.keys (all_results r0 r1 r2 r3 r4) /\
       PyDict.keys (all_results r0 r1 r2 r3 r4) = slot_order) /\
  Permutation slot_order planned_order /\
  slot_order <> planned_order /\
  (forall (d : dict) k v0 v,
     dict_get d k = Some v0 -> no_growth d ->
     PyDict.keys (dict_update d (dict_single k v)) = PyDict.keys d /\
     dict_get (dict_update d (dict_single k v)) k = Some v /\
     (forall k', k' <> k -> dict_get (dict_update d (dict_single k v)) k' = dict_get d k')).
Proof.
  split; [|split; [|split]].
  - intros H args t t' E.
    destruct (run_tests_outcome H args t) as (evs & Et & Q). rewrite E in Et, Q.
    cbn [fst snd] in Et, Q. destruct Q as (pre & hostname & r0 & r1 & r2 & r3 & r4 & -> & Q).
    exists pre, hostname, r0, r1, r2, r3, r4.
    split; [exact Et|]. split; [exact Q|]. rewrite all_results_keys. split; reflexivity.
  - unfold slot_order, planned_order.
    cbn [REQUIRED_PHORONIX_TESTS REQUIRED_FIO_TESTS map fio_hdr app].
    apply (Permutation_cons_app ["pts/build-linux-kernel"%string]
             ["random-write"%string; "random-read"%string; "ioping"%string]).
    apply (Permutation_cons_app ["pts/build-linux-kernel"%string; "random-write"%string]
             ["ioping"%string]).
    apply (Permutation_cons_app ["pts/build-linux-kernel"%string; "random-write"%string] []).
    reflexivity.
  - discriminate.
  - intros d k v0 v Hget Hsmall.
    exact (overwrite_in_place bits TestResult d k v0 v Hget Hsmall).
Qed.

Lemma report_rows_in_slot_order_witness :
  (exists pre hostname r0 r1 r2 r3 r4,
     snd (run_tests Demo.healthy Demo.short_args [])
     = [] ++ pre ++ report_events hostname (report_rows r0 r1 r2 r3 r4)) /\
  PyDict.keys (dict_update (compute_dict (mkresult "a" "1"))
                 (dict_single "pts/build-linux-kernel" (mkresult "b" "2")))
  = PyDict.keys (compute_dict (mkresult "a" "1")) /\
  dict_get (dict_update (compute_dict (mkresult "a" "1"))
              (dict_single "pts/build-linux-kernel" (mkresult "b" "2")))
    "pts/build-linux-kernel"
  = Some (mkresult "b" "2").
Proof.
  split.
  - destruct (proj1 report_rows_in_slot_order Demo.healthy Demo.short_args []
                (snd (run_tests Demo.healthy Demo.short_args [])))
      as (pre & hostname & r0 & r1 & r2 & r3 & r4 & E & _).
    + vm_compute. reflexivity.
    + exists pre, hostname, r0, r1, r2, r3, r4. exact E.
  - destruct (proj2 (proj2 (proj2 report_rows_in_slot_order))
                (compute_dict (mkresult "a" "1")) "pts/build-linux-kernel"%string
                (mkresult "a" "1") (mkresult "b" "2")) as (E1 & E2 & _).
    + vm_compute. reflexivity.
    + vm_compute. reflexivity.
    + split; [exact E1|exact E2].
Defined.

(** ** Extraction by pattern *)

(** [re.search] finds the leftmost position at which the pattern matches,
    and nothing when it matches nowhere. *)
Lemma search_leftmost r s g :
  Re.search r s = Some g ->
  exists pre rest,
    s = (pre ++ rest)%string /\ Re.match_here r rest Re.NotYet = Some g /\
    forall pre' rest',
      s = (pre' ++ rest')%string -> (String.length pre' < String.length pre)%nat ->
      Re.match_here r rest' Re.NotYet = None.
Proof.
  induction s as [|a s IH]; cbn [Re.search].
  - destruct (Re.match_here r "" Re.NotYet) as [g'|] eqn:E; [|discriminate].
    intros [= ->]. exists ""%string, ""%string. repeat split; auto.
    intros pre' rest' _ Hlt. cbn in Hlt. lia.
  - destruct (Re.match_here r (String a s) Re.NotYet) as [g'|] eqn:E.
    + intros [= ->]. exists ""%string, (String a s). repeat split; auto.
      intros pre' rest' _ Hlt. cbn in Hlt. lia.
    + intros Hs. destruct (IH Hs) as (pre & rest & -> & Hm & Hmin).
      exists (String a pre), rest. repeat split; auto.
      intros [|b pre'] rest' Heq Hlt.
      * cbn in Heq. subst rest'. exact E.
      * cbn in Heq. injection Heq as -> Heq. apply (Hmin pre' rest' Heq).
        cbn in Hlt. lia.
Qed.

Lemma search_nowhere r s :
  Re.search r s = None ->
  forall pre rest, s = (pre ++ rest)%string -> Re.match_here r rest Re.NotYet = None.
Proof.
  induction s as [|a s IH]; cbn [Re.search].
  - destruct (Re.match_here r "" Re.NotYet) eqn:E; [discriminate|].
    intros _ [|b pre] rest Heq; cbn in Heq; [now subst rest|discriminate].
  - destruct (Re.match_here r (String a s) Re.NotYet) eqn:E; [discriminate|].
    intros Hs [|b pre] rest Heq; cbn in Heq.
    + now subst rest.
    + injection Heq as -> Heq. exact (IH Hs pre rest Heq).
Qed.

(** X2. The compute test, its two command lines having exited with 0: an
    output the pattern does not match is logged in full with the test, and
    [CloudBenchException] is raised; an output it matches gives the captured
    group as it is, under the identifier and the description of the test. *)
Lemma phoronix_extraction H name test re t o1 output :
  let install := Sh.plain ("phoronix-test-suite install " ++ test) in
  let batch := Sh.plain (PATH_PHORONIX ++ " batch-run " ++ test) in
  let l1 := [Logged INFO "Installing phoronix test %s" [AStr name];
             Logged DEBUG "CMD: %s" [AStr (Sh.render install)]] in
  let l2 := l1 ++ [Invoked (Sh.render install) (Exited 0 o1);
                   Logged INFO "Running phoronix test %s" [AStr name];
                   Logged DEBUG "CMD: %s" [AStr (Sh.render batch)]] in
  let l3 := l2 ++ [Invoked (Sh.render batch) (Exited 0 output)] in
  sh H (t ++ l1) install = Exited 0 o1 ->
  sh H (t ++ l2) batch = Exited 0 output ->
  __run_phoronix_test H name test re t
  = match Re.search re output with
    | None =>
        (inl CloudBenchException,
         t ++ l3 ++ [Logged ERROR "The phoronix test %s produced unknown output: %s"
                       [AStr test; AStr output]])
    | Some g => (inr (dict_single test (mkresult name g)), t ++ l3)
    end.
Proof.
  intros install batch l1 l2 l3 E1 E2. subst l1 l2 l3. cbn [app] in *.
  unfold __run_phoronix_test, check_call, bind, LOG_info, LOG_debug, LOG_exception, emit,
    check_output, ret, raise.
  fold install. fold batch. rewrite <- !app_assoc. cbn [app]. rewrite E1. cbn [Z.eqb].
  rewrite <- !app_assoc. cbn [app]. rewrite E2. cbn [Z.eqb].
  destruct (Re.search re output); rewrite <- ?app_assoc; reflexivity.
Qed.

(** X3. One fio test: the job file is opened and written in full before
    fio is invoked; fio having exited with 0, its output file is read, and an
    output the pattern does not match is logged with the name of the test
    and [CloudBenchException] is raised, while an output it matches is
    recorded as the captured group followed by [ IOPS]. *)
Lemma fio_extraction H size_m vars ft t o1 output :
  let job := ("/tmp" ++ "/" ++ (fio_hdr ft ++ ".fio"))%string in
  let out := ("/tmp" ++ "/" ++ (fio_hdr ft ++ ".output"))%string in
  let cmd := Sh.plain ("fio --output=" ++ out ++ " " ++ job) in
  let l1 := Opened job :: map (Wrote job) (fio_job size_m ft)
              ++ [Logged INFO "Running test %s" [AStr (test_name ft)];
                  Logged DEBUG "CMD: %s" [AStr (Sh.render cmd)]] in
  let l2 := l1 ++ [Invoked (Sh.render cmd) (Exited 0 o1)] in
  can_write H t job = true ->
  sh H (t ++ l1) cmd = Exited 0 o1 ->
  read_file H (t ++ l2) out = Some output ->
  run_fio H size_m vars ft t
  = match Re.search (regexp ft) output with
    | None =>
        (inl CloudBenchException,
         t ++ l2 ++ [Logged ERROR "The fio test %s produced unknown output: %s"
                       [AStr (test_name ft); AStr output]])
    | Some g =>
        let entry := dict_single (fio_hdr ft) (mkresult (test_name ft) (g ++ " IOPS")) in
        (inr (dict_update (fst vars) entry, Bound (Some g)),
         t ++ l2 ++ [Updated in_iobench entry;
                     Logged INFO "Test results for %s: %s IOPS" [AStr (test_name ft); AStr g]])
    end.
Proof.
  intros job out cmd l1 l2 Hw E1 Er.
  assert (Hjob : forall (l : list string) t0,
             for_each l (fun (_ : unit) chunk => f_write job chunk) tt t0
             = (inr tt, t0 ++ map (Wrote job) l)).
  { induction l as [|x l IH]; intros t0; cbn [for_each map].
    - unfold ret. now rewrite app_nil_r.
    - unfold bind, f_write at 1, emit. rewrite IH, <- app_assoc. reflexivity. }
  unfold run_fio. fold job. fold out. fold cmd.
  rewrite bind_case. unfold open_w. rewrite Hw.
  rewrite bind_case, Hjob.
  unfold LOG_info at 1, LOG_debug, check_call, slurp.
  unfold bind at 1 2 3 4 5, emit, check_output, ret.
  replace (((((t ++ [Opened job]) ++ map (Wrote job) (fio_job size_m ft)) ++
             [Logged INFO "Running test %s" [AStr (test_name ft)]]) ++
            [Logged DEBUG "CMD: %s" [AStr (Sh.render cmd)]])) with (t ++ l1)
    by (unfold l1; rewrite <- !app_assoc; reflexivity).
  rewrite E1. cbn [Z.eqb].
  replace ((t ++ l1) ++ [Invoked (Sh.render cmd) (Exited 0 o1)]) with (t ++ l2)
    by (unfold l2; rewrite <- !app_assoc; reflexivity).
  rewrite Er.
  destruct (Re.search (regexp ft) output) as [g|].
  - unfold update, LOG_info, bind, emit, ret. cbv zeta. rewrite <- !app_assoc. reflexivity.
  - unfold LOG_exception, bind, emit, raise. rewrite <- !app_assoc. reflexivity.
Qed.

(** ** The ioping block *)

Lemma sat_bind_post {A B} (m : M A) (k : A -> M B) Q (R : A -> Prop) :
  sequential Q -> sat m Q -> post m R -> (forall a, R a -> sat (k a) Q) -> sat (bind m k) Q.
Proof.
  intros Hseq Hm Hp Hk t. rewrite bind_case.
  destruct (Hm t) as (evs1 & E1 & Q1).
  destruct (m t) as [[e|a] t1] eqn:Em; cbn [fst snd err_of] in *.
  - exists evs1. now split.
  - destruct (Hk a (Hp _ _ _ Em) t1) as (evs2 & E2 & Q2).
    exists (evs1 ++ evs2). subst t1. split.
    + rewrite E2. symmetry. apply app_assoc.
    + now apply Hseq.
Qed.

Lemma fio_loop_post H size_m results :
  post (for_each REQUIRED_FIO_TESTS (run_fio H size_m) (results, Unbound))
       (fun v => exists r2 r3 g,
          v = (dict_update (dict_update results (dict_single "random-write" r2))
                 (dict_single "random-read" r3), Bound (Some g))).
Proof.
  cbn [for_each REQUIRED_FIO_TESTS].
  eapply post_bind; [apply run_fio_post|]. intros v1 (r2 & g2 & ->).
  eapply post_bind; [apply run_fio_post|]. intros v2 (r3 & g3 & ->).
  apply post_ret. exists r2, r3, g3. reflexivity.
Qed.

Ltac complaint_side :=
  first
    [ apply each_sequential
    | intros; unfold each; repeat (apply Forall_cons || apply Forall_nil);
      intros (? & [=]) ].

(** The guard of the ioping block tests the match object of the last fio
    test, which is never [None] there: its record is never logged and its
    exception never raised, whatever [ioping] prints. *)
Lemma ioping_guard_dead H size_m size_k :
  sat (__run_iobench_test H size_m size_k) (each (fun e => ~ ioping_complaint e)).
Proof.
  unfold __run_iobench_test.
  apply sat_bind; [complaint_side| |intros results].
  - unfold_script. sat_walk complaint_side.
  - eapply sat_bind_post; [complaint_side| |apply fio_loop_post|].
    + unfold_script. sat_walk complaint_side.
    + intros v (r2 & r3 & g & ->). unfold run_ioping. cbn [fst snd].
      sat_walk complaint_side.
Qed.

(** C2 at the failing input.  When [ioping] prints nothing, the run ends in
    [IndexError]: the process exits with status 1 and the record of the
    unknown output, with the captured text, is never logged.  When [ioping]
    prints a line that is no statistics, its sixth word is recorded as the
    latency and the process exits with status 0. *)
Theorem ioping_output_unchecked :
  fst (run Demo.silent_ioping Demo.short_args []) = inl IndexError /\
  fst (main Demo.silent_ioping Demo.short_args []) = 1 /\
  Forall (fun e => ~ ioping_complaint e) (snd (main Demo.silent_ioping Demo.short_args [])) /\
  last (snd (main Demo.silent_ioping Demo.short_args [])) (Opened "")
  = Logged ERROR "%s" [AExn IndexError] /\
  fst (main Demo.garbled_ioping Demo.short_args []) = 0 /\
  In (Wrote PATH_RESULT_CSV
        ("node1,ioping,IOPing Write Latency Test,/dev/sda1):usec" ++ Py.nl)%string)
     (snd (main Demo.garbled_ioping Demo.short_args [])).
Proof.
  split; [vm_compute; reflexivity|]. split; [vm_compute; reflexivity|].
  split.
  - set (tr := snd (main Demo.silent_ioping Demo.short_args [])).
    vm_compute in tr. subst tr.
    repeat (apply Forall_cons; [intros (? & [=])|]). apply Forall_nil.
  - split; [vm_compute; reflexivity|]. split; [vm_compute; reflexivity|].
    set (tr := snd (main Demo.garbled_ioping Demo.short_args [])).
    vm_compute in tr. subst tr. cbv [In PATH_RESULT_CSV Py.nl Py.newline String.append].
    repeat (first [left; reflexivity | right]).
Qed.

(** * Further properties

    What follows covers the rest of the script: [install_deps], the order
    and the completeness of the command lines, the error paths of the test
    blocks, the handlers of the [__main__] block and the contents of the
    report. *)

Import More.

(** ** What the patterns capture *)

Lemma plus_step cl r a s c :
  Re.match_here (Re.Plus cl :: r) (String a s) c
  = if Re.cmatch cl a
    then match Re.match_here (Re.Plus cl :: r) s (Re.push c a) with
         | Some g => Some g
         | None => Re.match_here r s (Re.push c a)
         end
    else None.
Proof. reflexivity. Qed.

(** After the group is closed, nothing changes what it captured. *)
Lemma closed_through post : forallb plain_tok post = true ->
  forall s x g, Re.match_here post s (Re.Closed x) = Some g -> g = x.
Proof.
  induction post as [|[cl|cl| |] post IH]; cbn [forallb plain_tok andb]; intros Hp; try discriminate.
  - intros s x g [= <-]. reflexivity.
  - intros [|a s] x g; cbn [Re.match_here]; [discriminate|].
    destruct (Re.cmatch cl a); [|discriminate]. apply (IH Hp).
  - induction s as [|a s IHs]; intros x g; [discriminate|].
    rewrite plus_step. destruct (Re.cmatch cl a); [|discriminate].
    cbn [Re.push].
    destruct (Re.match_here (Re.Plus cl :: post) s (Re.Closed x)) as [g'|] eqn:E.
    + intros [= <-]. exact (IHs _ _ E).
    + apply (IH Hp).
Qed.

(** Before the group is opened, nothing is captured. *)
Lemma notyet_through pre r : forallb plain_tok pre = true ->
  forall s g, Re.match_here (pre ++ r) s Re.NotYet = Some g ->
  exists s', Re.match_here r s' Re.NotYet = Some g.
Proof.
  induction pre as [|[cl|cl| |] pre IH]; cbn [forallb plain_tok andb app]; intros Hp; try discriminate.
  - intros s g E. now exists s.
  - intros [|a s] g; cbn [Re.match_here]; [discriminate|].
    destruct (Re.cmatch cl a); [|discriminate]. apply (IH Hp).
  - induction s as [|a s IHs]; intros g; [discriminate|].
    rewrite plus_step. destruct (Re.cmatch cl a); [|discriminate].
    cbn [Re.push].
    destruct (Re.match_here (Re.Plus cl :: pre ++ r) s Re.NotYet) as [g'|] eqn:E.
    + intros [= <-]. exact (IHs _ eq_refl).
    + apply (IH Hp).
Qed.

(** Inside the group, [\d+] captures digits, at least one. *)
Lemma digits_captured post : forallb plain_tok post = true ->
  forall s acc g,
    Re.match_here (Re.Plus Re.Digit :: Re.GClose :: post) s (Re.Opened acc) = Some g ->
    exists ds, number ds /\ g = (acc ++ ds)%string.
Proof.
  intros Hp. induction s as [|a s IHs]; intros acc g; [discriminate|].
  rewrite plus_step. cbn [Re.cmatch]. destruct (Py.isdigit a) eqn:Ha; [|discriminate].
  cbn [Re.push].
  destruct (Re.match_here (Re.Plus Re.Digit :: Re.GClose :: post) s
              (Re.Opened (acc ++ String a ""))) as [g'|] eqn:E.
  - intros [= <-]. destruct (IHs _ _ E) as (ds & [Hne Hd] & ->).
    exists (String a ds). split.
    + split; [discriminate|]. cbn. now rewrite Ha.
    + rewrite sapp_assoc. reflexivity.
  - cbn [Re.match_here Re.close]. intros E'. apply (closed_through post Hp) in E'. subst g.
    exists (String a ""). split; [|reflexivity].
    split; [discriminate|]. cbn. now rewrite Ha.
Qed.

Lemma plain_lit s : forallb plain_tok (Re.lit s) = true.
Proof. induction s as [|a s IH]; cbn; auto. Qed.

Lemma group_is_number pre post s g :
  forallb plain_tok pre = true -> forallb plain_tok post = true ->
  Re.search (pre ++ [Re.GOpen; Re.Plus Re.Digit; Re.GClose] ++ post) s = Some g ->
  number g.
Proof.
  intros Hpre Hpost Hs.
  apply search_leftmost in Hs as (_ & rest & _ & Hm & _).
  apply (notyet_through pre _ Hpre) in Hm as (s' & Hm).
  cbn [app Re.match_here] in Hm.
  apply (digits_captured post Hpost) in Hm as (ds & Hn & ->). exact Hn.
Qed.

(** X1. Whatever text the three patterns of the registry are searched in,
    what their group captures is a non-empty run of the digits 0-9: the
    whole seconds of the compute test, the IOPS figure of a fio test (for
    any [write] / [read] prefix). *)
Theorem registry_patterns_capture_numbers :
  (forall s g, Re.search re_average s = Some g -> number g) /\
  (forall rw s g, Re.search (re_iops rw) s = Some g -> number g).
Proof.
  split.
  - intros s g. apply (group_is_number ([Re.Plus Re.Space] ++ Re.lit "Average: ")
                         ([Re.One (Re.Lit "."); Re.Plus Re.Digit] ++ Re.lit " Seconds"));
      reflexivity.
  - intros rw s g Hs.
    apply (group_is_number (Re.lit rw ++ [Re.Plus Re.Dot] ++ Re.lit "iops=") [Re.Plus Re.Dot] s).
    + rewrite forallb_app, plain_lit. reflexivity.
    + reflexivity.
    + unfold re_iops in Hs. rewrite <- !app_assoc. exact Hs.
Qed.

Lemma registry_patterns_capture_numbers_witness :
  number "123" /\ number "308".
Proof.
  split.
  - apply (proj1 registry_patterns_capture_numbers Demo.phoronix_out). reflexivity.
  - apply (proj2 registry_patterns_capture_numbers "write"%string Demo.fio_write_out). reflexivity.
Defined.

(** ** The extraction of the compute and fio tests, on the sample host *)

Lemma phoronix_extraction_witness :
  fst (__run_phoronix_test Demo.healthy "Multicore Kernel Compile (seconds)"
         "pts/build-linux-kernel" re_average [])
  = inr (dict_single "pts/build-linux-kernel"
           (mkresult "Multicore Kernel Compile (seconds)" "123")) /\
  fst (__run_phoronix_test
         (Demo.host_with (fun c => if String.eqb c Demo.batch_run
                                   then Some (Exited 0 "Average: 123.45 Seconds") else None))
         "Multicore Kernel Compile (seconds)" "pts/build-linux-kernel" re_average [])
  = inl CloudBenchException.
Proof.
  split.
  - rewrite (phoronix_extraction Demo.healthy _ _ _ [] ""%string Demo.phoronix_out);
      reflexivity.
  - rewrite (phoronix_extraction _ _ _ _ [] ""%string "Average: 123.45 Seconds"%string);
      reflexivity.
Defined.

Lemma fio_extraction_witness :
  exists d,
    fst (run_fio Demo.healthy (Py.PInt 512) (PyDict.empty, Unbound)
           (mkfio "FIO random writes using 4k blocks" "random-write" "randwrite" "4k"
              (Some "sync") (re_iops "write")) [])
    = inr (d, Bound (Some "308"%string)).
Proof.
  eexists.
  rewrite (fio_extraction Demo.healthy _ _ _ [] ""%string Demo.fio_write_out);
    reflexivity.
Defined.

(** ** The memory query *)

(** The pipeline of the memory query ends in [awk], which exits with 0. *)
Lemma mem_query_status H t :
  sh H t mem_query = Interrupted \/ exists out, sh H t mem_query = Exited 0 out.
Proof.
  unfold sh, mem_query. cbn [Sh.cd Sh.prog Sh.filters].
  destruct (exec H t "free -m"); [right; eexists; reflexivity|left; reflexivity].
Qed.

(** X4. [__get_io_test_size] never raises [CalledProcessError]: the status
    of the memory query is that of [awk].  When [free] prints no line with
    [Mem:], whatever its exit status, the captured output is empty and the
    call raises [ValueError] on the empty text, in every mode. *)
Theorem free_failure_is_a_parse_error :
  (forall H args t status c,
     fst (__get_io_test_size H args t) <> inl (CalledProcessError status c)) /\
  (forall H args t status out,
     let t1 := t ++ [Logged DEBUG "CMD: %s" [AStr (Sh.render mem_query)]] in
     exec H t1 "free -m" = Exited status out ->
     filter (Sh.contains "Mem:") (Sh.lines out) = [] ->
     __get_io_test_size H args t
     = (inl (ValueError ""), t1 ++ [Invoked (Sh.render mem_query) (Exited 0 "")])).
Proof.
  split.
  - intros H args t status c. rewrite get_io_test_size_run.
    destruct (mem_query_status H (t ++ [Logged DEBUG "CMD: %s" [AStr (Sh.render mem_query)]]))
      as [E|(out & E)]; rewrite E; cbn [Z.eqb fst]; [discriminate|].
    destruct (Py.int (Py.strip out)); [|discriminate].
    destruct (String.eqb (iobench_type args) "short"); [discriminate|].
    destruct (String.eqb (iobench_type args) "long"); discriminate.
  - intros H args t status out t1 Hfree Hnone. rewrite get_io_test_size_run. fold t1.
    assert (E : sh H t1 mem_query = Exited 0 "").
    { unfold sh, mem_query. cbn [Sh.cd Sh.prog Sh.filters]. rewrite Hfree.
      assert (E1 : Sh.run_filter (Sh.Grep "Mem:") out = (1, ""%string)).
      { unfold Sh.run_filter. change (Sh.is_option "Mem:") with false. cbv iota zeta.
        rewrite Hnone. reflexivity. }
      change (Sh.run_filters [Sh.Grep "Mem:"; Sh.AwkPrint2] (status, out))
        with (Sh.run_filter Sh.AwkPrint2 (snd (Sh.run_filter (Sh.Grep "Mem:") out))).
      rewrite E1. reflexivity. }
    rewrite E. reflexivity.
Qed.

Lemma free_failure_is_a_parse_error_witness :
  fst (__get_io_test_size Demo.no_free Demo.long_args []) = inl (ValueError "").
Proof.
  rewrite (proj2 free_failure_is_a_parse_error Demo.no_free Demo.long_args [] 127 ""%string);
    reflexivity.
Defined.

(** ** The iozone block on unusable output *)

(** The three [grep] stages on a text none of whose lines they keep. *)
Lemma grep_stages_text size_k status out :
  filter (kept size_k) (Sh.lines out) = [] ->
  Sh.run_filters [Sh.Grep (Py.str_of_Z size_k); Sh.GrepV "maximum"; Sh.GrepV "minimum"]
    (status, out) = (1, ""%string).
Proof.
  intros Hnone.
  change (Sh.run_filters [Sh.Grep (Py.str_of_Z size_k); Sh.GrepV "maximum"; Sh.GrepV "minimum"]
            (status, out))
    with (Sh.run_filter (Sh.GrepV "minimum")
            (snd (Sh.run_filter (Sh.GrepV "maximum")
                    (snd (Sh.run_filter (Sh.Grep (Py.str_of_Z size_k)) out))))).
  destruct (Sh.is_option (Py.str_of_Z size_k)) eqn:Hopt.
  - unfold Sh.run_filter at 3. rewrite Hopt. reflexivity.
  - assert (E1 : Sh.run_filter (Sh.Grep (Py.str_of_Z size_k)) out
                 = ((match filter (Sh.contains (Py.str_of_Z size_k)) (Sh.lines out) with
                     | [] => 1 | _ :: _ => 0 end),
                    Sh.unlines (filter (Sh.contains (Py.str_of_Z size_k)) (Sh.lines out)))).
    { unfold Sh.run_filter. rewrite Hopt. reflexivity. }
    rewrite E1. cbn [snd].
    rewrite run_grep_v; [|reflexivity|apply Forall_filter, lines_one_line]. cbn [snd].
    rewrite run_grep_v; [|reflexivity|do 2 apply Forall_filter; apply lines_one_line].
    replace (filter (fun l => negb (Sh.contains "minimum" l))
               (filter (fun l => negb (Sh.contains "maximum" l))
                  (filter (Sh.contains (Py.str_of_Z size_k)) (Sh.lines out))))
      with (filter (kept size_k) (Sh.lines out)); [rewrite Hnone; reflexivity|].
    unfold kept. clear. induction (Sh.lines out) as [|l ls IH]; [reflexivity|].
    cbn [filter]. destruct (Sh.contains (Py.str_of_Z size_k) l); cbn [andb filter]; [|exact IH].
    destruct (Sh.contains "maximum" l); cbn [negb andb filter]; [exact IH|].
    destruct (Sh.contains "minimum" l); cbn [negb andb filter]; [exact IH|].
    now rewrite IH.
Qed.

(** X5. When no line of what iozone prints passes the three [grep] stages,
    the iozone block raises [CalledProcessError] with status 1 (that of
    the last [grep]) and the whole command line, whatever status iozone
    itself exited with, 0 included; nothing is recorded. *)
Theorem iozone_without_row_is_a_tool_failure H size_m size_k results t ignored status out :
  let cmd := iozone_cmd size_m size_k in
  let t1 := t ++ [Logged INFO "Running 16k record size IOZone Direct I/O bandwidth test" [];
                  Logged DEBUG "CMD: %s" [AStr (Sh.render cmd)]] in
  exec H t1 ("cd " ++ IOBENCH_PATH)%string = Exited 0 ignored ->
  exec H t1 (Sh.prog cmd) = Exited status out ->
  filter (kept size_k) (Sh.lines out) = [] ->
  run_iozone H size_m size_k results t
  = (inl (CalledProcessError 1 (Sh.render cmd)),
     t1 ++ [Invoked (Sh.render cmd) (Exited 1 "")]).
Proof.
  intros cmd t1 Hcd Hrun Hnone.
  assert (Hsh : sh H t1 cmd = Exited 1 "").
  { unfold cmd in Hrun |- *. cbn [iozone_cmd Sh.prog] in Hrun.
    unfold sh. cbn [iozone_cmd Sh.cd Sh.prog Sh.filters]. rewrite Hcd. cbn [Z.eqb].
    rewrite Hrun, (grep_stages_text size_k status out Hnone). reflexivity. }
  unfold run_iozone, bind, LOG_info, LOG_debug, emit, check_output.
  fold cmd. rewrite <- !app_assoc. cbn [app]. fold t1.
  rewrite Hsh. cbn [Z.eqb]. unfold t1. rewrite <- !app_assoc. reflexivity.
Qed.

Lemma iozone_without_row_is_a_tool_failure_witness :
  fst (run_iozone
         (Demo.host_with (fun c =>
            if String.eqb c "iozone -I -A -g 512m -n 512m -r 16"
            then Some (Exited 0 (Sh.unlines [Demo.row_min; Demo.row_max]))
            else None))
         (Py.PInt 512) 524288 PyDict.empty [])
  = inl (CalledProcessError 1
           "cd /tmp && iozone -I -A -g 512m -n 512m -r 16 | grep 524288 | grep -v maximum | grep -v minimum").
Proof.
  rewrite (iozone_without_row_is_a_tool_failure _ (Py.PInt 512) 524288 PyDict.empty [] ""%string 0
             (Sh.unlines [Demo.row_min; Demo.row_max])); reflexivity.
Defined.

(** X6. When the iozone command line exits with 0 and the columns of its
    output are not as expected, the block raises before anything is
    recorded or logged: [IndexError] when the third or the fifth column
    is missing, [ValueError] with the column when it is no integer; the
    third column is looked at first. *)
Theorem iozone_unreadable_row H size_m size_k results t output :
  let cmd := iozone_cmd size_m size_k in
  let t1 := t ++ [Logged INFO "Running 16k record size IOZone Direct I/O bandwidth test" [];
                  Logged DEBUG "CMD: %s" [AStr (Sh.render cmd)]] in
  let t2 := t1 ++ [Invoked (Sh.render cmd) (Exited 0 output)] in
  let cols := Py.re_split_ws (Py.strip output) in
  sh H t1 cmd = Exited 0 output ->
  (Py.index cols 2 = None -> run_iozone H size_m size_k results t = (inl IndexError, t2)) /\
  (forall c3, Py.index cols 2 = Some c3 -> Py.int c3 = None ->
     run_iozone H size_m size_k results t = (inl (ValueError c3), t2)) /\
  (forall c3 w, Py.index cols 2 = Some c3 -> Py.int c3 = Some w -> Py.index cols 4 = None ->
     run_iozone H size_m size_k results t = (inl IndexError, t2)) /\
  (forall c3 w c5, Py.index cols 2 = Some c3 -> Py.int c3 = Some w ->
     Py.index cols 4 = Some c5 -> Py.int c5 = None ->
     run_iozone H size_m size_k results t = (inl (ValueError c5), t2)).
Proof.
  intros cmd t1 t2 cols Hsh.
  unfold run_iozone, bind, LOG_info, LOG_debug, emit, check_output.
  fold cmd. rewrite <- !app_assoc. cbn [app]. fold t1.
  rewrite Hsh. cbn [Z.eqb]. fold cols.
  unfold iozone_result, py_index, py_int, bind.
  split; [|split; [|split]].
  - intros E2. rewrite E2. unfold t2, t1. rewrite <- !app_assoc. reflexivity.
  - intros c3 E2 Ec. rewrite E2. cbn [lift ret]. rewrite Ec.
    unfold t2, t1. rewrite <- !app_assoc. reflexivity.
  - intros c3 w E2 Ec E4. rewrite E2. cbn [lift ret]. rewrite Ec. cbn [lift ret].
    rewrite E4. unfold t2, t1. rewrite <- !app_assoc. reflexivity.
  - intros c3 w c5 E2 Ec E4 Er. rewrite E2. cbn [lift ret]. rewrite Ec. cbn [lift ret].
    rewrite E4. cbn [lift ret]. rewrite Er. unfold t2, t1. rewrite <- !app_assoc. reflexivity.
Qed.

Lemma iozone_unreadable_row_witness :
  fst (run_iozone
         (Demo.host_with (fun c =>
            if String.eqb c "iozone -I -A -g 512m -n 512m -r 16"
            then Some (Exited 0 "          524288      16  102400  110000")
            else None))
         (Py.PInt 512) 524288 PyDict.empty []) = inl IndexError /\
  fst (run_iozone
         (Demo.host_with (fun c =>
            if String.eqb c "iozone -I -A -g 512m -n 512m -r 16"
            then Some (Exited 0 "          524288      16  102400  110000  205.8e3")
            else None))
         (Py.PInt 512) 524288 PyDict.empty []) = inl (ValueError "205.8e3").
Proof.
  split.
  - destruct (iozone_unreadable_row
                (Demo.host_with (fun c =>
                   if String.eqb c "iozone -I -A -g 512m -n 512m -r 16"
                   then Some (Exited 0 "          524288      16  102400  110000")
                   else None))
                (Py.PInt 512) 524288 PyDict.empty []
                ("          524288      16  102400  110000" ++ Py.nl)%string)
      as (_ & _ & E & _); [reflexivity|].
    rewrite (E "102400"%string 102400); reflexivity.
  - destruct (iozone_unreadable_row
                (Demo.host_with (fun c =>
                   if String.eqb c "iozone -I -A -g 512m -n 512m -r 16"
                   then Some (Exited 0 "          524288      16  102400  110000  205.8e3")
                   else None))
                (Py.PInt 512) 524288 PyDict.empty []
                ("          524288      16  102400  110000  205.8e3" ++ Py.nl)%string)
      as (_ & _ & _ & E); [reflexivity|].
    rewrite (E "102400"%string 102400 "205.8e3"%string); reflexivity.
Defined.

(** ** The ioping block *)

(** X7. Once the fio loop has left a match in [result] and [ioping] has
    exited with 0, the ioping block records the sixth word of the output
    followed by [usec], whatever that word is, after logging it; with
    fewer than six words it raises [IndexError] and records nothing. *)
Theorem ioping_sixth_word_or_index_error H results g t output :
  let cmd := Sh.plain ("ioping -B -D -c 3 " ++ IOBENCH_PATH) in
  let t1 := t ++ [Logged INFO "Running IOPing write latency tests" []] in
  let t2 := t1 ++ [Invoked (Sh.render cmd) (Exited 0 output)] in
  sh H t1 cmd = Exited 0 output ->
  run_ioping H (results, Bound (Some g)) t
  = match Py.index (Py.split output) 5 with
    | None => (inl IndexError, t2)
    | Some w =>
        let entry := dict_single "ioping" (mkresult "IOPing Write Latency Test" (w ++ "usec")%string) in
        (inr (dict_update results entry),
         t2 ++ [Logged INFO "IOPing write latency %susec" [AStr w]; Updated in_iobench entry])
    end.
Proof.
  intros cmd t1 t2 Hsh.
  unfold run_ioping, bind, LOG_info, emit, check_output. fold cmd. fold t1.
  rewrite Hsh. cbn [Z.eqb snd fst]. fold t2.
  unfold py_index. destruct (Py.index (Py.split output) 5) as [w|]; [|reflexivity].
  cbn [lift ret]. unfold update, bind, emit, ret. rewrite <- !app_assoc. reflexivity.
Qed.

Lemma ioping_sixth_word_or_index_error_witness :
  fst (run_ioping Demo.healthy (PyDict.empty, Bound (Some "1080"%string)) [])
  = inr (dict_update PyDict.empty
           (dict_single "ioping" (mkresult "IOPing Write Latency Test" "411usec"))) /\
  fst (run_ioping Demo.silent_ioping (PyDict.empty, Bound (Some "1080"%string)) [])
  = inl IndexError.
Proof.
  split.
  - exact (f_equal fst
             (ioping_sixth_word_or_index_error Demo.healthy PyDict.empty "1080"%string []
                Demo.ioping_out eq_refl)).
  - exact (f_equal fst
             (ioping_sixth_word_or_index_error Demo.silent_ioping PyDict.empty "1080"%string []
                ""%string eq_refl)).
Defined.

Lemma run_never_complains_of_ioping H args :
  sat (run H args) (each (fun e => ~ ioping_complaint e)).
Proof.
  unfold run, install_deps, run_tests, collect_results, write_report, _run_tests_phoronix,
    _run_tests_iobench, __run_phoronix_test, __get_io_test_size.
  sat_walk complaint_side. all: apply ioping_guard_dead.
Qed.

(** X8. No run logs the record [The ioping test produced unknown output],
    whatever the host answers: the guard that would log it tests the match
    of the last fio test, which is never [None] when the guard is reached. *)
Theorem ioping_complaint_is_never_logged H args t :
  exists evs,
    snd (main H args t) = t ++ evs /\
    forall a, ~ In (Logged ERROR "The ioping test produced unknown output: %s" a) evs.
Proof.
  destruct (run_never_complains_of_ioping H args t) as (evs & Et & Q). unfold each in Q.
  assert (Hno : forall a, ~ In (Logged ERROR "The ioping test produced unknown output: %s" a) evs).
  { intros a Hin. rewrite Forall_forall in Q. apply (Q _ Hin). now exists a. }
  unfold main. destruct (run H args t) as [[e|u] t']; cbn [fst snd] in *.
  - destruct (is_Exception e).
    + exists (evs ++ [Logged ERROR "%s" [AExn e]]). cbn [snd]. rewrite Et, app_assoc.
      split; [reflexivity|]. intros a Hin. apply in_app_or in Hin as [Hin|[Hin|[]]].
      * exact (Hno a Hin).
      * discriminate Hin.
    + exists evs. split; [destruct e; exact Et|exact Hno].
  - exists evs. split; [exact Et|exact Hno].
Qed.

(** ** Interrupts *)

Lemma uninterrupted_app evs1 evs2 :
  uninterrupted evs1 -> uninterrupted evs2 -> uninterrupted (evs1 ++ evs2).
Proof. intros H1 H2 c Hin. apply in_app_or in Hin as [Hin|Hin]; [exact (H1 c Hin)|exact (H2 c Hin)]. Qed.

Lemma interrupt_last_sequential : sequential interrupt_last.
Proof.
  intros evs1 r evs2 [H1|(? & ? & _ & _ & [=])] [H2|(pre & c & E & Hpre & Hr)].
  - left. now apply uninterrupted_app.
  - right. exists (evs1 ++ pre), c. subst evs2. rewrite app_assoc.
    split; [reflexivity|]. split; [now apply uninterrupted_app|exact Hr].
Qed.

Ltac il_side :=
  first
    [ exact interrupt_last_sequential
    | solve [intros; left; intros ? Hin;
             repeat (destruct Hin as [Hin|Hin]; [discriminate Hin|]); destruct Hin]
    | intros; right; eexists [], _; split; [reflexivity|]; split; [intros ? []|reflexivity] ].

(** An interrupted command line is the last thing a run does. *)
Lemma run_interrupt_last H args : sat (run H args) interrupt_last.
Proof. unfold_script. sat_walk il_side. Qed.

Lemma install_deps_interrupt_last H args : sat (install_deps H args) interrupt_last.
Proof. unfold_script. sat_walk il_side. Qed.

Lemma run_tests_interrupt_last H args : sat (run_tests H args) interrupt_last.
Proof. unfold_script. sat_walk il_side. Qed.

Lemma interrupt_last_inv r evs pre c post :
  interrupt_last r evs ->
  evs = pre ++ Invoked c Interrupted :: post ->
  post = [] /\ r = Some KeyboardInterrupt.
Proof.
  intros [Hun|(pre' & c' & E' & Hpre' & Hr)] E.
  - exfalso. apply (Hun c). subst evs. apply in_or_app. right. now left.
  - rewrite E in E'. apply split_unique in E' as (_ & _ & E3).
    + now subst.
    + apply Hpre'.
    + intros [].
Qed.

(** X9. When a command line of the run is interrupted, [run] raises
    [KeyboardInterrupt], the process exits with status 1, and nothing is
    done after the interrupted call: no log record of the handler, no
    retry, no report. *)
Theorem interrupt_ends_the_run H args t pre c post :
  snd (main H args t) = t ++ pre ++ Invoked c Interrupted :: post ->
  fst (main H args t) = 1 /\
  fst (run H args t) = inl KeyboardInterrupt /\
  post = [].
Proof.
  intros E.
  destruct (run_interrupt_last H args t) as (evs & Et & IL).
  unfold main in *. destruct (run H args t) as [[e|u] t'] eqn:R; cbn [fst snd err_of] in *.
  - destruct (is_Exception e) eqn:Ex.
    + exfalso. cbn [snd] in E. rewrite Et, <- app_assoc in E. apply app_inv_head in E.
      destruct IL as [Hun|(pre' & c' & E' & Hpre' & [= ->])]; [|discriminate Ex].
      apply (Hun c).
      assert (Hin : In (Invoked c Interrupted) (evs ++ [Logged ERROR "%s" [AExn e]])).
      { rewrite E. apply in_or_app. right. now left. }
      apply in_app_or in Hin as [Hin|[Hin|[]]]; [exact Hin|discriminate Hin].
    + assert (E' : evs = pre ++ Invoked c Interrupted :: post).
      { destruct e; try discriminate Ex; cbn [snd] in E; rewrite Et in E;
          apply app_inv_head in E; exact E. }
      destruct (interrupt_last_inv _ _ _ _ _ IL E') as [-> [= ->]].
      repeat split; reflexivity.
  - rewrite Et in E. apply app_inv_head in E.
    destruct (interrupt_last_inv _ _ _ _ _ IL E) as [_ [=]].
Qed.

Lemma interrupt_ends_the_run_witness :
  fst (main (Demo.host_with (fun c => if String.eqb c Demo.batch_run then Some Interrupted else None))
         Demo.short_args []) = 1 /\
  fst (run (Demo.host_with (fun c => if String.eqb c Demo.batch_run then Some Interrupted else None))
         Demo.short_args []) = inl KeyboardInterrupt.
Proof.
  pose (h := Demo.host_with (fun c => if String.eqb c Demo.batch_run then Some Interrupted else None)).
  pose (tr := snd (main h Demo.short_args [])).
  destruct (interrupt_ends_the_run h Demo.short_args [] (firstn 8 tr) Demo.batch_run (skipn 9 tr))
    as (E1 & E2 & _).
  - vm_compute. reflexivity.
  - split; [exact E1|exact E2].
Defined.

(** ** Failures are logged *)

Lemma reported_sequential : sequential reported.
Proof.
  intros evs1 r evs2 _ H2 Hr. destruct (H2 Hr) as (pre & f & a & ->).
  exists (evs1 ++ pre), f, a. apply app_assoc.
Qed.

Lemma sat_log_raise {A} fmt args e :
  sat (bind (LOG_exception fmt args) (fun _ => @raise A e)) reported.
Proof.
  intros t. exists [Logged ERROR fmt args]. split; [reflexivity|].
  intros _. exists [], fmt, args. reflexivity.
Qed.

Ltac reported_side := first [exact reported_sequential | intros; intros [=]].

Ltac sat_walk_reported :=
  repeat
    (cbv beta iota zeta;
     lazymatch goal with
     | |- sat (bind (LOG_exception _ _) (fun _ => raise _)) _ => apply sat_log_raise
     | |- sat (bind _ _) _ => apply sat_bind; [reported_side | | intros ?]
     | |- sat (ret _) _ => apply sat_ret; reported_side
     | |- sat (raise _) _ => apply sat_raise; reported_side
     | |- sat (emit _) _ => apply sat_emit; reported_side
     | |- sat (LOG_info _ _) _ => apply sat_emit; reported_side
     | |- sat (LOG_debug _ _) _ => apply sat_emit; reported_side
     | |- sat (LOG_exception _ _) _ => apply sat_emit; reported_side
     | |- sat (f_write _ _) _ => apply sat_emit; reported_side
     | |- sat (update _ _ _) _ => unfold update
     | |- sat (py_int _) _ => apply sat_lift; reported_side
     | |- sat (py_index _ _) _ => apply sat_lift; reported_side
     | |- sat (lift _ _) _ => apply sat_lift; reported_side
     | |- sat (check_output _ _) _ => apply sat_check_output; reported_side
     | |- sat (check_call _ _) _ => apply sat_check_call; reported_side
     | |- sat (open_w _ _) _ => apply sat_open_w; reported_side
     | |- sat (slurp _ _) _ => apply sat_slurp; reported_side
     | |- sat (__get_hostname _) _ => apply sat_hostname; reported_side
     | |- sat (for_each _ _ _) _ =>
         apply sat_for_each; [reported_side | reported_side | intros ? ? ?; pick_registry]
     | |- sat (if ?b then _ else _) _ => destruct b
     | |- sat (match ?x with _ => _ end) _ => destruct x
     | |- sat (let (_, _) := ?x in _) _ => destruct x
     end).

(** [CloudBenchException] is raised only just after an error record. *)
Lemma run_reported H args : sat (run H args) reported.
Proof. unfold_script. sat_walk_reported. Qed.

(** X10. Whenever [run] raises anything but [KeyboardInterrupt], the last
    event of the process is an error record of [LOG.exception]: that of
    the handler for the subclasses of [Exception], that of the raising
    site for [CloudBenchException], which the handler does not log. *)
Theorem failures_end_with_an_error_record H args t e :
  fst (run H args t) = inl e ->
  e <> KeyboardInterrupt ->
  exists pre fmt a, snd (main H args t) = t ++ pre ++ [Logged ERROR fmt a].
Proof.
  intros R Hne.
  destruct (run_reported H args t) as (evs & Et & Q).
  unfold main. destruct (run H args t) as [[e'|u] t']; cbn [fst snd err_of] in *; [|discriminate].
  injection R as ->.
  destruct (is_Exception e) eqn:Ex.
  - exists evs, "%s"%string, [AExn e]. cbn [snd]. rewrite Et, app_assoc. reflexivity.
  - destruct e; try discriminate Ex; [|contradiction].
    destruct (Q eq_refl) as (pre & f & a & ->). exists pre, f, a. exact Et.
Qed.

Lemma failures_end_with_an_error_record_witness :
  (exists pre fmt a,
     snd (main Demo.healthy Demo.medium_args []) = [] ++ pre ++ [Logged ERROR fmt a]) /\
  (exists pre fmt a,
     snd (main Demo.silent_ioping Demo.short_args []) = [] ++ pre ++ [Logged ERROR fmt a]).
Proof.
  split.
  - apply (failures_end_with_an_error_record Demo.healthy Demo.medium_args [] CloudBenchException);
      [vm_compute; reflexivity|discriminate].
  - apply (failures_end_with_an_error_record Demo.silent_ioping Demo.short_args [] IndexError);
      [vm_compute; reflexivity|discriminate].
Defined.

(** ** The exceptions of a run *)

Lemma raises_possible_sequential : sequential raises_possible.
Proof. intros evs1 r evs2 _ H2. exact H2. Qed.

Ltac possible_side := first [exact raises_possible_sequential | intros; exact I].

Lemma io_tests_raise_possible H size_m size_k :
  sat (__run_iobench_test H size_m size_k) raises_possible.
Proof.
  unfold __run_iobench_test.
  apply sat_bind; [possible_side| |intros results].
  - unfold_script. sat_walk possible_side.
  - eapply sat_bind_post; [possible_side| |apply fio_loop_post|].
    + unfold_script. sat_walk possible_side.
    + intros v (r2 & r3 & g & ->). unfold run_ioping. cbn [fst snd].
      sat_walk possible_side.
Qed.

Lemma collect_raises_possible H args : sat (collect_results H args) raises_possible.
Proof.
  unfold collect_results, _run_tests_phoronix, _run_tests_iobench, __run_phoronix_test,
    __get_io_test_size.
  sat_walk possible_side. all: apply io_tests_raise_possible.
Qed.

Lemma prelude_raises_possible H args :
  sat (if deps args then bind (LOG_info "Installing Dependencies" []) (fun _ => install_deps H args)
       else ret tt) raises_possible.
Proof. unfold_script. sat_walk possible_side. Qed.

(** X19. [run] never raises [NameError] or [KeyError]: the registry has a
    fio test, so [result] is bound when the ioping guard reads it, and
    every key of [results.keys()] is found in [results]. *)
Theorem run_raises_neither_name_nor_key_error H args t v :
  fst (run H args t) <> inl (NameError v) /\ fst (run H args t) <> inl (KeyError v).
Proof.
  assert (Hp : possible (err_of (fst (run H args t)))).
  { unfold run. rewrite bind_case.
    destruct (prelude_raises_possible H args t) as (evs0 & _ & Q0).
    match type of Q0 with
    | raises_possible (err_of (fst (?m t))) _ => destruct (m t) as [[e|u] t0]
    end; [exact Q0|].
    unfold run_tests. rewrite bind_case.
    destruct (collect_raises_possible H args t0) as (evs1 & _ & Q1).
    pose proof (collect_results_post H args t0) as P.
    destruct (collect_results H args t0) as [[e|results] t1]; [exact Q1|].
    destruct (P results t1 eq_refl) as (r0 & r1 & r2 & r3 & r4 & ->).
    rewrite (write_report_run H _ (report_rows r0 r1 r2 r3 r4) t1
               (all_results_keys r0 r1 r2 r3 r4) (all_results_items r0 r1 r2 r3 r4)).
    destruct (can_write H t1 PATH_RESULT_CSV); exact I. }
  split; intros E; rewrite E in Hp; exact Hp.
Qed.

(** ** The configuration document *)

(** X11. In [run_tests] no command line is invoked before the phoronix
    configuration document has been opened and written in full: the events
    of a call in which some command line is invoked begin with the first
    log record, the file opened and its one write.  A file that cannot
    be opened therefore ends the call before any tool has run. *)
Theorem configuration_written_before_any_tool H args t evs c o :
  let path := (home H ++ "/.phoronix-test-suite/user-config.xml")%string in
  snd (run_tests H args t) = t ++ evs ->
  In (Invoked c o) evs ->
  exists rest,
    evs = Logged INFO "Beginning CloudBench tests" []
          :: Opened path :: Wrote path user_config_xml :: rest.
Proof.
  intros path E Hin. rewrite run_tests_split in E.
  assert (Hloop : grows (fun _ : unit =>
            for_each REQUIRED_PHORONIX_TESTS
              (fun phoronix_results '(name, test, regexp) =>
                 bind (__run_phoronix_test H name test regexp)
                      (fun r => update in_phoronix phoronix_results r))
              (PyDict.empty : dict))).
  { apply sat_grows with (Q := each (fun _ => True)). intros _.
    unfold_script. sat_walk each_side. }
  assert (Hrest : grows (after_compute H args)).
  { apply sat_grows with (Q := each (fun _ => True)). intros r.
    unfold after_compute. unfold_script. sat_walk each_side. }
  rewrite bind_case in E. unfold _run_tests_phoronix in E. fold path in E.
  rewrite bind_case in E. unfold open_w in E.
  destruct (can_write H _ path).
  - rewrite bind_case in E. unfold f_write at 1, emit in E.
    match type of E with
    | context [for_each ?xs ?body ?s ?t0] =>
        destruct (Hloop tt t0) as (evs1 & E1); cbv beta in E1;
        destruct (for_each xs body s t0) as [[e|d] t1]; cbn [snd] in E1, E
    end.
    + rewrite E1, <- !app_assoc in E. apply app_inv_head in E. cbn [app] in E.
      eexists. symmetry. exact E.
    + destruct (Hrest d t1) as (evs2 & E2). rewrite E2, E1, <- !app_assoc in E.
      apply app_inv_head in E. cbn [app] in E. eexists. symmetry. exact E.
  - cbn [snd] in E. apply app_inv_head in E. subst evs.
    destruct Hin as [Hin|[]]. discriminate Hin.
Qed.

Lemma configuration_written_before_any_tool_witness :
  exists rest,
    snd (run_tests Demo.healthy Demo.short_args [])
    = Logged INFO "Beginning CloudBench tests" []
      :: Opened "/root/.phoronix-test-suite/user-config.xml"
      :: Wrote "/root/.phoronix-test-suite/user-config.xml" user_config_xml :: rest.
Proof.
  apply (configuration_written_before_any_tool Demo.healthy Demo.short_args []
           (snd (run_tests Demo.healthy Demo.short_args []))
           "free -m | grep Mem: | awk '{print $2}'"%string (Exited 0 ("2048" ++ Py.nl)%string)).
  - reflexivity.
  - vm_compute. repeat (first [left; reflexivity | right]).
Defined.

(** ** The plan of a run *)

Lemma ascending_lower evs : forall lo lo' hi,
  (lo' <= lo)%nat -> ascending lo evs hi -> ascending lo' evs hi.
Proof.
  induction evs as [|[c o| | | | ] evs IH]; cbn [ascending]; intros lo lo' hi Hle; eauto.
  - lia.
  - intros [Hlt Hrest]. split; [lia|exact Hrest].
Qed.

Lemma ascending_le evs : forall lo hi, ascending lo evs hi -> (lo <= hi)%nat.
Proof.
  induction evs as [|[c o| | | | ] evs IH]; cbn [ascending]; intros lo hi; eauto.
  intros [Hlt Hrest]. apply IH in Hrest. lia.
Qed.

Lemma ascending_at mid : forall lo hi c o post,
  ascending lo (mid ++ Invoked c o :: post) hi -> (lo < position c <= hi)%nat.
Proof.
  induction mid as [|[c' o'| | | | ] mid IH]; cbn [ascending app]; intros lo hi c o post; eauto.
  - intros [Hlt Hrest]. apply ascending_le in Hrest. lia.
  - intros [Hlt Hrest]. apply IH in Hrest. lia.
Qed.

Lemma ascending_pair pre : forall lo hi c1 o1 mid c2 o2 post,
  ascending lo (pre ++ Invoked c1 o1 :: mid ++ Invoked c2 o2 :: post) hi ->
  (lo < position c1 /\ position c1 < position c2 <= hi)%nat.
Proof.
  induction pre as [|[c' o'| | | | ] pre IH]; cbn [ascending app];
    intros lo hi c1 o1 mid c2 o2 post; eauto.
  - intros [Hlt Hrest]. apply ascending_at in Hrest. lia.
  - intros [Hlt Hrest]. apply IH in Hrest. lia.
Qed.

Lemma position_from_le steps : forall n c,
  (1 <= n)%nat -> (position_from n steps c <= n - 1 + List.length steps)%nat.
Proof.
  induction steps as [|p steps IH]; intros n c Hn; cbn [position_from List.length]; [lia|].
  destruct (String.prefix p c); [lia|].
  specialize (IH (S n) c ltac:(lia)). lia.
Qed.

Lemma position_le c : (position c <= List.length plan_steps)%nat.
Proof. unfold position. pose proof (position_from_le plan_steps 1 c). lia. Qed.

Lemma consecutive_app evs1 : forall lo mid hi evs2,
  consecutive lo evs1 mid -> consecutive mid evs2 hi -> consecutive lo (evs1 ++ evs2) hi.
Proof.
  induction evs1 as [|[c o| | | | ] evs1 IH]; cbn [consecutive app]; intros lo mid hi evs2; eauto.
  - intros ->. auto.
  - intros [Hp Hrest] H2. split; [exact Hp|eauto].
Qed.

Lemma consecutive_ascending evs : forall lo hi, consecutive lo evs hi -> ascending lo evs hi.
Proof.
  induction evs as [|[c o| | | | ] evs IH]; cbn [consecutive ascending]; intros lo hi; eauto.
  - intros ->. lia.
  - intros [Hp Hrest]. rewrite Hp. split; [lia|eauto].
Qed.

Lemma consecutive_places evs : forall lo hi,
  consecutive lo evs hi -> places evs = seq (S lo) (hi - lo).
Proof.
  induction evs as [|[c o| | | | ] evs IH]; cbn [consecutive]; intros lo hi; eauto.
  - intros ->. rewrite Nat.sub_diag. reflexivity.
  - intros [Hp Hrest]. pose proof (consecutive_ascending _ _ _ Hrest) as Hle.
    apply ascending_le in Hle.
    change (places (Invoked c o :: evs)) with (position c :: places evs).
    rewrite (IH _ _ Hrest), Hp.
    replace (hi - lo)%nat with (S (hi - S lo)) by lia. reflexivity.
Qed.

Section PlanRules.

Variable H : Host.

Lemma plan_bind {A B} (m : M A) (k : A -> M B) lo mid hi :
  sat m (in_plan_order lo mid) -> (forall a, sat (k a) (in_plan_order mid hi)) ->
  sat (bind m k) (in_plan_order lo hi).
Proof.
  intros Hm Hk t. rewrite bind_case.
  destruct (Hm t) as (evs1 & E1 & Q1).
  destruct (m t) as [[e|a] t1]; cbn [fst snd err_of] in *.
  - exists evs1. now split.
  - destruct (Hk a t1) as (evs2 & E2 & Q2).
    exists (evs1 ++ evs2). subst t1. split.
    + rewrite E2. symmetry. apply app_assoc.
    + unfold in_plan_order in *. destruct (err_of (fst (k a (t ++ evs1)))).
      * destruct Q2 as (hi' & Q2). exists hi'. eapply consecutive_app; eassumption.
      * eapply consecutive_app; eassumption.
Qed.

Lemma plan_ret {A} (a : A) lo : sat (ret a) (in_plan_order lo lo).
Proof. intros t. exists []. rewrite app_nil_r. split; reflexivity. Qed.

Lemma plan_raise {A} e lo hi : sat (@raise A e) (in_plan_order lo hi).
Proof. intros t. exists []. rewrite app_nil_r. split; [reflexivity|]. now exists lo. Qed.

Lemma plan_emit ev lo : silent ev -> sat (emit ev) (in_plan_order lo lo).
Proof.
  intros Hev t. exists [ev]. split; [reflexivity|].
  destruct ev; try destruct Hev; reflexivity.
Qed.

Lemma plan_lift {A} (o : option A) e lo : sat (lift o e) (in_plan_order lo lo).
Proof. destruct o; [apply plan_ret|apply plan_raise]. Qed.

Lemma plan_check_output c lo :
  position (Sh.render c) = S lo ->
  sat (check_output H c) (in_plan_order lo (S lo)).
Proof.
  intros Hp t. unfold check_output.
  destruct (sh H t c) as [status out|]; [destruct (status =? 0)|];
    (eexists; split; [reflexivity|]); unfold in_plan_order; cbn [fst err_of consecutive];
    first [now split | exists (S lo); now split].
Qed.

Lemma plan_check_call c lo :
  position (Sh.render c) = S lo ->
  sat (check_call H c) (in_plan_order lo (S lo)).
Proof.
  intros Hp. unfold check_call. eapply plan_bind; [now apply plan_check_output|].
  intros _. apply plan_ret.
Qed.

Lemma plan_open_w path lo : sat (open_w H path) (in_plan_order lo lo).
Proof.
  intros t. unfold open_w. destruct (can_write H t path).
  - exists [Opened path]. split; reflexivity.
  - exists []. rewrite app_nil_r. split; [reflexivity|]. now exists lo.
Qed.

Lemma plan_slurp path lo : sat (slurp H path) (in_plan_order lo lo).
Proof.
  intros t. unfold slurp. destruct (read_file H t path).
  - exists []. rewrite app_nil_r. split; reflexivity.
  - exists []. rewrite app_nil_r. split; [reflexivity|]. now exists lo.
Qed.

Lemma plan_hostname lo : sat (__get_hostname H) (in_plan_order lo lo).
Proof. intros t. exists []. rewrite app_nil_r. split; reflexivity. Qed.

Lemma plan_for_each {A S} (xs : list A) (body : S -> A -> M S) lo :
  (forall s x, sat (body s x) (in_plan_order lo lo)) ->
  forall s, sat (for_each xs body s) (in_plan_order lo lo).
Proof.
  intros Hbody. induction xs as [|x xs IH]; intros s; cbn [for_each].
  - apply plan_ret.
  - eapply plan_bind; [apply Hbody|exact IH].
Qed.

End PlanRules.

(** Walking through a program along the plan. *)

Ltac plan_walk :=
  repeat
    (cbv beta iota zeta;
     lazymatch goal with
     | |- sat (bind _ _) _ => eapply plan_bind; [ | intros ?]
     | |- sat (ret _) _ => eapply plan_ret
     | |- sat (raise _) _ => eapply plan_raise
     | |- sat (emit _) _ => eapply plan_emit; exact I
     | |- sat (LOG_info _ _) _ => eapply plan_emit; exact I
     | |- sat (LOG_debug _ _) _ => eapply plan_emit; exact I
     | |- sat (LOG_exception _ _) _ => eapply plan_emit; exact I
     | |- sat (f_write _ _) _ => eapply plan_emit; exact I
     | |- sat (update _ _ _) _ => unfold update
     | |- sat (py_int _) _ => eapply plan_lift
     | |- sat (py_index _ _) _ => eapply plan_lift
     | |- sat (lift _ _) _ => eapply plan_lift
     | |- sat (check_output _ _) _ => eapply plan_check_output; reflexivity
     | |- sat (check_call _ _) _ => eapply plan_check_call; reflexivity
     | |- sat (open_w _ _) _ => eapply plan_open_w
     | |- sat (slurp _ _) _ => eapply plan_slurp
     | |- sat (__get_hostname _) _ => eapply plan_hostname
     | |- sat (for_each _ _ _) _ =>
         first [ progress cbn [for_each PACKAGES_REQUIRED REQUIRED_PHORONIX_TESTS REQUIRED_FIO_TESTS]
               | eapply plan_for_each; intros ? ? ]
     | |- sat (if ?b then _ else _) _ => destruct b
     | |- sat (match ?x with _ => _ end) _ => destruct x
     | |- sat (let (_, _) := ?x in _) _ => destruct x
     end).

(** [install_deps] runs the first eleven command lines of the plan. *)
Lemma install_deps_in_plan_order H args : sat (install_deps H args) (in_plan_order 0 11).
Proof. unfold_script. plan_walk. Qed.

(** [run_tests] runs the last seven. *)
Lemma run_tests_in_plan_order H args : sat (run_tests H args) (in_plan_order 11 18).
Proof. unfold_script. plan_walk. Qed.

Lemma run_ascending H args t :
  exists evs hi, snd (run H args t) = t ++ evs /\ ascending 0 evs hi.
Proof.
  assert (Hrun : exists lo, sat (run H args) (in_plan_order lo 18)).
  { unfold run. destruct (deps args).
    - exists 0%nat. eapply plan_bind; [|intros ?; apply run_tests_in_plan_order].
      eapply plan_bind; [eapply plan_emit; exact I|intros ?; apply install_deps_in_plan_order].
    - exists 11%nat. eapply plan_bind; [apply plan_ret|intros ?; apply run_tests_in_plan_order]. }
  destruct Hrun as (lo & Hrun). destruct (Hrun t) as (evs & Et & Q).
  unfold in_plan_order in Q.
  assert (Hc : exists hi, consecutive lo evs hi).
  { destruct (err_of (fst (run H args t))); [exact Q|now exists 18%nat]. }
  destruct Hc as (hi & Hc). exists evs, hi. split; [exact Et|].
  apply (ascending_lower evs lo 0 hi); [lia|]. now apply consecutive_ascending.
Qed.

(** X12. The plan has 18 places: the eight [apt-get] lines, [wget], [dpkg],
    [batch-setup], the install and the batch run of the compute test, the
    memory query, iozone, the two fio tests, ioping.  Every command line a
    run invokes has a place in the plan, and of two command lines the one
    invoked first has the lower place: the order is that of the plan and
    no command line is invoked twice. *)
Theorem command_lines_follow_the_plan H args t :
  List.length plan_steps = 18%nat /\
  (forall pre c o post,
     snd (run H args t) = t ++ pre ++ Invoked c o :: post ->
     (1 <= position c <= 18)%nat) /\
  (forall pre c1 o1 mid c2 o2 post,
     snd (run H args t) = t ++ pre ++ Invoked c1 o1 :: mid ++ Invoked c2 o2 :: post ->
     (position c1 < position c2)%nat /\ c1 <> c2).
Proof.
  destruct (run_ascending H args t) as (evs & hi & Et & Hasc).
  split; [reflexivity|]. split.
  - intros pre c o post E. rewrite Et in E. apply app_inv_head in E. subst evs.
    apply ascending_at in Hasc. pose proof (position_le c) as Hle.
    change (List.length plan_steps) with 18%nat in Hle. lia.
  - intros pre c1 o1 mid c2 o2 post E. rewrite Et in E. apply app_inv_head in E. subst evs.
    apply ascending_pair in Hasc. split; [lia|]. intros ->. lia.
Qed.

Lemma command_lines_follow_the_plan_witness :
  (position Demo.batch_run < position "free -m | grep Mem: | awk '{print $2}'")%nat /\
  (1 <= position Demo.ioping_line <= 18)%nat.
Proof.
  pose (tr := snd (run Demo.healthy Demo.short_args [])).
  destruct (command_lines_follow_the_plan Demo.healthy Demo.short_args []) as (_ & H1 & H2).
  split.
  - apply (H2 (firstn 8 tr) Demo.batch_run (Exited 0 Demo.phoronix_out)
              (firstn 3 (skipn 9 tr))
              "free -m | grep Mem: | awk '{print $2}'"%string (Exited 0 ("2048" ++ Py.nl)%string)
              (skipn 13 tr)).
    vm_compute. reflexivity.
  - apply (H1 (firstn 48 tr) Demo.ioping_line (Exited 0 Demo.ioping_out) (skipn 49 tr)).
    vm_compute. reflexivity.
Defined.

Lemma run_without_deps H args :
  deps args = false -> sat (run H args) (each test_event).
Proof. intros Hd. unfold run. rewrite Hd. unfold_script. sat_walk each_side. Qed.

(** X13. Without [--deps], no command line of [install_deps] is invoked:
    every command line of the run is one of the compute family or of the
    I/O family. *)
Theorem nothing_installed_without_deps H args t evs c o :
  deps args = false ->
  snd (run H args t) = t ++ evs ->
  In (Invoked c o) evs ->
  ~ In c install_cmds /\ (is_compute_cmd c = true \/ is_io_cmd c = true).
Proof.
  intros Hd E Hin.
  destruct (run_without_deps H args Hd t) as (evs' & Et & Q). unfold each in Q.
  rewrite Et in E. apply app_inv_head in E. subst evs'.
  rewrite Forall_forall in Q. specialize (Q _ Hin). cbn [test_event] in Q.
  split; [|now apply orb_true_iff].
  intros Hc. cbn [install_cmds PACKAGES_REQUIRED map app In] in Hc.
  repeat (destruct Hc as [Hc|Hc]; [subst c; discriminate Q|]). destruct Hc.
Qed.

Lemma nothing_installed_without_deps_witness :
  is_compute_cmd Demo.batch_run = true \/ is_io_cmd Demo.batch_run = true.
Proof.
  apply (nothing_installed_without_deps Demo.healthy Demo.short_args []
           (snd (run Demo.healthy Demo.short_args [])) Demo.batch_run (Exited 0 Demo.phoronix_out)).
  - reflexivity.
  - reflexivity.
  - vm_compute. repeat (first [left; reflexivity | right]).
Defined.

Lemma install_deps_fail_fast H args : sat (install_deps H args) fail_fast.
Proof. unfold_script. sat_walk ff_side. Qed.

Lemma returned_all_succeeded evs :
  fail_fast None evs -> interrupt_last None evs -> all_succeeded evs.
Proof.
  intros [Hclean|(? & ? & ? & ? & _ & _ & _ & [=])] [Hun|(? & ? & _ & _ & [=])] c o Hin.
  destruct o as [status out|].
  - rewrite (Hclean _ _ _ Hin). now exists out.
  - destruct (Hun _ Hin).
Qed.

Lemma returned_ran_the_plan {A} (m : M A) lo hi t a t' :
  sat m (in_plan_order lo hi) -> sat m fail_fast -> sat m interrupt_last ->
  m t = (inr a, t') ->
  exists evs,
    t' = t ++ evs /\ places evs = seq (S lo) (hi - lo) /\ all_succeeded evs.
Proof.
  intros Hp Hf Hi E.
  destruct (Hp t) as (evs & Et & Qp). destruct (Hf t) as (evs1 & Et1 & Qf).
  destruct (Hi t) as (evs2 & Et2 & Qi).
  rewrite Et in Et1, Et2. apply app_inv_head in Et1, Et2. subst evs1 evs2.
  rewrite E in Et, Qp, Qf, Qi. cbn [fst snd err_of] in *.
  exists evs. split; [exact Et|]. split; [now apply consecutive_places|].
  now apply returned_all_succeeded.
Qed.

(** X14. When [install_deps] returns, it has invoked its eleven command
    lines, each once, in order, and each exited with 0; when [run_tests]
    returns, it has invoked the seven command lines of the tests, each
    once, in order, and each exited with 0: nothing is skipped. *)
Theorem returning_means_every_tool_ran H args t t' :
  (install_deps H args t = (inr tt, t') ->
   exists evs,
     t' = t ++ evs /\ places evs = [1; 2; 3; 4; 5; 6; 7; 8; 9; 10; 11]%nat /\
     all_succeeded evs) /\
  (run_tests H args t = (inr tt, t') ->
   exists evs,
     t' = t ++ evs /\ places evs = [12; 13; 14; 15; 16; 17; 18]%nat /\
     all_succeeded evs).
Proof.
  split; intros E.
  - exact (returned_ran_the_plan _ 0 11 t tt t' (install_deps_in_plan_order H args)
             (install_deps_fail_fast H args) (install_deps_interrupt_last H args) E).
  - exact (returned_ran_the_plan _ 11 18 t tt t' (run_tests_in_plan_order H args)
             (run_tests_fail_fast H args) (run_tests_interrupt_last H args) E).
Qed.

Lemma returning_means_every_tool_ran_witness :
  exists evs,
    snd (run_tests Demo.healthy Demo.short_args []) = [] ++ evs /\
    places evs = [12; 13; 14; 15; 16; 17; 18]%nat /\
    all_succeeded evs.
Proof.
  apply (proj2 (returning_means_every_tool_ran Demo.healthy Demo.short_args [] _)).
  vm_compute. reflexivity.
Defined.

(** ** The checksum of the download *)

Lemma install_deps_split H args t :
  install_deps H args t
  = bind (fetch H)
      (fun data =>
         bind (if String.eqb (md5_hexdigest H data) PHORONIX_MD5 then ret tt
               else LOG_exception "Remote phoronix debian package md5 mismatch (%s != %s)"
                      [AStr (md5_hexdigest H data); AStr PHORONIX_MD5])
           (fun _ =>
              bind (LOG_debug "CMD: %s" [AStr dpkg_cmd])
                (fun _ => bind (check_call H (Sh.plain dpkg_cmd)) (fun _ => setup_phoronix H)))) t.
Proof.
  unfold install_deps, fetch, bind, LOG_info, LOG_debug, emit.
  match goal with |- context [for_each ?xs ?b ?s t] => destruct (for_each xs b s t) as [[e|u] t1] end;
    [reflexivity|].
  match goal with |- context [check_call H ?c ?t0] => destruct (check_call H c t0) as [[e|u'] t2] end;
    [reflexivity|].
  destruct (slurp H PHORONIX_TMP t2) as [[e|data] t3]; reflexivity.
Qed.

Lemma fetch_no_mismatch H : sat (fetch H) (each (fun e => ~ md5_mismatch e)).
Proof. unfold fetch. sat_walk complaint_side. Qed.

Lemma setup_no_mismatch H : sat (setup_phoronix H) (each (fun e => ~ md5_mismatch e)).
Proof. unfold setup_phoronix. sat_walk complaint_side. Qed.

(** Installing the package: the command line is logged and invoked, whatever
    came before. *)

Lemma install_package_run H t :
  let t1 := t ++ [Logged DEBUG "CMD: %s" [AStr dpkg_cmd]] in
  exists rest,
    snd (bind (LOG_debug "CMD: %s" [AStr dpkg_cmd])
           (fun _ => bind (check_call H (Sh.plain dpkg_cmd)) (fun _ => setup_phoronix H)) t)
    = t ++ Logged DEBUG "CMD: %s" [AStr dpkg_cmd]
        :: Invoked dpkg_cmd (sh H t1 (Sh.plain dpkg_cmd)) :: rest /\
    Forall (fun e => ~ md5_mismatch e) rest.
Proof.
  intros t1. rewrite bind_case. unfold LOG_debug at 1, emit. fold t1.
  rewrite bind_case. unfold check_call at 1. rewrite bind_case. unfold check_output at 1.
  change (Sh.render (Sh.plain dpkg_cmd)) with dpkg_cmd.
  destruct (sh H t1 (Sh.plain dpkg_cmd)) as [status out|].
  - destruct (status =? 0).
    + unfold ret at 1.
      destruct (setup_no_mismatch H (t1 ++ [Invoked dpkg_cmd (Exited status out)]))
        as (evs & E & Q).
      exists evs. split; [|exact Q]. rewrite E. unfold t1. rewrite <- !app_assoc. reflexivity.
    + exists []. split; [|constructor]. cbn [snd]. unfold t1. rewrite <- !app_assoc. reflexivity.
  - exists []. split; [|constructor]. cbn [snd]. unfold t1. rewrite <- !app_assoc. reflexivity.
Qed.

Lemma not_among {A} (P : A -> Prop) l pre x post :
  Forall (fun e => ~ P e) l -> l = pre ++ x :: post -> ~ P x.
Proof.
  intros Hl ->. rewrite Forall_forall in Hl. apply Hl. apply in_or_app. right. now left.
Qed.

(** X15. A download whose MD5 is not the expected one is logged and
    installed all the same: whenever [install_deps] logs the mismatch, the
    next two events are the log record and the invocation of
    [sudo dpkg -i /tmp/phoronix.deb]. *)
Theorem md5_mismatch_does_not_stop_installation H args t pre a post :
  snd (install_deps H args t)
  = t ++ pre ++ Logged ERROR "Remote phoronix debian package md5 mismatch (%s != %s)" a :: post ->
  exists o rest,
    post = Logged DEBUG "CMD: %s" [AStr dpkg_cmd] :: Invoked dpkg_cmd o :: rest.
Proof.
  intros E. rewrite install_deps_split, bind_case in E.
  destruct (fetch_no_mismatch H t) as (evs1 & E1 & Q1). unfold each in Q1.
  destruct (fetch H t) as [[e|data] t1]; cbn [fst snd] in E1, E.
  - exfalso. rewrite E1 in E. apply app_inv_head in E.
    apply (not_among _ _ _ _ _ Q1 E). now exists a.
  - subst t1. rewrite bind_case in E.
    destruct (String.eqb (md5_hexdigest H data) PHORONIX_MD5).
    + exfalso. unfold ret at 1 in E.
      destruct (install_package_run H (t ++ evs1)) as (rest & E' & Q').
      rewrite E', <- app_assoc in E. apply app_inv_head in E.
      assert (Hall : Forall (fun e => ~ md5_mismatch e)
                       (evs1 ++ Logged DEBUG "CMD: %s" [AStr dpkg_cmd]
                          :: Invoked dpkg_cmd
                               (sh H ((t ++ evs1) ++ [Logged DEBUG "CMD: %s" [AStr dpkg_cmd]])
                                  (Sh.plain dpkg_cmd)) :: rest)).
      { apply Forall_app. split; [exact Q1|].
        constructor; [intros (? & [=])|]. constructor; [intros (? & [=])|]. exact Q'. }
      apply (not_among _ _ _ _ _ Hall E). now exists a.
    + unfold LOG_exception at 1, emit in E.
      destruct (install_package_run H
                  ((t ++ evs1) ++ [Logged ERROR "Remote phoronix debian package md5 mismatch (%s != %s)"
                                     [AStr (md5_hexdigest H data); AStr PHORONIX_MD5]]))
        as (rest & E' & Q').
      rewrite E', <- !app_assoc in E. apply app_inv_head in E. cbn [app] in E.
      symmetry in E. apply split_unique in E as (_ & _ & E).
      * eexists _, rest. exact E.
      * intros Hin. rewrite Forall_forall in Q1. apply (Q1 _ Hin). now exists a.
      * intros [Hin|[Hin|Hin]]; [discriminate Hin|discriminate Hin|].
        rewrite Forall_forall in Q'. apply (Q' _ Hin). now exists a.
Qed.

Lemma md5_mismatch_does_not_stop_installation_witness :
  exists o rest,
    skipn 28 (snd (install_deps
                     (mkhost (Demo.answers (fun _ => None))
                        (fun _ p => if String.eqb p PHORONIX_TMP then Some "deb"%string else None)
                        (fun _ _ => true) (fun _ => "node1"%string) "/root"
                        (fun _ => "d41d8cd98f00b204e9800998ecf8427e"%string))
                     Demo.short_args []))
    = Logged DEBUG "CMD: %s" [AStr dpkg_cmd] :: Invoked dpkg_cmd o :: rest.
Proof.
  pose (h := mkhost (Demo.answers (fun _ => None))
               (fun _ p => if String.eqb p PHORONIX_TMP then Some "deb"%string else None)
               (fun _ _ => true) (fun _ => "node1"%string) "/root"
               (fun _ => "d41d8cd98f00b204e9800998ecf8427e"%string)).
  pose (tr := snd (install_deps h Demo.short_args [])).
  apply (md5_mismatch_does_not_stop_installation h Demo.short_args [] (firstn 27 tr)
           [AStr "d41d8cd98f00b204e9800998ecf8427e"; AStr PHORONIX_MD5]).
  vm_compute. reflexivity.
Defined.

(** ** The sizes of the I/O tests *)

Ltac sized_side :=
  first
    [ apply each_sequential
    | intros; unfold each; repeat (apply Forall_cons || apply Forall_nil);
      first [ exact I
            | solve [unfold sized, io_test_cmds; cbn [In map app REQUIRED_FIO_TESTS];
                     repeat (first [left; reflexivity | right])]
            | solve [(eexists; split; [|split]); cycle 1;
                     [> reflexivity | eassumption | cbn [In REQUIRED_FIO_TESTS]; tauto]] ] ].

Lemma io_tests_sized H size_m size_k :
  sat (__run_iobench_test H size_m size_k) (each (sized size_m size_k)).
Proof. unfold_script. sat_walk sized_side. Qed.

(** X16. The sizes [__get_io_test_size] returns are the ones every I/O
    test of the call works with: after the query, the one iozone command
    line invoked is that of [size_m] and [size_k], every line written to a
    fio job file is a line of the job for [size_m], and the other command
    lines are the two fio runs and ioping. *)
Theorem io_tests_use_the_derived_size H args t size_m size_k t1 :
  __get_io_test_size H args t = (inr (size_m, size_k), t1) ->
  exists evs,
    snd (_run_tests_iobench H args t) = t1 ++ evs /\
    Forall (sized size_m size_k) evs.
Proof.
  intros E. unfold _run_tests_iobench. rewrite bind_case, E. rewrite bind_case.
  destruct (io_tests_sized H size_m size_k t1) as (evs & Et & Q).
  exists evs. split; [|exact Q].
  destruct (__run_iobench_test H size_m size_k t1) as [[e|d] t2]; exact Et.
Qed.

Lemma io_tests_use_the_derived_size_witness :
  exists evs,
    snd (_run_tests_iobench Demo.healthy Demo.long_args [])
    = [Logged DEBUG "CMD: %s" [AStr (Sh.render mem_query)];
       Invoked (Sh.render mem_query) (Exited 0 ("2048" ++ Py.nl)%string)] ++ evs /\
    Forall (sized (Py.PInt 4096) 4194304) evs.
Proof.
  apply (io_tests_use_the_derived_size Demo.healthy Demo.long_args []).
  reflexivity.
Defined.

(** X18. [--iobench_short_size] is declared with [action=store_true]: given
    on the command line its value is [True], not a number of megabytes.
    In mode [short] the sizes are then [(True, 1024)], the iozone command
    line reads [-g Truem -n Truem] and filters on [1024], and every fio
    job file has the line [size=Truem]. *)
Theorem size_flag_given_is_boolean H args t out ram :
  sh H (t ++ [Logged DEBUG "CMD: %s" [AStr (Sh.render mem_query)]]) mem_query = Exited 0 out ->
  Py.int (Py.strip out) = Some ram ->
  iobench_type args = "short"%string ->
  iobench_short_size args = Py.PBool true ->
  fst (__get_io_test_size H args t) = inr (Py.PBool true, 1024) /\
  Sh.render (iozone_cmd (Py.PBool true) 1024)
  = "cd /tmp && iozone -I -A -g Truem -n Truem -r 16 | grep 1024 | grep -v maximum | grep -v minimum"%string /\
  forall ft, In ("size=Truem" ++ Py.nl)%string (fio_job (Py.PBool true) ft).
Proof.
  intros Hsh Hint Hm Hs.
  pose proof (get_io_test_size_run H args t) as E. cbv zeta in E.
  rewrite Hsh, Hint, Hm, Hs in E. cbn [Z.eqb String.eqb Ascii.eqb Bool.eqb] in E.
  split; [rewrite E; reflexivity|]. split; [reflexivity|].
  intros ft. unfold fio_job. apply in_or_app. left. cbn [Py.num_str].
  do 5 right. left. reflexivity.
Qed.

Lemma size_flag_given_is_boolean_witness :
  fst (__get_io_test_size Demo.healthy (mkargs false false "short" (Py.PBool true)) [])
  = inr (Py.PBool true, 1024).
Proof.
  apply (size_flag_given_is_boolean Demo.healthy (mkargs false false "short" (Py.PBool true)) []
           ("2048" ++ Py.nl)%string 2048); reflexivity.
Defined.

(** ** The rows of the report *)











(** ** The files of a run *)

Ltac files_side :=
  first
    [ apply each_sequential
    | intros; unfold each; repeat (apply Forall_cons || apply Forall_nil);
      first [ exact I
            | solve [unfold known_file, files_written, fio_file; cbn [In map app REQUIRED_FIO_TESTS fio_hdr];
                     repeat (first [left; reflexivity | right])] ] ].

Lemma run_known_files H args : sat (run H args) (each (known_file H)).
Proof. unfold_script. sat_walk files_side. Qed.

(** X20. A run creates and writes four files and no other: the phoronix
    configuration document under the home directory, the job files of the
    two fio tests and the report. *)
Theorem only_four_files_are_written H args t :
  exists evs,
    snd (main H args t) = t ++ evs /\
    forall p,
      (In (Opened p) evs \/ exists chunk, In (Wrote p chunk) evs) ->
      In p [(home H ++ "/.phoronix-test-suite/user-config.xml")%string;
            "/tmp/random-write.fio"%string; "/tmp/random-read.fio"%string;
            "/tmp/cloudbench.csv"%string].
Proof.
  destruct (run_known_files H args t) as (evs & Et & Q). unfold each in Q.
  rewrite Forall_forall in Q.
  assert (Hev : forall p, (In (Opened p) evs \/ exists chunk, In (Wrote p chunk) evs) ->
                          In p (files_written H)).
  { intros p [Hin|(chunk & Hin)]; exact (Q _ Hin). }
  change (files_written H)
    with [(home H ++ "/.phoronix-test-suite/user-config.xml")%string;
          "/tmp/random-write.fio"%string; "/tmp/random-read.fio"%string;
          "/tmp/cloudbench.csv"%string] in Hev.
  unfold main. destruct (run H args t) as [[e|u] t']; cbn [fst snd] in *.
  - destruct (is_Exception e).
    + exists (evs ++ [Logged ERROR "%s" [AExn e]]). cbn [snd]. rewrite Et, app_assoc.
      split; [reflexivity|]. intros p [Hin|(chunk & Hin)]; apply Hev.
      * left. apply in_app_or in Hin as [Hin|[Hin|[]]]; [exact Hin|discriminate Hin].
      * right. exists chunk. apply in_app_or in Hin as [Hin|[Hin|[]]]; [exact Hin|discriminate Hin].
    + exists evs. split; [destruct e; exact Et|exact Hev].
  - exists evs. split; [exact Et|exact Hev].
Qed.

(** ** Log records and command lines *)

Lemma heralded_after_any evs : forall prev,
  heralded_after None evs -> heralded_after prev evs.
Proof.
  destruct evs as [|e evs]; cbn [heralded_after]; [auto|].
  intros prev [He Hrest]. split; [|exact Hrest].
  destruct e; auto. discriminate He.
Qed.

Lemma heralded_after_app evs1 : forall prev evs2,
  heralded_after prev evs1 -> heralded_after None evs2 ->
  heralded_after prev (evs1 ++ evs2).
Proof.
  induction evs1 as [|e evs1 IH]; cbn [heralded_after app]; intros prev evs2 H1 H2.
  - now apply heralded_after_any.
  - destruct H1 as [He Hrest]. split; [exact He|now apply IH].
Qed.

Lemma heralded_sequential : sequential heralded.
Proof. intros evs1 r evs2 H1 H2. now apply heralded_after_app. Qed.

Lemma heralded_at pre : forall prev c o post,
  heralded_after prev (pre ++ Invoked c o :: post) ->
  (exists pre', pre = pre' ++ [herald c]) \/ (pre = [] /\ prev = Some (herald c)).
Proof.
  induction pre as [|e pre IH]; cbn [heralded_after app]; intros prev c o post [He Hrest].
  - right. now split.
  - left. destruct (IH _ _ _ _ Hrest) as [(pre' & ->)|[-> [= ->]]].
    + now exists (e :: pre').
    + now exists [].
Qed.

Section HeraldRules.

Variable H : Host.

Lemma sat_heralded_output {B} ev c (k : string -> M B) :
  ev = herald (Sh.render c) ->
  (forall a, sat (k a) heralded) ->
  sat (bind (emit ev) (fun _ => bind (check_output H c) k)) heralded.
Proof.
  intros -> Hk t. rewrite bind_case. unfold emit at 1. rewrite bind_case.
  unfold check_output at 1.
  set (t1 := t ++ [herald (Sh.render c)]).
  assert (Hpair : forall o, heralded_after None [herald (Sh.render c); Invoked (Sh.render c) o]).
  { intros o. cbn [heralded_after]. split; [|now split].
    unfold herald. now destruct (String.eqb (Sh.render c) ioping_cmd). }
  destruct (sh H t1 c) as [status out|].
  - destruct (status =? 0).
    + destruct (Hk out (t1 ++ [Invoked (Sh.render c) (Exited status out)])) as (evs & E & Q).
      exists ([herald (Sh.render c); Invoked (Sh.render c) (Exited status out)] ++ evs).
      split; [rewrite E; unfold t1; rewrite <- !app_assoc; reflexivity|].
      apply heralded_after_app; [apply Hpair|exact Q].
    + eexists. split; [unfold t1; cbn [snd]; rewrite <- app_assoc; reflexivity|apply Hpair].
  - eexists. split; [unfold t1; cbn [snd]; rewrite <- app_assoc; reflexivity|apply Hpair].
Qed.

Lemma sat_heralded_call {B} ev c (k : unit -> M B) :
  ev = herald (Sh.render c) ->
  (forall a, sat (k a) heralded) ->
  sat (bind (emit ev) (fun _ => bind (check_call H c) k)) heralded.
Proof.
  intros Hev Hk t.
  destruct (sat_heralded_output ev c (fun _ => k tt) Hev (fun _ => Hk tt) t) as (evs & E & Q).
  assert (Eq : bind (emit ev) (fun _ => bind (check_call H c) k) t
               = bind (emit ev) (fun _ => bind (check_output H c) (fun _ => k tt)) t).
  { rewrite !bind_case. unfold emit, check_call. rewrite !bind_case.
    destruct (check_output H c _) as [[e|a] t1]; reflexivity. }
  exists evs. unfold heralded in *. rewrite Eq. split; [exact E|exact Q].
Qed.

Lemma sat_heralded_last ev c :
  ev = herald (Sh.render c) ->
  sat (bind (emit ev) (fun _ => check_call H c)) heralded.
Proof.
  intros Hev t.
  destruct (sat_heralded_call ev c (fun _ => ret tt) Hev (fun _ => sat_ret heralded tt I) t)
    as (evs & E & Q).
  assert (Eq : bind (emit ev) (fun _ => check_call H c) t
               = bind (emit ev) (fun _ => bind (check_call H c) (fun _ => ret tt)) t).
  { rewrite !bind_case. unfold emit. rewrite !bind_case.
    destruct (check_call H c _) as [[e|[]] t1]; reflexivity. }
  exists evs. unfold heralded in *. rewrite Eq. split; [exact E|exact Q].
Qed.

End HeraldRules.

Ltac heralded_side :=
  first
    [ exact heralded_sequential
    | solve [intros; cbn [heralded heralded_after]; repeat split] ].

Ltac sat_walk_heralded :=
  repeat
    (cbv beta iota zeta;
     lazymatch goal with
     | |- sat (bind (LOG_debug _ _) (fun _ => bind (check_output _ _) _)) _ =>
         apply sat_heralded_output; [reflexivity | intros ?]
     | |- sat (bind (LOG_info _ _) (fun _ => bind (check_output _ _) _)) _ =>
         apply sat_heralded_output; [reflexivity | intros ?]
     | |- sat (bind (LOG_debug _ _) (fun _ => bind (check_call _ _) _)) _ =>
         apply sat_heralded_call; [reflexivity | intros ?]
     | |- sat (bind (LOG_debug _ _) (fun _ => check_call _ _)) _ =>
         apply sat_heralded_last; reflexivity
     | |- sat (bind _ _) _ => apply sat_bind; [heralded_side | | intros ?]
     | |- sat (ret _) _ => apply sat_ret; heralded_side
     | |- sat (raise _) _ => apply sat_raise; heralded_side
     | |- sat (emit _) _ => apply sat_emit; heralded_side
     | |- sat (LOG_info _ _) _ => apply sat_emit; heralded_side
     | |- sat (LOG_debug _ _) _ => apply sat_emit; heralded_side
     | |- sat (LOG_exception _ _) _ => apply sat_emit; heralded_side
     | |- sat (f_write _ _) _ => apply sat_emit; heralded_side
     | |- sat (update _ _ _) _ => unfold update
     | |- sat (py_int _) _ => apply sat_lift; heralded_side
     | |- sat (py_index _ _) _ => apply sat_lift; heralded_side
     | |- sat (lift _ _) _ => apply sat_lift; heralded_side
     | |- sat (open_w _ _) _ => apply sat_open_w; heralded_side
     | |- sat (slurp _ _) _ => apply sat_slurp; heralded_side
     | |- sat (__get_hostname _) _ => apply sat_hostname; heralded_side
     | |- sat (for_each _ _ _) _ =>
         apply sat_for_each; [heralded_side | heralded_side | intros ? ? ?; pick_registry]
     | |- sat (if ?b then _ else _) _ => destruct b
     | |- sat (match ?x with _ => _ end) _ => destruct x
     | |- sat (let (_, _) := ?x in _) _ => destruct x
     end).

Lemma run_heralded H args : sat (run H args) heralded.
Proof. unfold_script. sat_walk_heralded. Qed.

Ltac unlogged_side :=
  first
    [ apply each_sequential
    | intros; unfold each; repeat (apply Forall_cons || apply Forall_nil);
      intros E; discriminate E ].

Lemma run_never_logs_ioping_line H args :
  sat (run H args) (each (fun e => e <> Logged DEBUG "CMD: %s" [AStr ioping_cmd])).
Proof. unfold_script. sat_walk unlogged_side. Qed.

(** X21. Every command line of a run is invoked just after a log record:
    the record [CMD: <command line>] of [LOG.debug] for all but ioping,
    whose command line comes just after the record [Running IOPing write
    latency tests] and is never logged. *)
Theorem command_lines_are_logged_except_ioping H args t :
  (forall pre c o post,
     snd (run H args t) = t ++ pre ++ Invoked c o :: post ->
     exists pre', pre = pre' ++ [herald c]) /\
  herald "ioping -B -D -c 3 /tmp" = Logged INFO "Running IOPing write latency tests" [] /\
  (forall c, c <> "ioping -B -D -c 3 /tmp"%string -> herald c = Logged DEBUG "CMD: %s" [AStr c]) /\
  exists evs,
    snd (run H args t) = t ++ evs /\
    ~ In (Logged DEBUG "CMD: %s" [AStr "ioping -B -D -c 3 /tmp"]) evs.
Proof.
  split; [|split; [reflexivity|split]].
  - intros pre c o post E. destruct (run_heralded H args t) as (evs & Et & Q).
    rewrite Et in E. apply app_inv_head in E. subst evs. unfold heralded in Q.
    apply heralded_at in Q as [Hpre|[_ [=]]]. exact Hpre.
  - intros c Hc. unfold herald. apply String.eqb_neq in Hc.
    change ioping_cmd with "ioping -B -D -c 3 /tmp"%string. now rewrite Hc.
  - destruct (run_never_logs_ioping_line H args t) as (evs & Et & Q). unfold each in Q.
    exists evs. split; [exact Et|]. intros Hin. rewrite Forall_forall in Q.
    exact (Q _ Hin eq_refl).
Qed.

Lemma command_lines_are_logged_except_ioping_witness :
  exists pre',
    firstn 48 (snd (run Demo.healthy Demo.short_args []))
    = pre' ++ [Logged INFO "Running IOPing write latency tests" []].
Proof.
  pose (tr := snd (run Demo.healthy Demo.short_args [])).
  apply (proj1 (command_lines_are_logged_except_ioping Demo.healthy Demo.short_args [])
           (firstn 48 tr) Demo.ioping_line (Exited 0 Demo.ioping_out) (skipn 49 tr)).
  vm_compute. reflexivity.
Defined.
